(** * node-crud-test-example: the note store, its identifiers and its pagination

    A shallow embedding of the data-access layer (src/dao/note-dao.js), the
    domain service (src/service/note-service.js), the entity classes
    (src/model/note.js, src/model/uuidv4.js), the bootstrap schema
    (src/dao/migrations/000_db_schema_create.sql) and the handlers of the
    HTTP routes (src/routes/note-routes.js).

    JavaScript values are an inductive type, exceptions are an error monad
    over the table state, the SQLite table is a finite map from the BLOB
    primary key to the remaining columns.  The clock, the entropy source and
    the outcome of each driver call are inputs of the operations that
    consult them; a reading of the clock is any integer, the wall clock of
    the store being one that can be set back. *)

From Stdlib Require Import ZArith QArith String Ascii.
From Stdlib Require Strings.Byte.
From stdpp Require Import base option list gmap fin_maps sorting strings countable.

Local Open Scope string_scope.
Local Open Scope list_scope.
Local Open Scope Z_scope.

Abbreviation byte := Corelib.Init.Byte.byte.

(* ===================================================================== *)
(** * Bytes and BLOB keys *)
(* ===================================================================== *)

Module Bytes.

Definition unsigned (b : byte) : Z := Z.of_N (Byte.to_N b).

(** Storing a number into a [Uint8Array] slot keeps its low eight bits. *)
Definition toUint8 (z : Z) : byte :=
  match Byte.of_N (Z.to_N (z mod 256)) with
  | Some b => b
  | None => Byte.x00
  end.

#[global] Instance byte_eq_dec : EqDecision byte := Byte.byte_eq_dec.

#[global] Instance byte_countable : Countable byte :=
  inj_countable Byte.to_N Byte.of_N Byte.of_to_N.

(** SQLite orders BLOBs with [memcmp], the shorter one first on a tie. *)
Fixpoint memcmp (a b : list byte) : comparison :=
  match a, b with
  | [], [] => Eq
  | [], _ :: _ => Lt
  | _ :: _, [] => Gt
  | x :: a', y :: b' =>
      match Z.compare (unsigned x) (unsigned y) with
      | Eq => memcmp a' b'
      | c => c
      end
  end.

Definition blob_gtb (a b : list byte) : bool :=
  match memcmp a b with Gt => true | _ => false end.

Definition blob_leb (a b : list byte) : bool := negb (blob_gtb a b).

End Bytes.
Export Bytes.

(* ===================================================================== *)
(** * Exceptions *)
(* ===================================================================== *)

(** Modelled from the spec: src/dao/dao-error.js and
    src/service/service-error.js, which declare [DaoError], [ServiceError]
    and [EntityNotFoundError], are not among the sources; the three are
    taken as the error kinds of the specification's taxonomy, built the
    way the callers build them ([new DaoError(message, { cause })]).
    [TypeError] and [RangeError] are the built-in ones, [SqliteError] is
    what the driver throws.  Messages are left out; the cause chain of the
    wrapping errors is kept. *)
Inductive Exn : Type :=
| TypeError
| RangeError
| SqliteError (code : string)
| DaoError (cause : Exn)
| ServiceError (cause : Exn)
| EntityNotFoundError.

Inductive result (A : Type) : Type :=
| Ok (a : A)
| Throw (e : Exn).
Arguments Ok {A} a.
Arguments Throw {A} e.

Definition is_ok {A} (r : result A) : bool :=
  match r with Ok _ => true | Throw _ => false end.

(* ===================================================================== *)
(** * The uuid package (version 9): validate, version, parse, v4 *)
(* ===================================================================== *)

Module Uuid.

(** ** Characters *)

Definition code (c : ascii) : Z := Z.of_N (N_of_ascii c).

Definition in_range (lo hi c : ascii) : bool :=
  (code lo <=? code c) && (code c <=? code hi).

Definition toLowerCase_char (c : ascii) : ascii :=
  if in_range "A" "Z" c then ascii_of_N (N_of_ascii c + 32) else c.

Fixpoint toLowerCase (s : string) : string :=
  match s with
  | EmptyString => EmptyString
  | String c r => String (toLowerCase_char c) (toLowerCase r)
  end.

(** Value of a hexadecimal digit, in either letter case. *)
Definition hexval (c : ascii) : option Z :=
  if in_range "0" "9" c then Some (code c - 48)
  else if in_range "a" "f" c then Some (code c - 87)
  else if in_range "A" "F" c then Some (code c - 55)
  else None.

(** ** regex.js

    [/^(?:[0-9a-f]{8}-[0-9a-f]{4}-[1-5][0-9a-f]{3}-[89ab][0-9a-f]{3}-[0-9a-f]{12}|00000000-0000-0000-0000-000000000000)$/i] *)

Inductive CharClass : Type :=
| Hex          (* [0-9a-f] *)
| Hyphen       (* - *)
| Version1to5  (* [1-5] *)
| Variant89ab  (* [89ab] *)
| Zero.        (* 0 *)

(** One character against one class, under the [i] flag. *)
Definition class_test (k : CharClass) (c : ascii) : bool :=
  let l := toLowerCase_char c in
  match k with
  | Hex => in_range "0" "9" l || in_range "a" "f" l
  | Hyphen => Ascii.eqb l "-"
  | Version1to5 => in_range "1" "5" l
  | Variant89ab => in_range "8" "9" l || in_range "a" "b" l
  | Zero => Ascii.eqb l "0"
  end.

(** An anchored sequence of classes, [^...$]. *)
Fixpoint match_seq (p : list CharClass) (s : string) : bool :=
  match p, s with
  | [], EmptyString => true
  | k :: p', String c s' => class_test k c && match_seq p' s'
  | _, _ => false
  end.

Definition REGEX : list (list CharClass) :=
  [ replicate 8 Hex ++ [Hyphen] ++ replicate 4 Hex ++ [Hyphen]
      ++ [Version1to5] ++ replicate 3 Hex ++ [Hyphen]
      ++ [Variant89ab] ++ replicate 3 Hex ++ [Hyphen] ++ replicate 12 Hex
  ; replicate 8 Zero ++ [Hyphen] ++ replicate 4 Zero ++ [Hyphen]
      ++ replicate 4 Zero ++ [Hyphen] ++ replicate 4 Zero ++ [Hyphen]
      ++ replicate 12 Zero ].

(** validate.js, on a string argument. *)
Definition validate (uuid : string) : bool :=
  existsb (fun p => match_seq p uuid) REGEX.

(** ** parseInt(_, 16)

    Only ever applied to slices of a validated string, which hold
    hexadecimal digits and nothing else; [None] stands for NaN. *)
Fixpoint parseInt16_from (acc : Z) (s : string) : Z :=
  match s with
  | EmptyString => acc
  | String c r =>
      match hexval c with
      | Some d => parseInt16_from (16 * acc + d) r
      | None => acc
      end
  end.

Definition parseInt16 (s : string) : option Z :=
  match s with
  | EmptyString => None
  | String c _ =>
      match hexval c with
      | Some _ => Some (parseInt16_from 0 s)
      | None => None
      end
  end.

(** [uuid.slice(a, b)] for [0 <= a <= b]. *)
Definition slice (a b : nat) (s : string) : string := substring a (b - a) s.

(** version.js: [parseInt(uuid.slice(14, 15), 16)] after validation. *)
Definition version (uuid : string) : result (option Z) :=
  if validate uuid then Ok (parseInt16 (slice 14 15 uuid)) else Throw TypeError.

(** ** parse.js *)

(** [v >>> n]: the operand is first taken modulo 2^32; NaN becomes 0. *)
Definition ushr (v : option Z) (n : Z) : Z :=
  match v with
  | Some z => Z.shiftr (z mod 2 ^ 32) n
  | None => 0
  end.

(** [v & m] for a non-negative mask below 2^31. *)
Definition band (v : option Z) (m : Z) : Z :=
  match v with
  | Some z => Z.land z m
  | None => 0
  end.

(** [(v / d) & m], the division being exact on these operands. *)
Definition div_band (v : option Z) (d m : Z) : Z :=
  match v with
  | Some z => Z.land (z / d) m
  | None => 0
  end.

Definition parse_bytes (uuid : string) : list byte :=
  let v0 := parseInt16 (slice 0 8 uuid) in
  let v1 := parseInt16 (slice 9 13 uuid) in
  let v2 := parseInt16 (slice 14 18 uuid) in
  let v3 := parseInt16 (slice 19 23 uuid) in
  let v4 := parseInt16 (slice 24 36 uuid) in
  [ toUint8 (ushr v0 24)
  ; toUint8 (Z.land (ushr v0 16) 255)
  ; toUint8 (Z.land (ushr v0 8) 255)
  ; toUint8 (band v0 255)
  ; toUint8 (ushr v1 8)
  ; toUint8 (band v1 255)
  ; toUint8 (ushr v2 8)
  ; toUint8 (band v2 255)
  ; toUint8 (ushr v3 8)
  ; toUint8 (band v3 255)
  ; toUint8 (div_band v4 (2 ^ 40) 255)
  ; toUint8 (div_band v4 (2 ^ 32) 255)
  ; toUint8 (Z.land (ushr v4 24) 255)
  ; toUint8 (Z.land (ushr v4 16) 255)
  ; toUint8 (Z.land (ushr v4 8) 255)
  ; toUint8 (band v4 255) ].

Definition parse (uuid : string) : result (list byte) :=
  if validate uuid then Ok (parse_bytes uuid) else Throw TypeError.

(** ** stringify.js *)

Definition hexDigit (n : Z) : ascii :=
  if n <? 10 then ascii_of_N (Z.to_N (48 + n)) else ascii_of_N (Z.to_N (87 + n)).

(** [byteToHex[b]]: [(b + 0x100).toString(16).slice(1)]. *)
Definition byteToHex (b : byte) : string :=
  String (hexDigit (unsigned b / 16)) (String (hexDigit (unsigned b mod 16)) EmptyString).

(** [byteToHex[arr[i]]]; a missing element prints as [undefined]. *)
Definition hexAt (arr : list byte) (i : nat) : string :=
  match arr !! i with
  | Some b => byteToHex b
  | None => "undefined"
  end.

Definition unsafeStringify (arr : list byte) : string :=
  toLowerCase
    (hexAt arr 0 ++ hexAt arr 1 ++ hexAt arr 2 ++ hexAt arr 3 ++ "-" ++
     hexAt arr 4 ++ hexAt arr 5 ++ "-" ++
     hexAt arr 6 ++ hexAt arr 7 ++ "-" ++
     hexAt arr 8 ++ hexAt arr 9 ++ "-" ++
     hexAt arr 10 ++ hexAt arr 11 ++ hexAt arr 12 ++
     hexAt arr 13 ++ hexAt arr 14 ++ hexAt arr 15).

(** ** v4.js

    [rnds[6] = (rnds[6] & 0x0f) | 0x40; rnds[8] = (rnds[8] & 0x3f) | 0x80].
    A write past the end of the buffer is dropped. *)
Definition set_version (b : byte) : byte :=
  toUint8 (Z.lor (Z.land (unsigned b) 15) 64).

Definition set_variant (b : byte) : byte :=
  toUint8 (Z.lor (Z.land (unsigned b) 63) 128).

Definition stamp (rnds : list byte) : list byte :=
  alter set_variant 8%nat (alter set_version 6%nat rnds).

(** [v4({ random: rnds })]; [v4()] is the same on sixteen fresh bytes. *)
Definition v4 (rnds : list byte) : string := unsafeStringify (stamp rnds).

End Uuid.

(* ===================================================================== *)
(** * The identifier class (src/model/uuidv4.js) *)
(* ===================================================================== *)

(** The constructor's guard, [!validateUuid(value) || uuidVersion(value) !== 4],
    negated: what a string must satisfy to be stored in [#value]. *)
Definition accepted (value : string) : bool :=
  Uuid.validate value &&
  match Uuid.version value with
  | Ok (Some 4) => true
  | _ => false
  end.

(** An instance holds a string that went through the constructor; the
    private field has no setter. *)
Record UuidV4 : Type := MkUuidV4 {
  value : string;
  value_accepted : accepted value = true
}.

(* ===================================================================== *)
(** * The entity classes (src/model/note.js) *)
(* ===================================================================== *)

(** A [Date] is its time value, in milliseconds since the epoch. *)
Definition Date : Type := Z.

Record NoteForCreate : Type := MkNoteForCreate {
  content : string
}.

(** [class NoteForUpdate extends NoteForCreate] *)
Record NoteForUpdate : Type := MkNoteForUpdate {
  NoteForUpdate_super :> NoteForCreate;
  id : UuidV4
}.

(** [class Note extends NoteForUpdate] *)
Record Note : Type := MkNote {
  Note_super :> NoteForUpdate;
  creationDateTime : Date;
  lastUpdatedDateTime : Date
}.

Record NoteListPage : Type := MkNoteListPage {
  pageSize : Z;
  notes : list Note
}.

(* ===================================================================== *)
(** * JavaScript values *)
(* ===================================================================== *)

Inductive Number : Type :=
| Finite (q : Q)
| NaN
| Infinity
| NegInfinity.

(** The values that reach the core.  [VObject] stands for an object of any
    other class ([{}], [[]], [new Set()]) whose conversion to a string,
    which the message of a guard asks for, returns; strings are primitive
    strings. *)
Inductive Value : Type :=
| VUndefined
| VNull
| VNumber (n : Number)
| VString (s : string)
| VDate (d : Date)
| VUuidV4 (u : UuidV4)
| VNoteForCreate (n : NoteForCreate)
| VNoteForUpdate (n : NoteForUpdate)
| VNote (n : Note)
| VObject.

Inductive Class : Type :=
| CDate | CUuidV4 | CNoteForCreate | CNoteForUpdate | CNote.

#[global] Instance Class_eq_dec : EqDecision Class.
Proof. solve_decision. Defined.

(** The [extends] clauses of the class declarations. *)
Definition extends (c : Class) : option Class :=
  match c with
  | CNoteForUpdate => Some CNoteForCreate
  | CNote => Some CNoteForUpdate
  | _ => None
  end.

Definition classOf (v : Value) : option Class :=
  match v with
  | VDate _ => Some CDate
  | VUuidV4 _ => Some CUuidV4
  | VNoteForCreate _ => Some CNoteForCreate
  | VNoteForUpdate _ => Some CNoteForUpdate
  | VNote _ => Some CNote
  | _ => None
  end.

(** The prototype chain of a class, itself first. *)
Fixpoint prototypes (fuel : nat) (c : Class) : list Class :=
  match fuel with
  | O => []
  | S fuel' =>
      c :: match extends c with
           | Some p => prototypes fuel' p
           | None => []
           end
  end.

(** [v instanceof k] *)
Definition instanceOf (v : Value) (k : Class) : bool :=
  match classOf v with
  | Some c => bool_decide (k ∈ prototypes 5 c)
  | None => false
  end.

(** [Number.isInteger] *)
Definition Number_isInteger (v : Value) : bool :=
  match v with
  | VNumber (Finite q) => Qnum q mod Z.pos (Qden q) =? 0
  | _ => false
  end.

(** The mathematical value of a number that passed [Number.isInteger]. *)
Definition integerValue (n : Number) : Z :=
  match n with
  | Finite q => Qnum q / Z.pos (Qden q)
  | _ => 0
  end.

(** The integer a value denotes once it passed [Number.isInteger]. *)
Definition toInteger (v : Value) : Z :=
  match v with
  | VNumber n => integerValue n
  | _ => 0
  end.

(** src/util/validation.js.  Of the two tests of [isString],
    [typeof value === "string"] decides: no value above is an instance of
    [String]. *)
Definition isDate (v : Value) : bool := instanceOf v CDate.

Definition isString (v : Value) : bool :=
  match v with
  | VString _ => true
  | _ => false
  end.

(** Reading the inherited fields of an instance: the view of a value as an
    instance of one of its classes. *)
Definition as_NoteForCreate (v : Value) : option NoteForCreate :=
  if instanceOf v CNoteForCreate then
    match v with
    | VNoteForCreate n => Some n
    | VNoteForUpdate n => Some (n : NoteForCreate)
    | VNote n => Some (n : NoteForCreate)
    | _ => None
    end
  else None.

Definition as_NoteForUpdate (v : Value) : option NoteForUpdate :=
  if instanceOf v CNoteForUpdate then
    match v with
    | VNoteForUpdate n => Some n
    | VNote n => Some (n : NoteForUpdate)
    | _ => None
    end
  else None.

Definition as_Note (v : Value) : option Note :=
  if instanceOf v CNote then
    match v with
    | VNote n => Some n
    | _ => None
    end
  else None.

Definition as_UuidV4 (v : Value) : option UuidV4 :=
  if instanceOf v CUuidV4 then
    match v with
    | VUuidV4 u => Some u
    | _ => None
    end
  else None.

(* ===================================================================== *)
(** * Exceptions as a monad *)
(* ===================================================================== *)

#[global] Instance result_ret : MRet result := λ A a, Ok a.
#[global] Instance result_bind : MBind result := λ A B f r,
  match r with
  | Ok a => f a
  | Throw e => Throw e
  end.

(** ** Constructors *)

(** [new UuidV4(value)] *)
Definition UuidV4_new (v : Value) : result UuidV4 :=
  match v with
  | VString s =>
      match decide (accepted s = true) with
      | left H => Ok (MkUuidV4 s H)
      | right _ => Throw TypeError
      end
  | _ => Throw TypeError
  end.

(** The payload of a primitive string and the time value of a [Date]. *)
Definition stringOf (v : Value) : string :=
  match v with VString s => s | _ => "" end.

Definition timeOf (v : Value) : Date :=
  match v with VDate d => d | _ => 0 end.

(** [new NoteForCreate(content)] *)
Definition NoteForCreate_new (content : Value) : result NoteForCreate :=
  if negb (isString content) then Throw TypeError
  else Ok (MkNoteForCreate (stringOf content)).

(** [new NoteForUpdate(id, content)]: the identifier is checked before the
    call to [super]. *)
Definition NoteForUpdate_new (id content : Value) : result NoteForUpdate :=
  match as_UuidV4 id with
  | None => Throw TypeError
  | Some u =>
      base ← NoteForCreate_new content;
      mret (MkNoteForUpdate base u)
  end.

(** [new Note(id, content, creationDateTime, lastUpdatedDateTime)] *)
Definition Note_new (id content creationDateTime lastUpdatedDateTime : Value)
  : result Note :=
  base ← NoteForUpdate_new id content;
  if negb (isDate creationDateTime) then Throw TypeError
  else if negb (isDate lastUpdatedDateTime) then Throw TypeError
  else mret (MkNote base (timeOf creationDateTime) (timeOf lastUpdatedDateTime)).

(** [new NoteListPage(pageSize, notes)], [notes] being an array. *)
Definition NoteListPage_new (pageSize : Value) (notes : list Value)
  : result NoteListPage :=
  if negb (Number_isInteger pageSize) then Throw TypeError
  else
    notesCopy ← mapM (λ note, match as_Note note with
                              | Some n => Ok n
                              | None => Throw TypeError
                              end) notes;
    mret (MkNoteListPage (toInteger pageSize) notesCopy).

(* ===================================================================== *)
(** * The Note table (src/dao/migrations/000_db_schema_create.sql) *)
(* ===================================================================== *)

Module Sql.

(** [content TEXT NOT NULL], [creationDateTime INT NOT NULL],
    [lastUpdatedDateTime INT NOT NULL]: the columns beside the key. *)
Record Cols : Type := MkCols {
  content : string;
  creationDateTime : Z;
  lastUpdatedDateTime : Z
}.

(** [id BLOB PRIMARY KEY]: at most one row for each key. *)
Abbreviation Table := (gmap (list byte) Cols).

(** A row as a query returns it, the key first. *)
Abbreviation Row := (list byte * Cols)%type.

(** Both [DEFAULT (CAST((unixepoch('subsec') * 1000) AS INTEGER))] columns
    are filled from the one clock reading [now] of the statement. *)
Definition default_cols (now : Z) (content : string) : Cols :=
  MkCols content now now.

(** [INSERT INTO Note (id, content) VALUES (:id, :content)] *)
Definition insert (now : Z) (id : list byte) (content : string) (t : Table)
  : result Table :=
  match t !! id with
  | Some _ => Throw (SqliteError "SQLITE_CONSTRAINT_PRIMARYKEY")
  | None => Ok (<[id := default_cols now content]> t)
  end.

(** [SELECT ... FROM Note WHERE id = :id], first row. *)
Definition select_by_id (id : list byte) (t : Table) : option Row :=
  cols ← t !! id; Some (id, cols).

(** [ORDER BY creationDateTime DESC, id ASC] *)
Definition page_leb (r1 r2 : Row) : bool :=
  (creationDateTime r2.2 <? creationDateTime r1.2) ||
  ((creationDateTime r1.2 =? creationDateTime r2.2) && blob_leb r1.1 r2.1).

Definition page_order : relation Row := λ r1 r2, page_leb r1 r2 = true.

#[global] Instance page_order_dec r1 r2 : Decision (page_order r1 r2).
Proof. unfold page_order. apply _. Defined.

(** [WHERE id > :afterId], present only with a cursor. *)
Definition where_after (afterId : option (list byte)) (r : Row) : bool :=
  match afterId with
  | Some a => blob_gtb r.1 a
  | None => true
  end.

(** [LIMIT n]; a negative bound means no bound. *)
Definition limit {A} (n : Z) (l : list A) : list A :=
  if n <? 0 then l else take (Z.to_nat n) l.

(** [SELECT ... FROM Note [WHERE id > :afterId]
     ORDER BY creationDateTime DESC, id ASC LIMIT :pageSize] *)
Definition select_page (afterId : option (list byte)) (pageSize : Z) (t : Table)
  : list Row :=
  limit pageSize
    (merge_sort page_order
       (filter (λ r, where_after afterId r = true) (map_to_list t))).

(** [SELECT ... FROM Note]: a [WITHOUT ROWID] table is scanned in key order. *)
Definition key_order : relation Row := λ r1 r2, blob_leb r1.1 r2.1 = true.

#[global] Instance key_order_dec r1 r2 : Decision (key_order r1 r2).
Proof. unfold key_order. apply _. Defined.

Definition select_all (t : Table) : list Row :=
  merge_sort key_order (map_to_list t).

(** [UPDATE Note SET content = :content WHERE id = :id], the statement
    alone: no other column is assigned. *)
Definition set_content (content : string) (c : Cols) : Cols :=
  MkCols content (creationDateTime c) (lastUpdatedDateTime c).

Definition update_content (id : list byte) (content : string) (t : Table)
  : Table :=
  alter (set_content content) id t.

(** [tr_Note_update_lastUpdatedDateTime_au], run for a row [new] that an
    UPDATE changed:
    [UPDATE Note SET lastUpdatedDateTime = <now> WHERE id = new.id]. *)
Definition set_lastUpdated (now : Z) (c : Cols) : Cols :=
  MkCols (content c) (creationDateTime c) now.

Definition tr_Note_update_lastUpdatedDateTime_au (now : Z) (new_id : list byte)
    (t : Table) : Table :=
  alter (set_lastUpdated now) new_id t.

(** The UPDATE with its AFTER UPDATE trigger: the trigger fires once for
    each row the statement matched, none when no row has the key. *)
Definition update (now : Z) (id : list byte) (content : string) (t : Table)
  : Table :=
  match t !! id with
  | Some _ =>
      tr_Note_update_lastUpdatedDateTime_au now id (update_content id content t)
  | None => update_content id content t
  end.

(** [DELETE FROM Note WHERE id = :id] *)
Definition delete_by_id (id : list byte) (t : Table) : Table := delete id t.

End Sql.

(* ===================================================================== *)
(** * Operations on the connection: state and exceptions *)
(* ===================================================================== *)

(** A computation reads and writes the table behind the connection and
    either returns or throws; what it wrote before throwing stays written
    unless a transaction takes it back. *)
Definition M (A : Type) : Type := Sql.Table → result A * Sql.Table.

#[global] Instance M_ret : MRet M := λ A a t, (Ok a, t).
#[global] Instance M_bind : MBind M := λ A B f m t,
  match m t with
  | (Ok a, t') => f a t'
  | (Throw e, t') => (Throw e, t')
  end.

Definition throw {A} (e : Exn) : M A := λ t, (Throw e, t).

Definition lift {A} (r : result A) : M A := λ t, (r, t).

(** [try { body } catch (err) { handler(err) }] *)
Definition try_catch {A} (body : M A) (handler : Exn → M A) : M A := λ t,
  match body t with
  | (Ok a, t') => (Ok a, t')
  | (Throw e, t') => handler e t'
  end.

(** ** The better-sqlite3 driver *)

Module Driver.

(** What the driver does with one statement: run it ([None]) or throw an
    [SqliteError] with the given code, the table untouched. *)
Definition Outcome : Type := option string.

(** A statement that reads. *)
Definition query {A} (o : Outcome) (q : Sql.Table → A) : M A := λ t,
  match o with
  | Some code => (Throw (SqliteError code), t)
  | None => (Ok (q t), t)
  end.

(** A statement that writes; a constraint violation is an [SqliteError]
    of the statement itself. *)
Definition run (o : Outcome) (stmt : Sql.Table → result Sql.Table) : M unit := λ t,
  match o with
  | Some code => (Throw (SqliteError code), t)
  | None =>
      match stmt t with
      | Ok t' => (Ok (), t')
      | Throw e => (Throw e, t)
      end
  end.

(** [db.transaction(fn).immediate(args)]: BEGIN IMMEDIATE, the function,
    COMMIT; when the function or the COMMIT throws, ROLLBACK and throw
    the same exception again. *)
Definition transaction_immediate {A} (begin commit : Outcome) (fn : M A) : M A := λ t,
  match begin with
  | Some code => (Throw (SqliteError code), t)
  | None =>
      match fn t with
      | (Ok a, t') =>
          match commit with
          | Some code => (Throw (SqliteError code), t)
          | None => (Ok a, t')
          end
      | (Throw e, _) => (Throw e, t)
      end
  end.

(** ** Text parameters

    The content of a note is held by the bytes of its UTF-8 encoding.  A
    JavaScript string can also hold a surrogate that has no partner; such a one is
    held by the three bytes of its code point, ED, then A0..BF, then
    80..BF, which well-formed UTF-8 does not contain. *)
Definition lone_surrogate (c1 c2 c3 : ascii) : bool :=
  (Uuid.code c1 =? 237)
  && (160 <=? Uuid.code c2) && (Uuid.code c2 <=? 191)
  && (128 <=? Uuid.code c3) && (Uuid.code c3 <=? 191).

(** What the driver writes for a string bound to a parameter of a
    statement: the text in well-formed UTF-8, each surrogate without a
    partner as U+FFFD REPLACEMENT CHARACTER, the bytes EF BF BD.  A TEXT
    column read back gives the string of what was written. *)
Fixpoint bind_text (s : string) : string :=
  match s with
  | EmptyString => EmptyString
  | String c1 rest =>
      match rest with
      | String c2 (String c3 rest') =>
          if lone_surrogate c1 c2 c3
          then String "239" (String "191" (String "189" (bind_text rest')))
          else String c1 (bind_text rest)
      | _ => String c1 (bind_text rest)
      end
  end.


End Driver.

(** Property reads on a value: [undefined] when the class lacks the getter. *)
Definition get_id (v : Value) : Value :=
  match as_NoteForUpdate v with
  | Some n => VUuidV4 (id n)
  | None => VUndefined
  end.

Definition is_undefined (v : Value) : bool :=
  match v with VUndefined => true | _ => false end.

(** [if (v)] *)
Definition truthy (v : Value) : bool :=
  match v with
  | VUndefined | VNull => false
  | VNumber (Finite q) => negb (Qnum q =? 0)
  | VNumber NaN => false
  | VString s => negb (String.eqb s "")
  | _ => true
  end.

(* ===================================================================== *)
(** * The data-access object (src/dao/note-dao.js) *)
(* ===================================================================== *)

Module NoteDao.

Definition MIN_PAGE_SIZE : Z := 1.
Definition MAX_PAGE_SIZE : Z := 100.
Definition DEFAULT_PAGE_SIZE : Z := 20.

(** [#mapRowToNote] *)
Definition mapRowToNote (row : Sql.Row) : result Note :=
  id ← UuidV4_new (VString (Uuid.v4 row.1));
  Note_new (VUuidV4 id)
           (VString (Sql.content row.2))
           (VDate (Sql.creationDateTime row.2))
           (VDate (Sql.lastUpdatedDateTime row.2)).

(** [create(note)]; [rnds] are the sixteen bytes [uuidv4()] draws, [now]
    the clock reading of the INSERT. *)
Definition create (rnds : list byte) (now : Z) (o : Driver.Outcome) (note : Value)
  : M UuidV4 :=
  match as_NoteForCreate note with
  | None => throw TypeError
  | Some n =>
      id ← lift (UuidV4_new (VString (Uuid.v4 rnds)));
      try_catch
        (key ← lift (Uuid.parse (value id));
         _ ← Driver.run o (Sql.insert now key (Driver.bind_text (content n)));
         mret id)
        (λ err, throw (DaoError err))
  end.

(** [findById(id)]; [None] is [null]. *)
Definition findById (o : Driver.Outcome) (id : Value) : M (option Note) :=
  match as_UuidV4 id with
  | None => throw TypeError
  | Some u =>
      try_catch
        (key ← lift (Uuid.parse (value u));
         row ← Driver.query o (Sql.select_by_id key);
         match row with
         | None => mret None
         | Some r => n ← lift (mapRowToNote r); mret (Some n)
         end)
        (λ err, throw (DaoError err))
  end.

(** The head of [list]: the default and the two guards on [pageSize]. *)
Definition resolve_pageSize (pageSize : Value) : result Value :=
  if is_undefined pageSize then
    Ok (VNumber (Finite (inject_Z DEFAULT_PAGE_SIZE)))
  else if negb (Number_isInteger pageSize) then Throw TypeError
  else
    if (toInteger pageSize <? MIN_PAGE_SIZE) || (MAX_PAGE_SIZE <? toInteger pageSize)
    then Throw RangeError
    else Ok pageSize.

Definition check_afterId (afterId : Value) : result unit :=
  if negb (is_undefined afterId) && negb (instanceOf afterId CUuidV4)
  then Throw TypeError
  else Ok ().

(** [params.afterId = parseUuid(afterId.value)] under [if (afterId)]. *)
Definition cursor_of (afterId : Value) : result (option (list byte)) :=
  if truthy afterId then
    match as_UuidV4 afterId with
    | Some u => key ← Uuid.parse (value u); mret (Some key)
    | None => Throw TypeError
    end
  else Ok None.

(** [list(pageSize, afterId)] *)
Definition list (o : Driver.Outcome) (pageSize afterId : Value) : M NoteListPage :=
  pageSize ← lift (resolve_pageSize pageSize);
  _ ← lift (check_afterId afterId);
  cursor ← lift (cursor_of afterId);
  try_catch
    (rows ← Driver.query o (Sql.select_page cursor (toInteger pageSize));
     notes ← lift (mapM mapRowToNote rows);
     lift (NoteListPage_new pageSize (VNote <$> notes)))
    (λ err, throw (DaoError err)).

(** [findAll()] *)
Definition findAll (o : Driver.Outcome) : M (Datatypes.list Note) :=
  try_catch
    (rows ← Driver.query o Sql.select_all;
     lift (mapM mapRowToNote rows))
    (λ err, throw (DaoError err)).

(** [update(note)]; [now] is the clock reading the trigger stamps. *)
Definition update (o : Driver.Outcome) (now : Z) (note : Value) : M unit :=
  match as_NoteForUpdate note with
  | None => throw TypeError
  | Some n =>
      try_catch
        (key ← lift (Uuid.parse (value (id n)));
         Driver.run o (λ t, Ok (Sql.update now key (Driver.bind_text (content n)) t)))
        (λ err, throw (DaoError err))
  end.

(** [deleteById(id)] *)
Definition deleteById (o : Driver.Outcome) (id : Value) : M unit :=
  match as_UuidV4 id with
  | None => throw TypeError
  | Some u =>
      try_catch
        (key ← lift (Uuid.parse (value u));
         Driver.run o (λ t, Ok (Sql.delete_by_id key t)))
        (λ err, throw (DaoError err))
  end.

End NoteDao.

(* ===================================================================== *)
(** * The domain service (src/service/note-service.js) *)
(* ===================================================================== *)

Module NoteService.

(** The driver outcomes of one existence-checked mutation: BEGIN
    IMMEDIATE, the lookup, the write, COMMIT. *)
Record TxOutcomes : Type := MkTxOutcomes {
  on_begin : Driver.Outcome;
  on_find : Driver.Outcome;
  on_write : Driver.Outcome;
  on_commit : Driver.Outcome
}.

Definition all_succeed : TxOutcomes := MkTxOutcomes None None None None.

Definition create (rnds : list byte) (now : Z) (o : Driver.Outcome) (note : Value)
  : M UuidV4 :=
  if negb (instanceOf note CNoteForCreate) then throw TypeError
  else try_catch (NoteDao.create rnds now o note)
                 (λ err, throw (ServiceError err)).

Definition findById (o : Driver.Outcome) (id : Value) : M (option Note) :=
  if negb (instanceOf id CUuidV4) then throw TypeError
  else try_catch (NoteDao.findById o id) (λ err, throw (ServiceError err)).

Definition list (o : Driver.Outcome) (pageSize afterId : Value) : M NoteListPage :=
  pageSize ← lift (NoteDao.resolve_pageSize pageSize);
  _ ← lift (NoteDao.check_afterId afterId);
  try_catch (NoteDao.list o pageSize afterId)
            (λ err, throw (ServiceError err)).

Definition findAll (o : Driver.Outcome) : M (Datatypes.list Note) :=
  try_catch (NoteDao.findAll o) (λ err, throw (ServiceError err)).

Definition update (o : TxOutcomes) (now : Z) (note : Value) : M unit :=
  if negb (instanceOf note CNoteForUpdate) then throw TypeError
  else
    Driver.transaction_immediate (on_begin o) (on_commit o)
      (existingNote ← try_catch (NoteDao.findById (on_find o) (get_id note))
                                (λ err, throw (ServiceError err));
       match existingNote with
       | None => throw EntityNotFoundError
       | Some _ =>
           try_catch (NoteDao.update (on_write o) now note)
                     (λ err, throw (ServiceError err))
       end).

Definition deleteById (o : TxOutcomes) (id : Value) : M unit :=
  if negb (instanceOf id CUuidV4) then throw TypeError
  else
    Driver.transaction_immediate (on_begin o) (on_commit o)
      (existingNote ← try_catch (NoteDao.findById (on_find o) id)
                                (λ err, throw (ServiceError err));
       match existingNote with
       | None => throw EntityNotFoundError
       | Some _ =>
           try_catch (NoteDao.deleteById (on_write o) id)
                     (λ err, throw (ServiceError err))
       end).

End NoteService.

(* ===================================================================== *)
(** * Vocabulary of the statements *)
(* ===================================================================== *)

(** The note a row maps to: the key printed as an identifier, the other
    columns as they are. *)
Definition note_of_row (r : Sql.Row) (n : Note) : Prop :=
  value (id n) = Uuid.v4 r.1 ∧
  content n = Sql.content r.2 ∧
  creationDateTime n = Sql.creationDateTime r.2 ∧
  lastUpdatedDateTime n = Sql.lastUpdatedDateTime r.2.

(** An operation ended in the [TypeError] of its guard, the table as it
    was; an operation did not end in a [TypeError]. *)
Definition rejected {A : Type} (t : Sql.Table) (r : result A * Sql.Table) : Prop :=
  r = (Throw TypeError, t).

Definition let_through {A : Type} (r : result A * Sql.Table) : Prop :=
  r.1 ≠ Throw TypeError.

(** Every key of the table is a sixteen-byte BLOB. *)
Definition keys_16 (t : Sql.Table) : Prop :=
  ∀ k c, t !! k = Some c → length k = 16%nat.

(** Every row was stamped by clock readings up to [now], the creation
    time no later than the last update. *)
Definition stamped_until (now : Z) (t : Sql.Table) : Prop :=
  ∀ k c, t !! k = Some c →
         Sql.creationDateTime c ≤ Sql.lastUpdatedDateTime c ≤ now.

(** A [pageSize] argument the guards let through, with the bound it
    stands for. *)
Inductive valid_pageSize : Value → Z → Prop :=
| pageSize_omitted : valid_pageSize VUndefined NoteDao.DEFAULT_PAGE_SIZE
| pageSize_given n :
    Number_isInteger (VNumber n) = true →
    NoteDao.MIN_PAGE_SIZE ≤ integerValue n ≤ NoteDao.MAX_PAGE_SIZE →
    valid_pageSize (VNumber n) (integerValue n).

(** An [afterId] argument the guard lets through, with the cursor key
    bound to the query. *)
Inductive valid_afterId : Value → option (list byte) → Prop :=
| afterId_omitted : valid_afterId VUndefined None
| afterId_given (u : UuidV4) :
    valid_afterId (VUuidV4 u) (Some (Uuid.parse_bytes (value u))).

(** Following the specification: the canonical form of an identifier is
    the lowercase dashed print of a 128-bit value carrying the version-4
    bits, which is what the generator returns for some sixteen bytes. *)
Definition canonical_v4 (s : string) : Prop :=
  ∃ rnds : list byte, length rnds = 16%nat ∧ s = Uuid.v4 rnds.

(** ** Digits and bytes *)

Module Digits.
Import Uuid.

(** The two printed digits of a byte. *)
Definition hi (b : byte) : ascii := toLowerCase_char (hexDigit (unsigned b / 16)).
Definition lo (b : byte) : ascii := toLowerCase_char (hexDigit (unsigned b mod 16)).

(** The value of a digit, 0 for any other character. *)
Definition nib (c : ascii) : Z := default 0 (hexval c).

(** The byte two digits stand for. *)
Definition pair_byte (c1 c2 : ascii) : byte := toUint8 (16 * nib c1 + nib c2).

End Digits.

(* ===================================================================== *)
(** * Sample data *)
(* ===================================================================== *)

Module Sample.

(** The two version-4 identifiers of test/model/uuidv4.test.js. *)
Definition uuidV4_0 : UuidV4 :=
  MkUuidV4 "109156be-c4fb-41ea-b1b4-efe1671c5836" eq_refl.
Definition uuidV4_1 : UuidV4 :=
  MkUuidV4 "6ec0bd7f-11c0-43da-975e-2a8ad9ebae0b" eq_refl.

Definition key_0 : list byte := Uuid.parse_bytes (value uuidV4_0).

(** A table holding one note, under the first identifier. *)
Definition one_note : Sql.Table :=
  {[ key_0 := Sql.MkCols "testNoteContent" 1000 1000 ]}.

Definition forUpdate_0 : NoteForUpdate :=
  MkNoteForUpdate (MkNoteForCreate "testNoteContentUpdated") uuidV4_0.
Definition forUpdate_1 : NoteForUpdate :=
  MkNoteForUpdate (MkNoteForCreate "testNoteContentUpdated") uuidV4_1.

End Sample.

(* ===================================================================== *)
(** * Paging through eleven notes *)
(* ===================================================================== *)

Module Scenario.

(** The sixteen bytes drawn for the [k]-th note: [k], then zeros. *)
Definition rnds (k : nat) : list byte :=
  toUint8 (Z.of_nat k) :: replicate 15 Byte.x00.

(** Notes created one after another, the [k]-th at clock reading
    [1000 + k]. *)
Definition create_all (contents : list string) : Sql.Table :=
  (foldl (λ (st : nat * Sql.Table) c,
            (S st.1,
             (NoteDao.create (rnds st.1) (1000 + Z.of_nat st.1) None
                (VNoteForCreate (MkNoteForCreate c)) st.2).2))
         (0%nat, ∅) contents).2.

Definition eleven_notes : Sql.Table :=
  create_all ["n0"; "n1"; "n2"; "n3"; "n4"; "n5"; "n6"; "n7"; "n8"; "n9"; "n10"].

Definition ten : Value := VNumber (Finite (inject_Z 10)).

Definition page_notes (r : result NoteListPage * Sql.Table) : list Note :=
  match r.1 with
  | Ok page => notes page
  | Throw _ => []
  end.

(** [list(10)], and [list(10, afterId)] with the id of the last note of
    that first page. *)
Definition first_page : list Note :=
  page_notes (NoteDao.list None ten VUndefined eleven_notes).

Definition cursor_after (page : list Note) : Value :=
  match list.last page with
  | Some n => VUuidV4 (id n)
  | None => VUndefined
  end.

Definition second_page : list Note :=
  page_notes (NoteDao.list None ten (cursor_after first_page) eleven_notes).

Definition contents (page : list Note) : list string :=
  (λ n : Note, content n) <$> page.

(** [list(100)]: every stored note on one page. *)
Definition whole_table : list Note :=
  page_notes (NoteDao.list None (VNumber (Finite (inject_Z 100))) VUndefined
                eleven_notes).

(** The caller's loop: ask for a page, pass the id of its last note as
    [afterId] of the next call, stop at an empty page. *)
Fixpoint enumerate (calls : nat) (pageSize afterId : Value) (t : Sql.Table)
  : list Note :=
  match calls with
  | O => []
  | S calls' =>
      let page := page_notes (NoteDao.list None pageSize afterId t) in
      match list.last page with
      | Some n => page ++ enumerate calls' pageSize (VUuidV4 (id n)) t
      | None => []
      end
  end.

End Scenario.

(* ===================================================================== *)
(** * Five notes with equal creation times *)
(* ===================================================================== *)

Module Mixed.

Definition create (k : nat) (now : Z) (c : string) (t : Sql.Table) : Sql.Table :=
  (NoteDao.create (Scenario.rnds k) now None
     (VNoteForCreate (MkNoteForCreate c)) t).2.

(** Notes [a] and [d] carry one creation time, [b] and [c] another, [e]
    the earliest; the identifiers ascend from [a] to [e]. *)
Definition five_notes : Sql.Table :=
  create 5 1000 "e" (create 4 3000 "d" (create 3 2000 "c"
    (create 2 2000 "b" (create 1 3000 "a" ∅)))).

(** The identifier of note [a]. *)
Definition id_a : UuidV4 :=
  MkUuidV4 "01000000-0000-4000-8000-000000000000" eq_refl.

Definition three : Value := VNumber (Finite (inject_Z 3)).

Definition row_contents (rows : list Sql.Row) : list string :=
  (λ r : Sql.Row, Sql.content r.2) <$> rows.

End Mixed.

(* ===================================================================== *)
(** * Histories of calls *)
(* ===================================================================== *)

(** Every key of the table is sixteen bytes that carry the version and
    variant bits, as the keys [parseUuid] makes of an identifier do. *)
Definition keys_v4 (t : Sql.Table) : Prop :=
  ∀ k c, t !! k = Some c → length k = 16%nat ∧ Uuid.stamp k = k.

(** The calls that write, with every argument and driver outcome they
    can be given. *)
Inductive Call : Type :=
| DaoCreate (rnds : list byte) (o : Driver.Outcome) (note : Value)
| DaoUpdate (o : Driver.Outcome) (note : Value)
| DaoDeleteById (o : Driver.Outcome) (id : Value)
| ServiceCreate (rnds : list byte) (o : Driver.Outcome) (note : Value)
| ServiceUpdate (o : NoteService.TxOutcomes) (note : Value)
| ServiceDeleteById (o : NoteService.TxOutcomes) (id : Value).

(** The table a call leaves behind, made at clock reading [now]. *)
Definition perform (c : Call) (now : Z) (t : Sql.Table) : Sql.Table :=
  match c with
  | DaoCreate rnds o note => (NoteDao.create rnds now o note t).2
  | DaoUpdate o note => (NoteDao.update o now note t).2
  | DaoDeleteById o id => (NoteDao.deleteById o id t).2
  | ServiceCreate rnds o note => (NoteService.create rnds now o note t).2
  | ServiceUpdate o note => (NoteService.update o now note t).2
  | ServiceDeleteById o id => (NoteService.deleteById o id t).2
  end.

(** A history: calls one after another, each with the reading of the
    wall clock at which the store runs it.  A reading can be earlier than
    the one before: the clock can be set back between two calls. *)
Fixpoint run (h : list (Z * Call)) (t : Sql.Table) : Sql.Table :=
  match h with
  | [] => t
  | (now, c) :: h' => run h' (perform c now t)
  end.

(** What one call can do to the table: nothing, add a row under the key of
    an identifier that had none, give the row of an identifier a new
    content and a new time of last update, or delete the row of an
    identifier. *)
Inductive touched (now : Z) (t : Sql.Table) : Sql.Table → Prop :=
| touched_not : touched now t t
| touched_added (u : UuidV4) (c : string) :
    t !! Uuid.parse_bytes (value u) = None →
    touched now t (<[Uuid.parse_bytes (value u) := Sql.default_cols now c]> t)
| touched_updated (u : UuidV4) (c : string) (old : Sql.Cols) :
    t !! Uuid.parse_bytes (value u) = Some old →
    touched now t (<[Uuid.parse_bytes (value u)
                     := Sql.MkCols c (Sql.creationDateTime old) now]> t)
| touched_deleted (u : UuidV4) :
    touched now t (delete (Uuid.parse_bytes (value u)) t).

(** The rows a query with the cursor chooses from: those above it. *)
Definition rows_above (cursor : option (list byte)) (t : Sql.Table) : nat :=
  length (filter (λ r, Sql.where_after cursor r = true) (map_to_list t)).

(** What the service makes of a result of the data-access object: a value
    goes through, an exception comes out inside a [ServiceError]. *)
Definition surfaced {A} (r : result A * Sql.Table) : result A * Sql.Table :=
  (match r.1 with
   | Ok a => Ok a
   | Throw e => Throw (ServiceError e)
   end, r.2).


(** A table of two notes, under the two sample identifiers. *)
Definition two_notes : Sql.Table :=
  <[Uuid.parse_bytes (value Sample.uuidV4_1) := Sql.MkCols "another" 1500 1500]>
    Sample.one_note.

(** The first sample identifier spelled in capitals. *)
Definition uuidV4_0_capitals : UuidV4 :=
  MkUuidV4 "109156BE-C4FB-41EA-B1B4-EFE1671C5836" eq_refl.

(* ===================================================================== *)
(** * The statement texts (src/dao/note-dao.js, dedent) *)
(* ===================================================================== *)

Module Dedent.

(** The characters [\s] and [trim] take for white space, among the code
    units below 256 that a string here is made of: tab, line feed,
    vertical tab, form feed, carriage return, space and no-break space. *)
Definition isSpace (c : ascii) : bool :=
  ((9 <=? Uuid.code c) && (Uuid.code c <=? 13))
  || (Uuid.code c =? 32) || (Uuid.code c =? 160).

Definition LF : ascii := "010"%char.

(** [str.split(LF)]: the pieces between the line feeds, one more than
    there are line feeds. *)
Fixpoint split (str : string) : list string :=
  match str with
  | EmptyString => [EmptyString]
  | String c rest =>
      if Ascii.eqb c LF then EmptyString :: split rest
      else match split rest with
           | line :: lines => String c line :: lines
           | [] => [String c EmptyString]
           end
  end.

(** [lines.join(LF)] *)
Fixpoint join (lines : list string) : string :=
  match lines with
  | [] => EmptyString
  | line :: rest =>
      match rest with
      | [] => line
      | _ :: _ => line ++ String LF (join rest)
      end
  end.

(** [String.prototype.trim], from both ends. *)
Fixpoint trimStart (s : string) : string :=
  match s with
  | EmptyString => EmptyString
  | String c rest => if isSpace c then trimStart rest else s
  end.

Fixpoint trimEnd (s : string) : string :=
  match s with
  | EmptyString => EmptyString
  | String c rest =>
      match trimEnd rest with
      | EmptyString => if isSpace c then EmptyString else String c EmptyString
      | kept => String c kept
      end
  end.

Definition trim (s : string) : string := trimEnd (trimStart s).

(** [line.match(/^\s*/)[0]]: the white space a line starts with. *)
Fixpoint leading (line : string) : string :=
  match line with
  | EmptyString => EmptyString
  | String c rest => if isSpace c then String c (leading rest) else EmptyString
  end.

(** [Math.min(...xs)], [None] for the [Infinity] of no argument. *)
Definition Math_min (xs : list nat) : option nat :=
  foldr (λ x m, match m with
                | None => Some x
                | Some y => Some (Nat.min x y)
                end) None xs.

(** [line.slice(start)] for a start that is a length or [Infinity]. *)
Fixpoint drop (k : nat) (line : string) : string :=
  match k, line with
  | O, _ => line
  | S k', String _ rest => drop k' rest
  | S _, EmptyString => EmptyString
  end.

Definition slice (start : option nat) (line : string) : string :=
  match start with
  | Some k => drop k line
  | None => EmptyString
  end.

(** [dedent(str)], with its constant [smallestIndent]. *)
Definition smallestIndent (lines : list string) : option nat :=
  Math_min ((λ line, String.length (leading line))
              <$> filter (λ line, truthy (VString (trim line)) = true) lines).

Definition dedent (str : string) : string :=
  let lines := split str in
  join (slice (smallestIndent lines) <$> lines).

(** A string with a line feed in it, and a string of white space alone. *)
Fixpoint has_LF (s : string) : bool :=
  match s with
  | EmptyString => false
  | String c rest => Ascii.eqb c LF || has_LF rest
  end.

Fixpoint all_space (s : string) : bool :=
  match s with
  | EmptyString => true
  | String c rest => isSpace c && all_space rest
  end.

End Dedent.

(* ===================================================================== *)
(** * The HTTP routes (src/routes/note-routes.js) *)
(* ===================================================================== *)

(** [parseInt(string, 10)] on a string of code units below 256: white
    space is skipped, then a sign, then the longest run of decimal digits
    is read; no digit makes [NaN].  The number is the double nearest to
    the integer read, as the engine of Node.js computes it: that integer
    up to 53 bits, an infinity from [2^1024 - 2^970] on, and in between
    the integer rounded to 53 significant bits, to the nearest and, of two
    that are as near, to the even one. *)
Module ParseInt.








End ParseInt.

Module NoteRoutes.

(** http-status-codes *)
Module StatusCodes.
Definition BAD_REQUEST : Z := 400.
Definition NOT_FOUND : Z := 404.
End StatusCodes.

(** The bodies the handlers give to [res.json]: [{ error: message }], a
    note, [{ id: id }], a page. *)
Inductive Body : Type :=
| error_body (message : string)
| note_body (n : Note)
| id_body (u : UuidV4)
| page_body (p : NoteListPage).

(** What a handler calls on [res] and on [next], in the order of the
    calls.  Calls of the logger are left out. *)
Inductive Effect : Type :=
| status (code : Z)
| json (body : Body)
| send
| next (err : Exn).

(** How the [async] handler ends: its promise is fulfilled, or rejected
    with the [ReferenceError] of reading a variable that is not declared. *)
Inductive Completion : Type :=
| fulfilled
| rejected_ReferenceError.

Definition Handler : Type := Sql.Table → (list Effect * Completion) * Sql.Table.




(** [new UuidV4(req.params.id)] under its [try]. *)
Definition check_id (id : string) : list Effect + UuidV4 :=
  match UuidV4_new (VString id) with
  | Ok u => inr u
  | Throw _ =>
      inl [status StatusCodes.BAD_REQUEST; json (error_body ("Invalid id " ++ id))]
  end.


(** [items.join(",")] *)
Fixpoint join (items : list string) : string :=
  match items with
  | [] => EmptyString
  | item :: rest =>
      match rest with
      | [] => item
      | _ :: _ => item ++ String "," (join rest)
      end
  end.




(** [router.get("/:id")].  The [catch] block reads [idValue], which no
    scope declares, while it builds the message for the logger. *)
Definition get_note (o : Driver.Outcome) (id : string) : Handler := λ t,
  match check_id id with
  | inl response => ((response, fulfilled), t)
  | inr id =>
      match NoteService.findById o (VUuidV4 id) t with
      | (Ok None, t') => (([status StatusCodes.NOT_FOUND; send], fulfilled), t')
      | (Ok (Some note), t') => (([json (note_body note)], fulfilled), t')
      | (Throw _, t') => (([], rejected_ReferenceError), t')
      end
  end.






End NoteRoutes.

(* ===================================================================== *)
(** * Proof support *)
(* ===================================================================== *)

Arguments Uuid.validate : simpl never.
Arguments Uuid.parse : simpl never.
Arguments Uuid.parse_bytes : simpl never.
Arguments Uuid.v4 : simpl never.
Arguments accepted : simpl never.
Arguments instanceOf : simpl never.
Arguments UuidV4_new : simpl never.
Arguments NoteDao.mapRowToNote : simpl never.
Arguments Driver.bind_text : simpl never.

Ltac ascii_cases c := destruct c as [[] [] [] [] [] [] [] []].

(* ===================================================================== *)
(** * Facts about bytes and identifier strings *)
(* ===================================================================== *)

Module UuidFacts.
Import Uuid Digits.

Lemma unsafeStringify_16 b0 b1 b2 b3 b4 b5 b6 b7 b8 b9 b10 b11 b12 b13 b14 b15 :
  unsafeStringify [b0; b1; b2; b3; b4; b5; b6; b7; b8; b9; b10; b11; b12; b13; b14; b15] =
  String (hi b0) (String (lo b0) (String (hi b1) (String (lo b1)
  (String (hi b2) (String (lo b2) (String (hi b3) (String (lo b3)
  (String "-" (String (hi b4) (String (lo b4) (String (hi b5) (String (lo b5)
  (String "-" (String (hi b6) (String (lo b6) (String (hi b7) (String (lo b7)
  (String "-" (String (hi b8) (String (lo b8) (String (hi b9) (String (lo b9)
  (String "-" (String (hi b10) (String (lo b10) (String (hi b11) (String (lo b11)
  (String (hi b12) (String (lo b12) (String (hi b13) (String (lo b13)
  (String (hi b14) (String (lo b14) (String (hi b15) (String (lo b15)
  EmptyString))))))))))))))))))))))))))))))))))).
Proof. reflexivity. Qed.

Lemma hi_hex b : class_test Hex (hi b) = true.
Proof. destruct b; reflexivity. Qed.

Lemma lo_hex b : class_test Hex (lo b) = true.
Proof. destruct b; reflexivity. Qed.

Lemma hi_version b : class_test Version1to5 (hi (set_version b)) = true.
Proof. destruct b; reflexivity. Qed.

Lemma hi_version_4 b : hi (set_version b) = "4"%char.
Proof. destruct b; reflexivity. Qed.

Lemma hi_variant b : class_test Variant89ab (hi (set_variant b)) = true.
Proof. destruct b; reflexivity. Qed.

Lemma list_16 {A} (l : list A) :
  length l = 16%nat →
  ∃ b0 b1 b2 b3 b4 b5 b6 b7 b8 b9 b10 b11 b12 b13 b14 b15,
    l = [b0; b1; b2; b3; b4; b5; b6; b7; b8; b9; b10; b11; b12; b13; b14; b15].
Proof.
  intros H.
  do 16 (destruct l as [|? l]; [discriminate H|]).
  destruct l; [|discriminate H].
  repeat eexists.
Qed.

(** Whatever sixteen bytes go in, the generator prints a string the
    identifier class accepts. *)
Lemma v4_accepted rnds : length rnds = 16%nat → accepted (v4 rnds) = true.
Proof.
  intros H. destruct (list_16 rnds H) as (b0&b1&b2&b3&b4&b5&b6&b7&b8&b9&b10&b11&b12&b13&b14&b15&->).
  unfold accepted, version, v4, stamp. cbn [alter list_alter].
  rewrite unsafeStringify_16.
  assert (Hv : validate
     (String (hi b0) (String (lo b0) (String (hi b1) (String (lo b1)
  (String (hi b2) (String (lo b2) (String (hi b3) (String (lo b3)
  (String "-" (String (hi b4) (String (lo b4) (String (hi b5) (String (lo b5)
  (String "-" (String (hi (set_version b6)) (String (lo (set_version b6)) (String (hi b7) (String (lo b7)
  (String "-" (String (hi (set_variant b8)) (String (lo (set_variant b8)) (String (hi b9) (String (lo b9)
  (String "-" (String (hi b10) (String (lo b10) (String (hi b11) (String (lo b11)
  (String (hi b12) (String (lo b12) (String (hi b13) (String (lo b13)
  (String (hi b14) (String (lo b14) (String (hi b15) (String (lo b15)
  EmptyString)))))))))))))))))))))))))))))))))))) = true).
  { unfold validate, REGEX. cbn [existsb replicate app match_seq].
    rewrite !hi_hex, !lo_hex, hi_version, hi_variant. reflexivity. }
  rewrite Hv. cbn [andb slice substring Nat.sub].
  rewrite hi_version_4. reflexivity.
Qed.

End UuidFacts.

(* ===================================================================== *)
(** * The orderings of the page query *)
(* ===================================================================== *)

Section orderings.

Lemma unsigned_inj (x y : byte) : unsigned x = unsigned y → x = y.
Proof.
  unfold unsigned. intros H. apply N2Z.inj in H.
  assert (Some x = Some y) as [= ->]; [|done].
  by rewrite <- (Byte.of_to_N x), <- (Byte.of_to_N y), H.
Qed.

Lemma memcmp_refl a : memcmp a a = Eq.
Proof. induction a as [|x a IH]; simpl; [done|]. by rewrite Z.compare_refl. Qed.

Lemma memcmp_eq a b : memcmp a b = Eq → a = b.
Proof.
  revert b. induction a as [|x a IH]; intros [|y b]; simpl; try done.
  destruct (Z.compare_spec (unsigned x) (unsigned y)) as [E| |]; try done.
  intros H. f_equal; [by apply unsigned_inj | by apply IH].
Qed.

Lemma memcmp_flip a b : memcmp b a = CompOpp (memcmp a b).
Proof.
  revert b. induction a as [|x a IH]; intros [|y b]; simpl; try done.
  rewrite (Z.compare_antisym (unsigned x) (unsigned y)).
  destruct (unsigned x ?= unsigned y); simpl; auto.
Qed.

Lemma memcmp_trans_le a b c :
  memcmp a b ≠ Gt → memcmp b c ≠ Gt → memcmp a c ≠ Gt.
Proof.
  revert b c. induction a as [|x a IH]; intros [|y b] [|z c]; simpl; try done.
  destruct (Z.compare_spec (unsigned x) (unsigned y)),
           (Z.compare_spec (unsigned y) (unsigned z)),
           (Z.compare_spec (unsigned x) (unsigned z));
    try done; try lia.
  apply IH.
Qed.

Lemma blob_leb_total a b : blob_leb a b = true ∨ blob_leb b a = true.
Proof.
  unfold blob_leb, blob_gtb. rewrite (memcmp_flip a b).
  destruct (memcmp a b); simpl; auto.
Qed.

Lemma blob_leb_trans a b c :
  blob_leb a b = true → blob_leb b c = true → blob_leb a c = true.
Proof.
  unfold blob_leb, blob_gtb. intros H1 H2.
  pose proof (memcmp_trans_le a b c) as H.
  destruct (memcmp a b), (memcmp b c), (memcmp a c); try done;
    exfalso; by apply H.
Qed.

Lemma blob_leb_antisym a b :
  blob_leb a b = true → blob_leb b a = true → a = b.
Proof.
  unfold blob_leb, blob_gtb. rewrite (memcmp_flip a b).
  destruct (memcmp a b) eqn:E; simpl; try done.
  intros _ _. by apply memcmp_eq.
Qed.

#[global] Instance page_order_total : Total Sql.page_order.
Proof.
  intros [k1 c1] [k2 c2]. unfold Sql.page_order, Sql.page_leb. simpl.
  destruct (blob_leb_total k1 k2) as [H|H]; rewrite H;
    destruct (Z.ltb_spec (Sql.creationDateTime c2) (Sql.creationDateTime c1)),
             (Z.ltb_spec (Sql.creationDateTime c1) (Sql.creationDateTime c2)),
             (Z.eqb_spec (Sql.creationDateTime c1) (Sql.creationDateTime c2)),
             (Z.eqb_spec (Sql.creationDateTime c2) (Sql.creationDateTime c1));
    simpl; auto; lia.
Qed.

#[global] Instance page_order_trans : Transitive Sql.page_order.
Proof.
  intros [k1 c1] [k2 c2] [k3 c3]. unfold Sql.page_order, Sql.page_leb. simpl.
  intros H12 H23.
  apply orb_true_iff in H12 as [H12|[E12 L12]%andb_true_iff];
    apply orb_true_iff in H23 as [H23|[E23 L23]%andb_true_iff];
    apply orb_true_iff;
    repeat match goal with
           | H : (_ <? _) = true |- _ => apply Z.ltb_lt in H
           | H : (_ =? _) = true |- _ => apply Z.eqb_eq in H
           end.
  - left. apply Z.ltb_lt. lia.
  - left. apply Z.ltb_lt. lia.
  - left. apply Z.ltb_lt. lia.
  - right. apply andb_true_iff. split; [apply Z.eqb_eq; lia|].
    by apply blob_leb_trans with k2.
Qed.

(** Read as a statement about two rows. *)
Lemma page_order_spec (r1 r2 : Sql.Row) :
  Sql.page_order r1 r2 ↔
  Sql.creationDateTime r2.2 < Sql.creationDateTime r1.2 ∨
  (Sql.creationDateTime r1.2 = Sql.creationDateTime r2.2 ∧ memcmp r1.1 r2.1 ≠ Gt).
Proof.
  unfold Sql.page_order, Sql.page_leb, blob_leb, blob_gtb.
  rewrite orb_true_iff, andb_true_iff, Z.ltb_lt, Z.eqb_eq.
  destruct (memcmp r1.1 r2.1); simpl; split; intros [?|[? ?]]; auto; done.
Qed.

End orderings.

(* ===================================================================== *)
(** * Running the operations *)
(* ===================================================================== *)

Section running.

Lemma as_UuidV4_instance u : as_UuidV4 (VUuidV4 u) = Some u.
Proof. reflexivity. Qed.

Lemma as_NoteForCreate_instance n : as_NoteForCreate (VNoteForCreate n) = Some n.
Proof. reflexivity. Qed.

Lemma as_NoteForUpdate_instance n : as_NoteForUpdate (VNoteForUpdate n) = Some n.
Proof. reflexivity. Qed.

Lemma as_Note_instance n : as_Note (VNote n) = Some n.
Proof. reflexivity. Qed.

Lemma UuidV4_eq (u1 u2 : UuidV4) : value u1 = value u2 → u1 = u2.
Proof.
  destruct u1 as [s1 H1], u2 as [s2 H2]. simpl. intros ->.
  f_equal. apply proof_irrel.
Qed.

Lemma UuidV4_new_accepted s :
  accepted s = true → ∃ u, UuidV4_new (VString s) = Ok u ∧ value u = s.
Proof.
  intros H. unfold UuidV4_new.
  destruct (decide (accepted s = true)) as [H'|]; [|done].
  by eexists.
Qed.

Lemma UuidV4_new_rejected s :
  accepted s = false → UuidV4_new (VString s) = Throw TypeError.
Proof.
  intros H. unfold UuidV4_new.
  destruct (decide (accepted s = true)) as [H'|]; [congruence|done].
Qed.

Lemma UuidV4_new_value v u : UuidV4_new v = Ok u → v = VString (value u).
Proof.
  unfold UuidV4_new. destruct v; try done.
  destruct (decide _); [|done]. by intros [= <-].
Qed.

Lemma parse_bytes_length s : length (Uuid.parse_bytes s) = 16%nat.
Proof. reflexivity. Qed.

Lemma parse_value (u : UuidV4) :
  Uuid.parse (value u) = Ok (Uuid.parse_bytes (value u)).
Proof.
  unfold Uuid.parse. pose proof (value_accepted u) as H.
  unfold accepted in H. apply andb_true_iff in H as [-> _]. done.
Qed.

Lemma mapRowToNote_ok (r : Sql.Row) :
  length r.1 = 16%nat →
  ∃ n, NoteDao.mapRowToNote r = Ok n ∧ note_of_row r n.
Proof.
  intros Hlen. unfold NoteDao.mapRowToNote.
  destruct (UuidV4_new_accepted (Uuid.v4 r.1)) as (u & -> & Hu);
    [by apply UuidFacts.v4_accepted|].
  simpl. eexists. split; [reflexivity|]. by repeat split.
Qed.

Lemma mapRowToNote_inv (r : Sql.Row) n :
  NoteDao.mapRowToNote r = Ok n → note_of_row r n.
Proof.
  unfold NoteDao.mapRowToNote. intros H.
  destruct (UuidV4_new _) as [u|] eqn:E; [|done].
  apply UuidV4_new_value in E. injection E as E.
  simpl in H. injection H as <-. by repeat split.
Qed.

Lemma findById_run (o : Driver.Outcome) (u : UuidV4) (t : Sql.Table) :
  NoteDao.findById o (VUuidV4 u) t =
  match o with
  | Some code => (Throw (DaoError (SqliteError code)), t)
  | None =>
      match t !! Uuid.parse_bytes (value u) with
      | None => (Ok None, t)
      | Some c =>
          match NoteDao.mapRowToNote (Uuid.parse_bytes (value u), c) with
          | Ok n => (Ok (Some n), t)
          | Throw e => (Throw (DaoError e), t)
          end
      end
  end.
Proof.
  unfold NoteDao.findById. rewrite as_UuidV4_instance.
  unfold try_catch, mbind, M_bind, lift, Driver.query,
    Sql.select_by_id, throw, mret, M_ret.
  rewrite parse_value.
  destruct o; [done|].
  destruct (t !! Uuid.parse_bytes (value u)) as [c|];
    cbn [mbind option_bind]; [|reflexivity].
  destruct (NoteDao.mapRowToNote (Uuid.parse_bytes (value u), c)); reflexivity.
Qed.

Lemma as_NoteForUpdate_instanceOf note n :
  as_NoteForUpdate note = Some n → instanceOf note CNoteForUpdate = true.
Proof. unfold as_NoteForUpdate. by destruct (instanceOf note CNoteForUpdate). Qed.

Lemma as_NoteForUpdate_get_id note n :
  as_NoteForUpdate note = Some n → get_id note = VUuidV4 (id n).
Proof. unfold get_id. by intros ->. Qed.

Lemma update_run (o : Driver.Outcome) (now : Z) (note : Value) (n : NoteForUpdate) (t : Sql.Table) :
  as_NoteForUpdate note = Some n →
  NoteDao.update o now note t =
  match o with
  | Some code => (Throw (DaoError (SqliteError code)), t)
  | None => (Ok (), Sql.update now (Uuid.parse_bytes (value (id n)))
                      (Driver.bind_text (content n)) t)
  end.
Proof.
  intros Hn. unfold NoteDao.update. rewrite Hn.
  unfold try_catch, mbind, M_bind, lift, Driver.run, throw.
  rewrite parse_value. by destruct o.
Qed.

Lemma deleteById_run (o : Driver.Outcome) (u : UuidV4) (t : Sql.Table) :
  NoteDao.deleteById o (VUuidV4 u) t =
  match o with
  | Some code => (Throw (DaoError (SqliteError code)), t)
  | None => (Ok (), Sql.delete_by_id (Uuid.parse_bytes (value u)) t)
  end.
Proof.
  unfold NoteDao.deleteById. rewrite as_UuidV4_instance.
  unfold try_catch, mbind, M_bind, lift, Driver.run, throw.
  rewrite parse_value. by destruct o.
Qed.

Lemma update_absent (now : Z) (key : list byte) (c : string) (t : Sql.Table) :
  t !! key = None → Sql.update now key c t = t.
Proof.
  intros H. unfold Sql.update, Sql.update_content. rewrite H.
  apply alter_id. intros x Hx. congruence.
Qed.

(** The service's existence-checked mutations, run on an identifier the
    table does not hold. *)
Lemma service_update_absent (o : NoteService.TxOutcomes) (now : Z) (note : Value)
    (n : NoteForUpdate) (t : Sql.Table) :
  as_NoteForUpdate note = Some n →
  t !! Uuid.parse_bytes (value (id n)) = None →
  NoteService.update o now note t =
  (match NoteService.on_begin o with
   | Some code => Throw (SqliteError code)
   | None =>
       match NoteService.on_find o with
       | Some code => Throw (ServiceError (DaoError (SqliteError code)))
       | None => Throw EntityNotFoundError
       end
   end, t).
Proof.
  intros Hn Hk. unfold NoteService.update.
  rewrite (as_NoteForUpdate_instanceOf _ _ Hn), (as_NoteForUpdate_get_id _ _ Hn).
  cbn [negb]. unfold Driver.transaction_immediate, try_catch, mbind, M_bind.
  rewrite findById_run, Hk.
  destruct (NoteService.on_begin o); [done|].
  by destruct (NoteService.on_find o).
Qed.

Lemma service_deleteById_absent (o : NoteService.TxOutcomes) (u : UuidV4)
    (t : Sql.Table) :
  t !! Uuid.parse_bytes (value u) = None →
  NoteService.deleteById o (VUuidV4 u) t =
  (match NoteService.on_begin o with
   | Some code => Throw (SqliteError code)
   | None =>
       match NoteService.on_find o with
       | Some code => Throw (ServiceError (DaoError (SqliteError code)))
       | None => Throw EntityNotFoundError
       end
   end, t).
Proof.
  intros Hk. unfold NoteService.deleteById.
  change (instanceOf (VUuidV4 u) CUuidV4) with true.
  cbn [negb]. unfold Driver.transaction_immediate, try_catch, mbind, M_bind.
  rewrite findById_run, Hk.
  destruct (NoteService.on_begin o); [done|].
  by destruct (NoteService.on_find o).
Qed.

(** A successful service-level delete removed the row of its key. *)
Lemma service_deleteById_ok (o : NoteService.TxOutcomes) (u : UuidV4) (t t' : Sql.Table) :
  NoteService.deleteById o (VUuidV4 u) t = (Ok (), t') →
  t' = delete (Uuid.parse_bytes (value u)) t.
Proof.
  unfold NoteService.deleteById.
  change (instanceOf (VUuidV4 u) CUuidV4) with true.
  cbn [negb]. unfold Driver.transaction_immediate, try_catch, mbind, M_bind.
  rewrite findById_run.
  destruct (NoteService.on_begin o); [done|].
  destruct (NoteService.on_find o); [done|].
  destruct (t !! Uuid.parse_bytes (value u)) as [c|]; [|done].
  destruct (NoteDao.mapRowToNote _); [|done].
  rewrite deleteById_run.
  destruct (NoteService.on_write o); [done|].
  destruct (NoteService.on_commit o); [done|].
  by intros [= <-].
Qed.

End running.

(* ===================================================================== *)
(** * Existence-checked mutation *)
(* ===================================================================== *)

(** C3. For an identifier that matches no stored note, the service-level
    [update] and [deleteById] leave the table exactly as it was and do not
    return, whatever the driver does; once the transaction has begun and
    the lookup has run, what they raise is [EntityNotFoundError].  After a
    successful [deleteById] the identifier matches no note any more, so a
    second [deleteById] raises [EntityNotFoundError], not a storage error. *)
Theorem service_mutation_of_absent_id :
  (∀ (t : Sql.Table) (now : Z) (note : Value) (n : NoteForUpdate)
     (o : NoteService.TxOutcomes),
     as_NoteForUpdate note = Some n →
     t !! Uuid.parse_bytes (value (id n)) = None →
     (NoteService.update o now note t).2 = t ∧
     is_ok (NoteService.update o now note t).1 = false ∧
     (NoteService.deleteById o (VUuidV4 (id n)) t).2 = t ∧
     is_ok (NoteService.deleteById o (VUuidV4 (id n)) t).1 = false ∧
     (NoteService.on_begin o = None → NoteService.on_find o = None →
      NoteService.update o now note t = (Throw EntityNotFoundError, t) ∧
      NoteService.deleteById o (VUuidV4 (id n)) t = (Throw EntityNotFoundError, t)))
  ∧
  (∀ (o o' : NoteService.TxOutcomes) (u : UuidV4) (t0 t1 : Sql.Table),
     NoteService.deleteById o (VUuidV4 u) t0 = (Ok (), t1) →
     NoteService.on_begin o' = None → NoteService.on_find o' = None →
     NoteService.deleteById o' (VUuidV4 u) t1 = (Throw EntityNotFoundError, t1)).
Proof.
  split.
  - intros t now note n o Hn Hk.
    rewrite (service_update_absent o now note n t Hn Hk),
            (service_deleteById_absent o (id n) t Hk).
    repeat split; try by destruct (NoteService.on_begin o), (NoteService.on_find o).
    all: by rewrite H, H0.
  - intros o o' u t0 t1 Hdel Hb Hf.
    apply service_deleteById_ok in Hdel as ->.
    rewrite service_deleteById_absent by apply lookup_delete_eq.
    by rewrite Hb, Hf.
Qed.

Lemma service_mutation_of_absent_id_witness :
  (as_NoteForUpdate (VNoteForUpdate Sample.forUpdate_1) = Some Sample.forUpdate_1 ∧
   Sample.one_note !! Uuid.parse_bytes (value (id Sample.forUpdate_1)) = None ∧
   NoteService.update NoteService.all_succeed 2000 (VNoteForUpdate Sample.forUpdate_1)
     Sample.one_note = (Throw EntityNotFoundError, Sample.one_note)) ∧
  (NoteService.deleteById NoteService.all_succeed (VUuidV4 Sample.uuidV4_0)
     Sample.one_note = (Ok (), ∅) ∧
   NoteService.deleteById NoteService.all_succeed (VUuidV4 Sample.uuidV4_0) ∅
     = (Throw EntityNotFoundError, ∅)).
Proof.
  split.
  - split; [reflexivity|]. split; [vm_compute; reflexivity|].
    apply (proj1 service_mutation_of_absent_id Sample.one_note 2000
             (VNoteForUpdate Sample.forUpdate_1) Sample.forUpdate_1
             NoteService.all_succeed);
      [reflexivity | vm_compute; reflexivity | reflexivity | reflexivity].
  - split; [vm_compute; reflexivity|].
    apply (proj2 service_mutation_of_absent_id NoteService.all_succeed
             NoteService.all_succeed Sample.uuidV4_0 Sample.one_note ∅);
      [vm_compute; reflexivity | reflexivity | reflexivity].
Defined.

(* ===================================================================== *)
(** * Lookup of an absent identifier *)
(* ===================================================================== *)

(** C8. On a table whose keys are sixteen-byte identifiers, [findById] of
    an identifier with no row returns [null]; this holds for an identifier
    that never had a row and for one whose row was deleted.  [findById]
    throws only when the driver fails the statement, and what it throws is
    then the [DaoError] whose cause is the driver's error. *)
Theorem findById_absent_is_null (t : Sql.Table) (u : UuidV4) :
  keys_16 t →
  (t !! Uuid.parse_bytes (value u) = None →
   NoteDao.findById None (VUuidV4 u) t = (Ok None, t)) ∧
  (NoteDao.findById None (VUuidV4 u) (NoteDao.deleteById None (VUuidV4 u) t).2
   = (Ok None, (NoteDao.deleteById None (VUuidV4 u) t).2)) ∧
  (∀ (o : Driver.Outcome) (e : Exn) (t' : Sql.Table),
     NoteDao.findById o (VUuidV4 u) t = (Throw e, t') →
     ∃ code, o = Some code ∧ e = DaoError (SqliteError code) ∧ t' = t) ∧
  (∀ code, NoteDao.findById (Some code) (VUuidV4 u) t
           = (Throw (DaoError (SqliteError code)), t)).
Proof.
  intros Hwf. repeat split.
  - intros Hk. by rewrite findById_run, Hk.
  - rewrite deleteById_run. cbn [snd]. rewrite findById_run.
    unfold Sql.delete_by_id. by rewrite lookup_delete_eq.
  - intros o e t'. rewrite findById_run.
    destruct o as [code|]; [intros [= <- <-]; by exists code|].
    destruct (t !! Uuid.parse_bytes (value u)) as [c|] eqn:Hk; [|done].
    destruct (mapRowToNote_ok (Uuid.parse_bytes (value u), c)) as (n & -> & _);
      [by apply parse_bytes_length|done].
  - intros code. by rewrite findById_run.
Qed.

Lemma findById_absent_is_null_witness :
  keys_16 Sample.one_note ∧
  NoteDao.findById None (VUuidV4 Sample.uuidV4_1) Sample.one_note
  = (Ok None, Sample.one_note).
Proof.
  assert (Hwf : keys_16 Sample.one_note).
  { intros k c Hk. unfold Sample.one_note in Hk.
    apply lookup_singleton_Some in Hk as [<- _]. reflexivity. }
  split; [exact Hwf|].
  apply (proj1 (findById_absent_is_null Sample.one_note Sample.uuidV4_1 Hwf)).
  vm_compute; reflexivity.
Defined.

(* ===================================================================== *)
(** * The unconditional update of the data-access layer *)
(* ===================================================================== *)

(** C9. The data-access [update], given an instance of [NoteForUpdate]
    whose identifier has no row, returns without an error and leaves the
    table as it was; when the driver fails the statement the table is as
    it was all the same. *)
Theorem dao_update_of_absent_id
    (t : Sql.Table) (now : Z) (note : Value) (n : NoteForUpdate) :
  as_NoteForUpdate note = Some n →
  t !! Uuid.parse_bytes (value (id n)) = None →
  NoteDao.update None now note t = (Ok (), t) ∧
  (∀ o : Driver.Outcome, (NoteDao.update o now note t).2 = t).
Proof.
  intros Hn Hk. split.
  - rewrite (update_run None now note n t Hn). by rewrite update_absent.
  - intros o. rewrite (update_run o now note n t Hn).
    destruct o; [done|]. cbn [snd]. by rewrite update_absent.
Qed.

Lemma dao_update_of_absent_id_witness :
  as_NoteForUpdate (VNoteForUpdate Sample.forUpdate_1) = Some Sample.forUpdate_1 ∧
  Sample.one_note !! Uuid.parse_bytes (value (id Sample.forUpdate_1)) = None ∧
  NoteDao.update None 2000 (VNoteForUpdate Sample.forUpdate_1) Sample.one_note
  = (Ok (), Sample.one_note).
Proof.
  split; [reflexivity|]. split; [vm_compute; reflexivity|].
  apply (dao_update_of_absent_id Sample.one_note 2000
           (VNoteForUpdate Sample.forUpdate_1) Sample.forUpdate_1);
    [reflexivity | vm_compute; reflexivity].
Defined.

(* ===================================================================== *)
(** * The page query *)
(* ===================================================================== *)

Section paging.

Lemma resolve_pageSize_valid ps bound :
  valid_pageSize ps bound →
  ∃ v, NoteDao.resolve_pageSize ps = Ok v ∧ toInteger v = bound ∧
       Number_isInteger v = true ∧ valid_pageSize v bound.
Proof.
  intros [|n Hint [Hlo Hhi]].
  - eexists. split; [reflexivity|]. split; [reflexivity|]. split; [reflexivity|].
    by apply (pageSize_given (Finite (inject_Z NoteDao.DEFAULT_PAGE_SIZE))).
  - exists (VNumber n). unfold NoteDao.resolve_pageSize.
    cbn [is_undefined]. rewrite Hint. cbn [negb toInteger].
    destruct (Z.ltb_spec (integerValue n) NoteDao.MIN_PAGE_SIZE); [lia|].
    destruct (Z.ltb_spec NoteDao.MAX_PAGE_SIZE (integerValue n)); [lia|].
    repeat split; try done. by constructor.
Qed.

Lemma check_afterId_valid a cursor :
  valid_afterId a cursor →
  NoteDao.check_afterId a = Ok () ∧ NoteDao.cursor_of a = Ok cursor.
Proof.
  intros [|u]; [done|]. split; [done|].
  unfold NoteDao.cursor_of. cbn [truthy]. rewrite as_UuidV4_instance.
  by rewrite parse_value.
Qed.

Lemma mapM_result_ok {A B} (f : A → result B) (l : list A) :
  Forall (λ x, ∃ y, f x = Ok y) l →
  ∃ k, mapM f l = Ok k ∧ Forall2 (λ x y, f x = Ok y) l k.
Proof.
  induction 1 as [|x l [y Hy] _ (k & Hk & IH)].
  - exists []. by split.
  - exists (y :: k). split; [|by constructor].
    cbn [mapM]. by rewrite Hy, Hk.
Qed.

Lemma mapM_as_Note (ns : list Note) :
  mapM (λ note, match as_Note note with
                | Some n => Ok n
                | None => Throw TypeError
                end) (VNote <$> ns) = Ok ns.
Proof.
  induction ns as [|n ns IH]; [done|].
  rewrite fmap_cons. cbn [mapM]. rewrite IH. reflexivity.
Qed.

Lemma limit_sublist {A} n (l : list A) : Sql.limit n l ⊆ l.
Proof.
  unfold Sql.limit. destruct (n <? 0); [done|].
  intros x Hx. rewrite <- (take_drop (Z.to_nat n) l).
  apply elem_of_app. by left.
Qed.

Lemma select_page_stored (cursor : option (list byte)) (n : Z) (t : Sql.Table)
    (r : Sql.Row) :
  r ∈ Sql.select_page cursor n t → t !! r.1 = Some r.2.
Proof.
  unfold Sql.select_page. intros H%limit_sublist.
  rewrite merge_sort_Permutation in H.
  apply list_elem_of_filter in H as [_ H].
  destruct r. by apply elem_of_map_to_list in H.
Qed.

(** With valid arguments, a table of sixteen-byte keys and a driver that
    runs the statement, [list] returns the page of the query. *)
Lemma list_run (t : Sql.Table) (ps a : Value) (bound : Z)
    (cursor : option (list byte)) :
  keys_16 t → valid_pageSize ps bound → valid_afterId a cursor →
  ∃ ns, NoteDao.list None ps a t = (Ok (MkNoteListPage bound ns), t) ∧
        Forall2 (λ r n, NoteDao.mapRowToNote r = Ok n)
                (Sql.select_page cursor bound t) ns.
Proof.
  intros Hwf Hps Ha.
  destruct (resolve_pageSize_valid ps bound Hps) as (v & Hv & Hb & Hint & _).
  destruct (check_afterId_valid a cursor Ha) as [Hc1 Hc2].
  destruct (mapM_result_ok NoteDao.mapRowToNote (Sql.select_page cursor bound t))
    as (ns & Hns & HF).
  { apply list.Forall_forall. intros r Hr%select_page_stored.
    destruct (mapRowToNote_ok r) as (n & Hn & _); [by eapply Hwf|by exists n]. }
  exists ns. split; [|done].
  unfold NoteDao.list, mbind, M_bind, lift, try_catch, Driver.query.
  rewrite Hv, Hc1, Hc2, Hb, Hns.
  unfold NoteListPage_new. rewrite Hint. cbn [negb].
  unfold mbind, result_bind, mret, result_ret.
  by rewrite mapM_as_Note, Hb.
Qed.

Lemma select_page_length (cursor : option (list byte)) (n : Z) (t : Sql.Table) :
  0 ≤ n → (Z.of_nat (length (Sql.select_page cursor n t)) ≤ n)%Z.
Proof.
  intros Hn. unfold Sql.select_page, Sql.limit.
  destruct (Z.ltb_spec n 0); [lia|].
  rewrite length_take. lia.
Qed.

End paging.

(* ===================================================================== *)
(** * What a page holds *)
(* ===================================================================== *)

Lemma StronglySorted_weaken {A} (R R' : relation A) (l : list A) :
  (∀ x y, R x y → R' x y) → StronglySorted R l → StronglySorted R' l.
Proof.
  intros HR. induction 1 as [|x l _ IH Hx]; constructor; [done|].
  eapply list.Forall_impl; [exact Hx|]. intros y. apply HR.
Qed.

Lemma where_after_spec (cursor : option (list byte)) (r : Sql.Row) :
  Sql.where_after cursor r = true ↔
  match cursor with
  | Some a => memcmp r.1 a = Gt
  | None => True
  end.
Proof.
  destruct cursor as [a|]; [|done]. unfold Sql.where_after, blob_gtb.
  by destruct (memcmp r.1 a).
Qed.

(** C2. With a valid [pageSize] (or none) and a valid [afterId] (or none),
    [list] returns a page whose [pageSize] field is the bound asked for,
    20 when omitted, whatever the number of notes in it.  Its notes are the
    first [pageSize] rows of the stored rows taken once each, those with
    [id <= afterId] in byte order left out when a cursor is given, put in
    the order [creationDateTime] descending, then [id] ascending. *)
Theorem list_returns_ordered_page
    (t : Sql.Table) (ps a : Value) (bound : Z) (cursor : option (list byte)) :
  keys_16 t → valid_pageSize ps bound → valid_afterId a cursor →
  ∃ (ns : list Note) (sorted : list Sql.Row),
    NoteDao.list None ps a t = (Ok (MkNoteListPage bound ns), t) ∧
    NoDup sorted ∧
    (∀ k c, (k, c) ∈ sorted ↔
            t !! k = Some c ∧
            match cursor with
            | Some after => memcmp k after = Gt
            | None => True
            end) ∧
    StronglySorted
      (λ r1 r2 : Sql.Row,
         Sql.creationDateTime r2.2 < Sql.creationDateTime r1.2 ∨
         (Sql.creationDateTime r1.2 = Sql.creationDateTime r2.2 ∧
          memcmp r1.1 r2.1 ≠ Gt))
      sorted ∧
    Forall2 note_of_row (take (Z.to_nat bound) sorted) ns ∧
    length ns = Nat.min (Z.to_nat bound) (length sorted).
Proof.
  intros Hwf Hps Ha.
  destruct (list_run t ps a bound cursor Hwf Hps Ha) as (ns & Hrun & HF).
  set (candidates := filter (λ r, Sql.where_after cursor r = true) (map_to_list t)).
  exists ns, (merge_sort Sql.page_order candidates).
  assert (Hbound : 0 ≤ bound).
  { destruct Hps; unfold NoteDao.DEFAULT_PAGE_SIZE, NoteDao.MIN_PAGE_SIZE in *; lia. }
  assert (Hrows : Sql.select_page cursor bound t
                  = take (Z.to_nat bound) (merge_sort Sql.page_order candidates)).
  { unfold Sql.select_page, Sql.limit. by destruct (Z.ltb_spec bound 0); [lia|]. }
  rewrite Hrows in HF.
  split; [done|]. split; [|split; [|split; [|split]]].
  - rewrite merge_sort_Permutation. apply list.NoDup_filter, NoDup_map_to_list.
  - intros k c. rewrite merge_sort_Permutation. unfold candidates.
    rewrite list_elem_of_filter, elem_of_map_to_list, where_after_spec. tauto.
  - eapply StronglySorted_weaken; [|apply (StronglySorted_merge_sort _)].
    intros r1 r2. apply page_order_spec.
  - eapply list.Forall2_impl; [exact HF|]. intros r n. apply mapRowToNote_inv.
  - apply Forall2_length in HF. rewrite <- HF. apply length_take.
Qed.

(** The rows of a page are determined: two lists of stored rows with the
    same members, each in page order, are the same list. *)
Lemma page_rows_unique (t : Sql.Table) (l1 l2 : list Sql.Row) :
  (∀ r, r ∈ l1 → t !! r.1 = Some r.2) →
  StronglySorted Sql.page_order l1 →
  StronglySorted Sql.page_order l2 →
  l1 ≡ₚ l2 →
  l1 = l2.
Proof.
  intros Hstored HS1 HS2 Hperm.
  apply (StronglySorted_unique_strong Sql.page_order); try done.
  intros [k1 c1] [k2 c2] H1%Hstored H2 H12 H21.
  rewrite <- Hperm in H2. apply Hstored in H2. cbn [fst snd] in *.
  unfold Sql.page_order, Sql.page_leb in H12, H21. cbn [fst snd] in *.
  apply orb_true_iff in H12 as [H12%Z.ltb_lt|[E12%Z.eqb_eq L12]%andb_true_iff];
    apply orb_true_iff in H21 as [H21%Z.ltb_lt|[E21%Z.eqb_eq L21]%andb_true_iff];
    try lia.
  assert (k1 = k2) as -> by by apply blob_leb_antisym.
  congruence.
Qed.

Lemma valid_pageSize_10 : valid_pageSize (VNumber (Finite (inject_Z 10))) 10.
Proof.
  apply (pageSize_given (Finite (inject_Z 10))); [reflexivity|].
  split; by vm_compute.
Qed.

Lemma keys_16_one_note : keys_16 Sample.one_note.
Proof.
  intros k c Hk. unfold Sample.one_note in Hk.
  apply lookup_singleton_Some in Hk as [<- _]. reflexivity.
Qed.

Lemma keys_16_listed (t : Sql.Table) :
  Forall (λ r : Sql.Row, length r.1 = 16%nat) (map_to_list t) → keys_16 t.
Proof.
  intros H k c Hk. apply elem_of_map_to_list in Hk.
  rewrite list.Forall_forall in H. exact (H (k, c) Hk).
Qed.

Lemma keys_16_five_notes : keys_16 Mixed.five_notes.
Proof. apply keys_16_listed. apply (bool_decide_unpack _). by vm_compute. Qed.

Lemma valid_pageSize_3 : valid_pageSize Mixed.three 3.
Proof.
  apply (pageSize_given (Finite (inject_Z 3))); [reflexivity|].
  split; by vm_compute.
Qed.

(** The rows a page is cut from are those of the statement's selection:
    any list with its members, without repetition and in its order, is
    the sorted selection of the table. *)
Lemma sorted_rows_determined (t : Sql.Table) (cursor : option (list byte))
    (sorted : list Sql.Row) :
  NoDup sorted →
  (∀ k c, (k, c) ∈ sorted ↔
          t !! k = Some c ∧
          match cursor with
          | Some after => memcmp k after = Gt
          | None => True
          end) →
  StronglySorted
    (λ r1 r2 : Sql.Row,
       Sql.creationDateTime r2.2 < Sql.creationDateTime r1.2 ∨
       (Sql.creationDateTime r1.2 = Sql.creationDateTime r2.2 ∧
        memcmp r1.1 r2.1 ≠ Gt))
    sorted →
  sorted = merge_sort Sql.page_order
             (filter (λ r, Sql.where_after cursor r = true) (map_to_list t)).
Proof.
  intros Hnodup Hmem Hsorted.
  apply (page_rows_unique t).
  - intros [k c] Hr. by apply Hmem in Hr as [Hr _].
  - eapply StronglySorted_weaken; [|exact Hsorted].
    intros r1 r2. apply page_order_spec.
  - apply (StronglySorted_merge_sort _).
  - apply NoDup_Permutation; [done| |].
    + rewrite merge_sort_Permutation. apply list.NoDup_filter, NoDup_map_to_list.
    + intros [k c]. rewrite Hmem, merge_sort_Permutation.
      rewrite list_elem_of_filter, elem_of_map_to_list, where_after_spec. tauto.
Qed.

Lemma list_returns_ordered_page_witness :
  keys_16 Mixed.five_notes ∧
  valid_pageSize Mixed.three 3 ∧
  valid_afterId (VUuidV4 Mixed.id_a) (Some (Uuid.parse_bytes (value Mixed.id_a))) ∧
  Scenario.contents
    (Scenario.page_notes
       (NoteDao.list None (VNumber (Finite (inject_Z 100))) VUndefined
          Mixed.five_notes))
  = ["a"; "d"; "b"; "c"; "e"] ∧
  ∃ (ns : list Note) (sorted : list Sql.Row),
    NoteDao.list None Mixed.three (VUuidV4 Mixed.id_a) Mixed.five_notes
    = (Ok (MkNoteListPage 3 ns), Mixed.five_notes) ∧
    Mixed.row_contents sorted = ["d"; "b"; "c"; "e"] ∧
    Forall2 note_of_row (take 3 sorted) ns ∧
    Scenario.contents ns = ["d"; "b"; "c"].
Proof.
  split; [exact keys_16_five_notes|]. split; [exact valid_pageSize_3|].
  split; [exact (afterId_given Mixed.id_a)|].
  split; [by vm_compute|].
  destruct (list_returns_ordered_page Mixed.five_notes
              Mixed.three (VUuidV4 Mixed.id_a) 3
              (Some (Uuid.parse_bytes (value Mixed.id_a)))
              keys_16_five_notes valid_pageSize_3 (afterId_given Mixed.id_a))
    as (ns & sorted & Hrun & Hnodup & Hmem & Hsorted & HF & _).
  exists ns, sorted. split; [exact Hrun|].
  split; [|split; [exact HF|]].
  - rewrite (sorted_rows_determined Mixed.five_notes
               (Some (Uuid.parse_bytes (value Mixed.id_a))) sorted
               Hnodup Hmem Hsorted).
    by vm_compute.
  - assert (Hcomp : Scenario.contents
                      (Scenario.page_notes
                         (NoteDao.list None Mixed.three (VUuidV4 Mixed.id_a)
                            Mixed.five_notes))
                    = ["d"; "b"; "c"]) by by vm_compute.
    rewrite Hrun in Hcomp. exact Hcomp.
Defined.

(* ===================================================================== *)
(** * The guards of list *)
(* ===================================================================== *)

Section guards.

Variables (o : Driver.Outcome) (t : Sql.Table).

Lemma list_throws_on_pageSize (ps a : Value) (e : Exn) :
  NoteDao.resolve_pageSize ps = Throw e →
  NoteDao.list o ps a t = (Throw e, t) ∧ NoteService.list o ps a t = (Throw e, t).
Proof.
  intros H. unfold NoteDao.list, NoteService.list, mbind, M_bind, lift.
  by rewrite H.
Qed.

Lemma list_throws_on_afterId (ps a v : Value) :
  NoteDao.resolve_pageSize ps = Ok v →
  NoteDao.check_afterId a = Throw TypeError →
  NoteDao.list o ps a t = (Throw TypeError, t) ∧
  NoteService.list o ps a t = (Throw TypeError, t).
Proof.
  intros H1 H2. unfold NoteDao.list, NoteService.list, mbind, M_bind, lift.
  by rewrite H1, H2.
Qed.

End guards.

(** C5. [list], in the data-access object and in the service alike, throws
    a [TypeError] when [pageSize] is given and is not an integer, a
    [RangeError] when it is an integer outside 1..100, and a validation
    error when [afterId] is given and is not an identifier: the [TypeError]
    of its own guard once [pageSize] has passed, the error of the
    [pageSize] guard otherwise.  Each is thrown whatever the driver would
    do and with the table untouched.  With [pageSize] omitted the page is
    built for 20, and a page never holds more notes than its bound. *)
Theorem list_guards (o : Driver.Outcome) (t : Sql.Table) (ps a : Value) :
  (ps ≠ VUndefined → Number_isInteger ps = false →
   NoteDao.list o ps a t = (Throw TypeError, t) ∧
   NoteService.list o ps a t = (Throw TypeError, t)) ∧
  (Number_isInteger ps = true →
   toInteger ps < NoteDao.MIN_PAGE_SIZE ∨ NoteDao.MAX_PAGE_SIZE < toInteger ps →
   NoteDao.list o ps a t = (Throw RangeError, t) ∧
   NoteService.list o ps a t = (Throw RangeError, t)) ∧
  (∀ bound, valid_pageSize ps bound →
   a ≠ VUndefined → instanceOf a CUuidV4 = false →
   NoteDao.list o ps a t = (Throw TypeError, t) ∧
   NoteService.list o ps a t = (Throw TypeError, t)) ∧
  (a ≠ VUndefined → instanceOf a CUuidV4 = false →
   ∃ e, (e = TypeError ∨ e = RangeError) ∧
        NoteDao.list o ps a t = (Throw e, t) ∧
        NoteService.list o ps a t = (Throw e, t)) ∧
  (∀ bound cursor, keys_16 t → valid_pageSize ps bound → valid_afterId a cursor →
   ∃ ns, NoteDao.list None ps a t = (Ok (MkNoteListPage bound ns), t) ∧
         NoteService.list None ps a t = (Ok (MkNoteListPage bound ns), t) ∧
         Z.of_nat (length ns) ≤ bound ∧
         NoteDao.MIN_PAGE_SIZE ≤ bound ≤ NoteDao.MAX_PAGE_SIZE ∧
         (ps = VUndefined → bound = 20)).
Proof.
  split; [|split; [|split; [|split]]].
  - intros Hdef Hint. apply list_throws_on_pageSize.
    unfold NoteDao.resolve_pageSize. rewrite Hint.
    by destruct ps.
  - intros Hint Hrange. apply list_throws_on_pageSize.
    unfold NoteDao.resolve_pageSize. rewrite Hint.
    destruct ps; try done. cbn [is_undefined negb].
    destruct (Z.ltb_spec (toInteger (VNumber n)) NoteDao.MIN_PAGE_SIZE),
             (Z.ltb_spec NoteDao.MAX_PAGE_SIZE (toInteger (VNumber n)));
      try done; lia.
  - intros bound Hps Hdef Hinst.
    destruct (resolve_pageSize_valid ps bound Hps) as (v & Hv & _).
    apply (list_throws_on_afterId o t ps a v Hv).
    unfold NoteDao.check_afterId. rewrite Hinst. by destruct a.
  - intros Hdef Hinst.
    destruct (NoteDao.resolve_pageSize ps) as [v|e] eqn:Hv.
    + exists TypeError. split; [by left|].
      apply (list_throws_on_afterId o t ps a v Hv).
      unfold NoteDao.check_afterId. rewrite Hinst. by destruct a.
    + exists e. split; [|by apply list_throws_on_pageSize].
      unfold NoteDao.resolve_pageSize in Hv.
      destruct (is_undefined ps); [done|].
      destruct (negb (Number_isInteger ps)); [injection Hv as <-; by left|].
      destruct (_ || _); [injection Hv as <-; by right|done].
  - intros bound cursor Hwf Hps Ha.
    destruct (list_run t ps a bound cursor Hwf Hps Ha) as (ns & Hrun & HF).
    exists ns. split; [done|].
    assert (Hrange : NoteDao.MIN_PAGE_SIZE ≤ bound ≤ NoteDao.MAX_PAGE_SIZE).
    { destruct Hps; [by vm_compute|done]. }
    split; [|split; [|split; [done|]]].
    + destruct (resolve_pageSize_valid ps bound Hps) as (v & Hv & _ & _ & Hv').
      destruct (check_afterId_valid a cursor Ha) as [Hc _].
      destruct (list_run t v a bound cursor Hwf Hv' Ha) as (ns' & Hrun' & HF').
      assert (ns' = ns) as ->.
      { clear -HF HF'. revert ns ns' HF HF'.
        induction (Sql.select_page cursor bound t) as [|r rows IH];
          intros ns ns' H H'; inversion H; inversion H'; subst; [done|].
        f_equal; [congruence|by apply IH]. }
      unfold NoteService.list, mbind, M_bind, lift, try_catch.
      by rewrite Hv, Hc, Hrun'.
    + apply Forall2_length in HF. rewrite <- HF.
      apply select_page_length.
      unfold NoteDao.MIN_PAGE_SIZE in Hrange. lia.
    + intros ->. by inversion Hps.
Qed.

Lemma list_guards_witness :
  (VNull ≠ VUndefined ∧ Number_isInteger VNull = false ∧
   NoteDao.list None VNull VUndefined Sample.one_note
   = (Throw TypeError, Sample.one_note)) ∧
  (Number_isInteger (VNumber (Finite (inject_Z 101))) = true ∧
   NoteDao.list None (VNumber (Finite (inject_Z 101))) VUndefined Sample.one_note
   = (Throw RangeError, Sample.one_note)) ∧
  (valid_pageSize (VNumber (Finite (inject_Z 10))) 10 ∧
   instanceOf (VString "a") CUuidV4 = false ∧
   NoteDao.list None (VNumber (Finite (inject_Z 10))) (VString "a") Sample.one_note
   = (Throw TypeError, Sample.one_note)) ∧
  (keys_16 Sample.one_note ∧ valid_pageSize VUndefined 20 ∧
   valid_afterId VUndefined None ∧
   ∃ ns, NoteDao.list None VUndefined VUndefined Sample.one_note
         = (Ok (MkNoteListPage 20 ns), Sample.one_note) ∧
         Z.of_nat (length ns) ≤ 20).
Proof.
  split; [|split; [|split]].
  - split; [discriminate|]. split; [reflexivity|].
    apply (proj1 (list_guards None Sample.one_note VNull VUndefined));
      [discriminate|reflexivity].
  - split; [reflexivity|].
    apply (proj1 (proj2 (list_guards None Sample.one_note
                           (VNumber (Finite (inject_Z 101))) VUndefined)));
      [reflexivity|right; reflexivity].
  - split; [exact valid_pageSize_10|]. split; [reflexivity|].
    apply (proj1 (proj2 (proj2 (list_guards None Sample.one_note
                                  (VNumber (Finite (inject_Z 10))) (VString "a"))))
             10 valid_pageSize_10); [discriminate|reflexivity].
  - split; [exact keys_16_one_note|]. split; [constructor|]. split; [constructor|].
    destruct (proj2 (proj2 (proj2 (proj2 (list_guards None Sample.one_note
                                            VUndefined VUndefined))))
                20 None keys_16_one_note pageSize_omitted afterId_omitted)
      as (ns & Hrun & _ & Hlen & _).
    exists ns. by split.
Defined.

(* ===================================================================== *)
(** * Creating a note *)
(* ===================================================================== *)

Lemma create_run (rnds : list byte) (now : Z) (o : Driver.Outcome) (note : Value)
    (n : NoteForCreate) (t : Sql.Table) :
  length rnds = 16%nat →
  as_NoteForCreate note = Some n →
  ∃ u : UuidV4,
    value u = Uuid.v4 rnds ∧
    NoteDao.create rnds now o note t =
    match o with
    | Some code => (Throw (DaoError (SqliteError code)), t)
    | None =>
        match t !! Uuid.parse_bytes (Uuid.v4 rnds) with
        | Some _ =>
            (Throw (DaoError (SqliteError "SQLITE_CONSTRAINT_PRIMARYKEY")), t)
        | None =>
            (Ok u, <[Uuid.parse_bytes (Uuid.v4 rnds)
                     := Sql.default_cols now (Driver.bind_text (content n))]> t)
        end
    end.
Proof.
  intros Hlen Hn.
  destruct (UuidV4_new_accepted (Uuid.v4 rnds)) as (u & Hu & Hval);
    [by apply UuidFacts.v4_accepted|].
  exists u. split; [done|].
  unfold NoteDao.create. rewrite Hn.
  unfold try_catch, mbind, M_bind, lift, Driver.run, throw, Sql.insert.
  rewrite Hu, parse_value, Hval.
  destruct o; [done|].
  by destruct (t !! Uuid.parse_bytes (Uuid.v4 rnds)).
Qed.

(* ===================================================================== *)
(** * The inheritance chain of the entity classes *)
(* ===================================================================== *)

(** C10. A [Note] is an instance of [NoteForUpdate] and of
    [NoteForCreate], and a [NoteForUpdate] is an instance of
    [NoteForCreate].  So any [Note], the ones [findById] returns among
    them, passes the type guard of [update] and of [create], in the
    data-access object and in the service: neither throws a [TypeError]
    for it. *)
Theorem note_passes_type_guards (n : Note) (rnds : list byte) :
  length rnds = 16%nat →
  instanceOf (VNote n) CNoteForUpdate = true ∧
  instanceOf (VNote n) CNoteForCreate = true ∧
  (∀ m : NoteForUpdate, instanceOf (VNoteForUpdate m) CNoteForCreate = true) ∧
  as_NoteForUpdate (VNote n) = Some (n : NoteForUpdate) ∧
  as_NoteForCreate (VNote n) = Some (n : NoteForCreate) ∧
  (∀ (o : Driver.Outcome) (now : Z) (t : Sql.Table),
     (NoteDao.update o now (VNote n) t).1 ≠ Throw TypeError ∧
     (NoteDao.create rnds now o (VNote n) t).1 ≠ Throw TypeError ∧
     (NoteService.create rnds now o (VNote n) t).1 ≠ Throw TypeError) ∧
  (∀ (o : NoteService.TxOutcomes) (now : Z) (t : Sql.Table),
     (NoteService.update o now (VNote n) t).1 ≠ Throw TypeError).
Proof.
  intros Hlen.
  assert (Hu : as_NoteForUpdate (VNote n) = Some (n : NoteForUpdate)) by reflexivity.
  assert (Hc : as_NoteForCreate (VNote n) = Some (n : NoteForCreate)) by reflexivity.
  do 5 (split; [reflexivity|]). split.
  - intros o now t. split; [|split].
    + rewrite (update_run o now _ _ t Hu). by destruct o.
    + destruct (create_run rnds now o _ _ t Hlen Hc) as (u & _ & ->).
      destruct o; [done|]. by destruct (t !! _).
    + unfold NoteService.create, try_catch.
      change (instanceOf (VNote n) CNoteForCreate) with true. cbn [negb].
      destruct (create_run rnds now o _ _ t Hlen Hc) as (u & _ & ->).
      destruct o; [done|]. by destruct (t !! _).
  - intros o now t. unfold NoteService.update.
    change (instanceOf (VNote n) CNoteForUpdate) with true. cbn [negb].
    rewrite (as_NoteForUpdate_get_id _ _ Hu).
    unfold Driver.transaction_immediate, try_catch, mbind, M_bind.
    rewrite findById_run.
    destruct (NoteService.on_begin o); [done|].
    destruct (NoteService.on_find o); [done|].
    destruct (t !! _); [|done].
    destruct (NoteDao.mapRowToNote _); [|done].
    rewrite (update_run _ now _ _ _ Hu).
    destruct (NoteService.on_write o); [done|].
    by destruct (NoteService.on_commit o).
Qed.

Lemma note_passes_type_guards_witness :
  length (replicate 16 Byte.x00) = 16%nat ∧
  instanceOf (VNote (MkNote Sample.forUpdate_0 1000 1000)) CNoteForUpdate = true.
Proof.
  split; [reflexivity|].
  apply (note_passes_type_guards (MkNote Sample.forUpdate_0 1000 1000)
           (replicate 16 Byte.x00)).
  reflexivity.
Defined.

(* ===================================================================== *)
(** * Updating a stored note *)
(* ===================================================================== *)

Lemma update_present (now : Z) (key : list byte) (c : string) (old : Sql.Cols)
    (t : Sql.Table) :
  t !! key = Some old →
  Sql.update now key c t
  = <[key := Sql.MkCols c (Sql.creationDateTime old) now]> t.
Proof.
  intros H. unfold Sql.update, Sql.tr_Note_update_lastUpdatedDateTime_au,
    Sql.update_content. rewrite H.
  apply map_eq. intros k. destruct (decide (k = key)) as [->|Hne].
  - by rewrite !lookup_alter_eq, H, lookup_insert_eq.
  - by rewrite !lookup_alter_ne, lookup_insert_ne.
Qed.




(* ===================================================================== *)
(** * Printing and parsing identifiers are inverse *)
(* ===================================================================== *)

Module RoundTrip.
Import Uuid Digits UuidFacts.

Lemma unsigned_range b : 0 ≤ unsigned b < 256.
Proof. destruct b; split; by vm_compute. Qed.

Lemma toUint8_unsigned b : toUint8 (unsigned b) = b.
Proof. destruct b; reflexivity. Qed.

Lemma toUint8_mod z : toUint8 (z mod 256) = toUint8 z.
Proof. unfold toUint8. by rewrite Z.mod_mod. Qed.

Lemma toUint8_eq z b : z mod 256 = unsigned b → toUint8 z = b.
Proof. intros H. by rewrite <- toUint8_mod, H, toUint8_unsigned. Qed.

Lemma hexval_hi b : hexval (hi b) = Some (unsigned b / 16).
Proof. destruct b; reflexivity. Qed.

Lemma hexval_lo b : hexval (lo b) = Some (unsigned b mod 16).
Proof. destruct b; reflexivity. Qed.

(** Two printed digits read back as the byte they print. *)
Lemma parseInt16_from_byte acc b rest :
  parseInt16_from acc (String (hi b) (String (lo b) rest))
  = parseInt16_from (256 * acc + unsigned b) rest.
Proof.
  cbn [parseInt16_from]. rewrite hexval_hi, hexval_lo. f_equal.
  pose proof (Z.div_mod (unsigned b) 16). lia.
Qed.

Lemma parseInt16_byte b rest :
  parseInt16 (String (hi b) (String (lo b) rest))
  = Some (parseInt16_from (unsigned b) rest).
Proof.
  unfold parseInt16. rewrite hexval_hi.
  rewrite parseInt16_from_byte. f_equal.
Qed.

Lemma land_255 z : Z.land z 255 = z mod 256.
Proof. apply (Z.land_ones z 8). lia. Qed.

(** The four bytes of an eight-digit group. *)
Lemma group4 b0 b1 b2 b3 :
  let v := Some (256 * (256 * (256 * unsigned b0 + unsigned b1) + unsigned b2)
                 + unsigned b3) in
  toUint8 (ushr v 24) = b0 ∧
  toUint8 (Z.land (ushr v 16) 255) = b1 ∧
  toUint8 (Z.land (ushr v 8) 255) = b2 ∧
  toUint8 (band v 255) = b3.
Proof.
  pose proof (unsigned_range b0). pose proof (unsigned_range b1).
  pose proof (unsigned_range b2). pose proof (unsigned_range b3).
  cbn zeta. unfold ushr, band. rewrite !land_255, !Z.shiftr_div_pow2 by lia.
  repeat split; apply toUint8_eq;
    change (2 ^ 32) with 4294967296; change (2 ^ 24) with 16777216;
    change (2 ^ 16) with 65536; change (2 ^ 8) with 256;
    Z.div_mod_to_equations; lia.
Qed.

(** The two bytes of a four-digit group. *)
Lemma group2 b0 b1 :
  let v := Some (256 * unsigned b0 + unsigned b1) in
  toUint8 (ushr v 8) = b0 ∧ toUint8 (band v 255) = b1.
Proof.
  pose proof (unsigned_range b0). pose proof (unsigned_range b1).
  cbn zeta. unfold ushr, band. rewrite !land_255, !Z.shiftr_div_pow2 by lia.
  repeat split; apply toUint8_eq;
    change (2 ^ 32) with 4294967296; change (2 ^ 8) with 256;
    Z.div_mod_to_equations; lia.
Qed.

(** The six bytes of the twelve-digit group. *)
Lemma group6 b0 b1 b2 b3 b4 b5 :
  let v := Some (256 * (256 * (256 * (256 * (256 * unsigned b0 + unsigned b1)
                   + unsigned b2) + unsigned b3) + unsigned b4) + unsigned b5) in
  toUint8 (div_band v (2 ^ 40) 255) = b0 ∧
  toUint8 (div_band v (2 ^ 32) 255) = b1 ∧
  toUint8 (Z.land (ushr v 24) 255) = b2 ∧
  toUint8 (Z.land (ushr v 16) 255) = b3 ∧
  toUint8 (Z.land (ushr v 8) 255) = b4 ∧
  toUint8 (band v 255) = b5.
Proof.
  pose proof (unsigned_range b0). pose proof (unsigned_range b1).
  pose proof (unsigned_range b2). pose proof (unsigned_range b3).
  pose proof (unsigned_range b4). pose proof (unsigned_range b5).
  cbn zeta. unfold ushr, band, div_band.
  rewrite !land_255, !Z.shiftr_div_pow2 by lia.
  repeat split; apply toUint8_eq;
    change (2 ^ 40) with 1099511627776;
    change (2 ^ 32) with 4294967296; change (2 ^ 24) with 16777216;
    change (2 ^ 16) with 65536; change (2 ^ 8) with 256;
    Z.div_mod_to_equations; lia.
Qed.

(** Parsing what [unsafeStringify] printed gives the sixteen bytes back. *)
Lemma parse_unsafeStringify bs :
  length bs = 16%nat → parse_bytes (unsafeStringify bs) = bs.
Proof.
  intros H.
  destruct (list_16 bs H)
    as (b0&b1&b2&b3&b4&b5&b6&b7&b8&b9&b10&b11&b12&b13&b14&b15&->).
  rewrite unsafeStringify_16. unfold parse_bytes.
  cbn [slice substring Nat.sub].
  rewrite !parseInt16_byte, !parseInt16_from_byte. cbn [parseInt16_from].
  destruct (group4 b0 b1 b2 b3) as (-> & -> & -> & ->).
  destruct (group2 b4 b5) as (-> & ->).
  destruct (group2 b6 b7) as (-> & ->).
  destruct (group2 b8 b9) as (-> & ->).
  destruct (group6 b10 b11 b12 b13 b14 b15) as (-> & -> & -> & -> & -> & ->).
  reflexivity.
Qed.



Lemma stamp_length rnds : length (stamp rnds) = length rnds.
Proof. unfold stamp. by rewrite !length_alter. Qed.


(** The key stored for a generated identifier is the stamped entropy,
    and it prints as that identifier again. *)
Lemma parse_v4 rnds : length rnds = 16%nat → parse_bytes (v4 rnds) = stamp rnds.
Proof.
  intros H. unfold v4. apply parse_unsafeStringify. by rewrite stamp_length.
Qed.


(** ** From a string to its bytes and back *)

Lemma lower_idem c : toLowerCase_char (toLowerCase_char c) = toLowerCase_char c.
Proof. ascii_cases c; reflexivity. Qed.

Lemma hexval_lower c : hexval (toLowerCase_char c) = hexval c.
Proof. ascii_cases c; reflexivity. Qed.

Lemma class_test_lower k c : class_test k (toLowerCase_char c) = class_test k c.
Proof. unfold class_test. by rewrite lower_idem. Qed.

Lemma hex_nib c :
  class_test Hex c = true →
  hexval c = Some (nib c) ∧ 0 ≤ nib c < 16 ∧
  toLowerCase_char (hexDigit (nib c)) = toLowerCase_char c.
Proof.
  ascii_cases c; vm_compute; intros H; first [discriminate H | done].
Qed.

Lemma hyphen_lower c : class_test Hyphen c = true → toLowerCase_char c = "-"%char.
Proof. ascii_cases c; vm_compute; intros H; first [discriminate H | done]. Qed.

Lemma version_hex c : class_test Version1to5 c = true → class_test Hex c = true.
Proof. ascii_cases c; vm_compute; intros H; first [discriminate H | done]. Qed.

Lemma variant_hex c : class_test Variant89ab c = true → class_test Hex c = true.
Proof. ascii_cases c; vm_compute; intros H; first [discriminate H | done]. Qed.

Lemma variant_nib c : class_test Variant89ab c = true → 8 ≤ nib c < 12.
Proof. ascii_cases c; vm_compute; intros H; first [discriminate H | done]. Qed.

Lemma zero_nib c : class_test Zero c = true → hexval c = Some 0.
Proof. ascii_cases c; vm_compute; intros H; first [discriminate H | done]. Qed.

Lemma version_char c :
  match parseInt16 (String c EmptyString) with
  | Some 4 => true
  | _ => false
  end = true →
  nib c = 4.
Proof. ascii_cases c; vm_compute; intros H; first [discriminate H | done]. Qed.

Lemma unsigned_toUint8 z : 0 ≤ z < 256 → unsigned (toUint8 z) = z.
Proof.
  intros Hz. unfold toUint8. rewrite Z.mod_small by done.
  destruct (Byte.of_N (Z.to_N z)) as [b|] eqn:E.
  - apply Byte.to_of_N in E. unfold unsigned. rewrite E. lia.
  - apply Byte.of_N_None_iff in E. lia.
Qed.

Lemma unsigned_pair_byte c1 c2 :
  class_test Hex c1 = true → class_test Hex c2 = true →
  unsigned (pair_byte c1 c2) / 16 = nib c1 ∧
  unsigned (pair_byte c1 c2) mod 16 = nib c2.
Proof.
  intros (_ & H1 & _)%hex_nib (_ & H2 & _)%hex_nib.
  unfold pair_byte. rewrite unsigned_toUint8 by lia.
  split; Z.div_mod_to_equations; lia.
Qed.

Lemma hi_pair_byte c1 c2 :
  class_test Hex c1 = true → class_test Hex c2 = true →
  hi (pair_byte c1 c2) = toLowerCase_char c1.
Proof.
  intros H1 H2. unfold hi.
  rewrite (proj1 (unsigned_pair_byte c1 c2 H1 H2)).
  by apply hex_nib.
Qed.

Lemma lo_pair_byte c1 c2 :
  class_test Hex c1 = true → class_test Hex c2 = true →
  lo (pair_byte c1 c2) = toLowerCase_char c2.
Proof.
  intros H1 H2. unfold lo.
  rewrite (proj2 (unsigned_pair_byte c1 c2 H1 H2)).
  by apply hex_nib.
Qed.

Lemma set_version_fixed b :
  (unsigned b / 16 =? 4) = true → set_version b = b.
Proof. destruct b; vm_compute; intros H; first [discriminate H | done]. Qed.

Lemma set_variant_fixed b :
  (8 <=? unsigned b / 16) && (unsigned b / 16 <? 12) = true → set_variant b = b.
Proof. destruct b; vm_compute; intros H; first [discriminate H | done]. Qed.

Lemma match_seq_cons_inv k p s :
  match_seq (k :: p) s = true →
  ∃ c s', s = String c s' ∧ class_test k c = true ∧ match_seq p s' = true.
Proof.
  destruct s as [|c s']; [done|]. cbn [match_seq].
  intros [? ?]%andb_true_iff. by exists c, s'.
Qed.

Lemma match_seq_nil_inv s : match_seq [] s = true → s = EmptyString.
Proof. by destruct s. Qed.

(** An accepted string is, up to letter case, the print of sixteen bytes
    that carry the version and variant bits already. *)
Lemma accepted_printed s :
  accepted s = true →
  ∃ bs, length bs = 16%nat ∧ stamp bs = bs ∧ toLowerCase s = unsafeStringify bs.
Proof.
  unfold accepted, version. intros [Hv Hver]%andb_true_iff.
  rewrite Hv in Hver.
  assert (Hm := Hv). unfold validate, REGEX in Hm.
  cbn [existsb replicate app] in Hm.
  rewrite orb_false_r in Hm. apply orb_true_iff in Hm as [Hm|Hm].
  2: { exfalso.
    apply match_seq_cons_inv in Hm as (c0 & s0 & -> & Hc0 & Hm).
    apply match_seq_cons_inv in Hm as (c1 & s1 & -> & Hc1 & Hm).
    apply match_seq_cons_inv in Hm as (c2 & s2 & -> & Hc2 & Hm).
    apply match_seq_cons_inv in Hm as (c3 & s3 & -> & Hc3 & Hm).
    apply match_seq_cons_inv in Hm as (c4 & s4 & -> & Hc4 & Hm).
    apply match_seq_cons_inv in Hm as (c5 & s5 & -> & Hc5 & Hm).
    apply match_seq_cons_inv in Hm as (c6 & s6 & -> & Hc6 & Hm).
    apply match_seq_cons_inv in Hm as (c7 & s7 & -> & Hc7 & Hm).
    apply match_seq_cons_inv in Hm as (c8 & s8 & -> & Hc8 & Hm).
    apply match_seq_cons_inv in Hm as (c9 & s9 & -> & Hc9 & Hm).
    apply match_seq_cons_inv in Hm as (c10 & s10 & -> & Hc10 & Hm).
    apply match_seq_cons_inv in Hm as (c11 & s11 & -> & Hc11 & Hm).
    apply match_seq_cons_inv in Hm as (c12 & s12 & -> & Hc12 & Hm).
    apply match_seq_cons_inv in Hm as (c13 & s13 & -> & Hc13 & Hm).
    apply match_seq_cons_inv in Hm as (c14 & s14 & -> & Hc14 & Hm).
    apply match_seq_cons_inv in Hm as (c15 & s15 & -> & Hc15 & Hm).
    apply match_seq_cons_inv in Hm as (c16 & s16 & -> & Hc16 & Hm).
    apply match_seq_cons_inv in Hm as (c17 & s17 & -> & Hc17 & Hm).
    apply match_seq_cons_inv in Hm as (c18 & s18 & -> & Hc18 & Hm).
    apply match_seq_cons_inv in Hm as (c19 & s19 & -> & Hc19 & Hm).
    apply match_seq_cons_inv in Hm as (c20 & s20 & -> & Hc20 & Hm).
    apply match_seq_cons_inv in Hm as (c21 & s21 & -> & Hc21 & Hm).
    apply match_seq_cons_inv in Hm as (c22 & s22 & -> & Hc22 & Hm).
    apply match_seq_cons_inv in Hm as (c23 & s23 & -> & Hc23 & Hm).
    apply match_seq_cons_inv in Hm as (c24 & s24 & -> & Hc24 & Hm).
    apply match_seq_cons_inv in Hm as (c25 & s25 & -> & Hc25 & Hm).
    apply match_seq_cons_inv in Hm as (c26 & s26 & -> & Hc26 & Hm).
    apply match_seq_cons_inv in Hm as (c27 & s27 & -> & Hc27 & Hm).
    apply match_seq_cons_inv in Hm as (c28 & s28 & -> & Hc28 & Hm).
    apply match_seq_cons_inv in Hm as (c29 & s29 & -> & Hc29 & Hm).
    apply match_seq_cons_inv in Hm as (c30 & s30 & -> & Hc30 & Hm).
    apply match_seq_cons_inv in Hm as (c31 & s31 & -> & Hc31 & Hm).
    apply match_seq_cons_inv in Hm as (c32 & s32 & -> & Hc32 & Hm).
    apply match_seq_cons_inv in Hm as (c33 & s33 & -> & Hc33 & Hm).
    apply match_seq_cons_inv in Hm as (c34 & s34 & -> & Hc34 & Hm).
    apply match_seq_cons_inv in Hm as (c35 & s35 & -> & Hc35 & Hm).
    apply match_seq_nil_inv in Hm as ->.
    cbn [slice substring Nat.sub] in Hver.
    apply version_char in Hver. apply zero_nib in Hc14.
    unfold nib in Hver. rewrite Hc14 in Hver. discriminate Hver. }
  apply match_seq_cons_inv in Hm as (c0 & s0 & -> & Hc0 & Hm).
  apply match_seq_cons_inv in Hm as (c1 & s1 & -> & Hc1 & Hm).
  apply match_seq_cons_inv in Hm as (c2 & s2 & -> & Hc2 & Hm).
  apply match_seq_cons_inv in Hm as (c3 & s3 & -> & Hc3 & Hm).
  apply match_seq_cons_inv in Hm as (c4 & s4 & -> & Hc4 & Hm).
  apply match_seq_cons_inv in Hm as (c5 & s5 & -> & Hc5 & Hm).
  apply match_seq_cons_inv in Hm as (c6 & s6 & -> & Hc6 & Hm).
  apply match_seq_cons_inv in Hm as (c7 & s7 & -> & Hc7 & Hm).
  apply match_seq_cons_inv in Hm as (c8 & s8 & -> & Hc8 & Hm).
  apply match_seq_cons_inv in Hm as (c9 & s9 & -> & Hc9 & Hm).
  apply match_seq_cons_inv in Hm as (c10 & s10 & -> & Hc10 & Hm).
  apply match_seq_cons_inv in Hm as (c11 & s11 & -> & Hc11 & Hm).
  apply match_seq_cons_inv in Hm as (c12 & s12 & -> & Hc12 & Hm).
  apply match_seq_cons_inv in Hm as (c13 & s13 & -> & Hc13 & Hm).
  apply match_seq_cons_inv in Hm as (c14 & s14 & -> & Hc14 & Hm).
  apply match_seq_cons_inv in Hm as (c15 & s15 & -> & Hc15 & Hm).
  apply match_seq_cons_inv in Hm as (c16 & s16 & -> & Hc16 & Hm).
  apply match_seq_cons_inv in Hm as (c17 & s17 & -> & Hc17 & Hm).
  apply match_seq_cons_inv in Hm as (c18 & s18 & -> & Hc18 & Hm).
  apply match_seq_cons_inv in Hm as (c19 & s19 & -> & Hc19 & Hm).
  apply match_seq_cons_inv in Hm as (c20 & s20 & -> & Hc20 & Hm).
  apply match_seq_cons_inv in Hm as (c21 & s21 & -> & Hc21 & Hm).
  apply match_seq_cons_inv in Hm as (c22 & s22 & -> & Hc22 & Hm).
  apply match_seq_cons_inv in Hm as (c23 & s23 & -> & Hc23 & Hm).
  apply match_seq_cons_inv in Hm as (c24 & s24 & -> & Hc24 & Hm).
  apply match_seq_cons_inv in Hm as (c25 & s25 & -> & Hc25 & Hm).
  apply match_seq_cons_inv in Hm as (c26 & s26 & -> & Hc26 & Hm).
  apply match_seq_cons_inv in Hm as (c27 & s27 & -> & Hc27 & Hm).
  apply match_seq_cons_inv in Hm as (c28 & s28 & -> & Hc28 & Hm).
  apply match_seq_cons_inv in Hm as (c29 & s29 & -> & Hc29 & Hm).
  apply match_seq_cons_inv in Hm as (c30 & s30 & -> & Hc30 & Hm).
  apply match_seq_cons_inv in Hm as (c31 & s31 & -> & Hc31 & Hm).
  apply match_seq_cons_inv in Hm as (c32 & s32 & -> & Hc32 & Hm).
  apply match_seq_cons_inv in Hm as (c33 & s33 & -> & Hc33 & Hm).
  apply match_seq_cons_inv in Hm as (c34 & s34 & -> & Hc34 & Hm).
  apply match_seq_cons_inv in Hm as (c35 & s35 & -> & Hc35 & Hm).
  apply match_seq_nil_inv in Hm as ->.
  cbn [slice substring Nat.sub] in Hver. apply version_char in Hver.
  pose proof (version_hex _ Hc14) as Hx14.
  pose proof (variant_hex _ Hc19) as Hx19.
  pose proof (variant_nib _ Hc19) as Hn19.
  exists [pair_byte c0 c1; pair_byte c2 c3; pair_byte c4 c5; pair_byte c6 c7; pair_byte c9 c10; pair_byte c11 c12; pair_byte c14 c15; pair_byte c16 c17; pair_byte c19 c20; pair_byte c21 c22; pair_byte c24 c25; pair_byte c26 c27; pair_byte c28 c29; pair_byte c30 c31; pair_byte c32 c33; pair_byte c34 c35].
  split; [reflexivity|]. split.
  - unfold stamp. cbn [alter list_alter].
    rewrite set_version_fixed, set_variant_fixed; [reflexivity| |].
    + rewrite (proj1 (unsigned_pair_byte c19 c20 Hx19 Hc20)).
      apply andb_true_iff. split; [apply Z.leb_le|apply Z.ltb_lt]; lia.
    + rewrite (proj1 (unsigned_pair_byte c14 c15 Hx14 Hc15)).
      apply Z.eqb_eq. exact Hver.
  - rewrite unsafeStringify_16. cbn [toLowerCase].
    rewrite !hi_pair_byte, !lo_pair_byte by assumption.
    rewrite (hyphen_lower _ Hc8), (hyphen_lower _ Hc13),
            (hyphen_lower _ Hc18), (hyphen_lower _ Hc23).
    reflexivity.
Qed.

(** ** Letter case *)

Lemma toLowerCase_idem s : toLowerCase (toLowerCase s) = toLowerCase s.
Proof.
  induction s as [|c s IH]; [done|]. cbn [toLowerCase].
  by rewrite lower_idem, IH.
Qed.

Lemma substring_lower n m s :
  substring n m (toLowerCase s) = toLowerCase (substring n m s).
Proof.
  revert n m. induction s as [|c s IH]; intros [|n] [|m];
    cbn [substring toLowerCase]; try done; by rewrite IH.
Qed.

Lemma parseInt16_from_lower acc s :
  parseInt16_from acc (toLowerCase s) = parseInt16_from acc s.
Proof.
  revert acc. induction s as [|c s IH]; intros acc; [done|].
  cbn [toLowerCase parseInt16_from]. rewrite hexval_lower.
  destruct (hexval c); [apply IH|done].
Qed.

Lemma parseInt16_lower s : parseInt16 (toLowerCase s) = parseInt16 s.
Proof.
  destruct s as [|c s]; [done|].
  change (toLowerCase (String c s)) with (String (toLowerCase_char c) (toLowerCase s)).
  unfold parseInt16. rewrite hexval_lower.
  destruct (hexval c) eqn:E; [|done].
  change (String (toLowerCase_char c) (toLowerCase s)) with (toLowerCase (String c s)).
  by rewrite parseInt16_from_lower.
Qed.

Lemma parseInt16_slice_lower a b s :
  parseInt16 (slice a b (toLowerCase s)) = parseInt16 (slice a b s).
Proof. unfold slice. by rewrite substring_lower, parseInt16_lower. Qed.

(** The parser does not look at the letter case. *)
Lemma parse_bytes_lower s : parse_bytes (toLowerCase s) = parse_bytes s.
Proof. unfold parse_bytes. by rewrite !parseInt16_slice_lower. Qed.

Lemma match_seq_lower p s : match_seq p (toLowerCase s) = match_seq p s.
Proof.
  revert s. induction p as [|k p IH]; intros [|c s]; try done.
  cbn [toLowerCase match_seq]. by rewrite class_test_lower, IH.
Qed.

Lemma validate_lower s : validate (toLowerCase s) = validate s.
Proof.
  unfold validate. induction REGEX as [|p ps IH]; [done|].
  cbn [existsb]. by rewrite match_seq_lower, IH.
Qed.

(** Nor does the identifier class. *)
Lemma accepted_lower s : accepted (toLowerCase s) = accepted s.
Proof.
  unfold accepted, version.
  by rewrite validate_lower, parseInt16_slice_lower.
Qed.

(** An accepted string parses to the bytes that print as its lowercase
    form. *)
Lemma v4_parse s :
  accepted s = true → v4 (parse_bytes s) = toLowerCase s.
Proof.
  intros (bs & Hlen & Hst & Hs)%accepted_printed.
  rewrite <- parse_bytes_lower, Hs, parse_unsafeStringify by done.
  unfold v4. by rewrite Hst.
Qed.

Lemma v4_lowercase rnds : toLowerCase (v4 rnds) = v4 rnds.
Proof. unfold v4, unsafeStringify. apply toLowerCase_idem. Qed.

End RoundTrip.

(* ===================================================================== *)
(** * Which strings make an identifier *)
(* ===================================================================== *)

Lemma accepted_iff_canonical (s : string) :
  accepted s = true ↔ canonical_v4 (Uuid.toLowerCase s).
Proof.
  split.
  - intros H. exists (Uuid.parse_bytes s). split; [reflexivity|].
    symmetry. by apply RoundTrip.v4_parse.
  - intros (rnds & Hlen & Hs). rewrite <- RoundTrip.accepted_lower, Hs.
    by apply UuidFacts.v4_accepted.
Qed.

Lemma is_ok_UuidV4_new (s : string) :
  is_ok (UuidV4_new (VString s)) = accepted s.
Proof.
  unfold UuidV4_new. destruct (decide (accepted s = true)) as [H|H].
  - cbn [is_ok]. by symmetry.
  - by destruct (accepted s).
Qed.

(** C7, as stated, fails at ["109156BE-C4FB-41EA-B1B4-EFE1671C5836"]: the
    constructor accepts this identifier spelled in capitals, which is not
    in the canonical lowercase form. *)
Lemma UuidV4_new_accepts_capitals :
  is_ok (UuidV4_new (VString "109156BE-C4FB-41EA-B1B4-EFE1671C5836")) = true ∧
  ¬ canonical_v4 "109156BE-C4FB-41EA-B1B4-EFE1671C5836".
Proof.
  split; [reflexivity|].
  intros (rnds & _ & Hs).
  pose proof (RoundTrip.v4_lowercase rnds) as Hl. rewrite <- Hs in Hl.
  vm_compute in Hl. discriminate Hl.
Qed.

(** C7, amended. Construction from a string succeeds exactly when the
    string put in lowercase is the canonical form of a version-4
    identifier, so in either letter case; the string is stored as given.
    Every other value is refused with a [TypeError].  Two identifiers are
    equal exactly when their strings are equal, and they stand for the
    same key exactly when their lowercase forms are equal. *)
Theorem UuidV4_new_accepts_v4_in_either_case :
  (∀ s : string,
     is_ok (UuidV4_new (VString s)) = true ↔ canonical_v4 (Uuid.toLowerCase s)) ∧
  (∀ (s : string) (u : UuidV4), UuidV4_new (VString s) = Ok u → value u = s) ∧
  (∀ v : Value, is_ok (UuidV4_new v) = false → UuidV4_new v = Throw TypeError) ∧
  (∀ v : Value, (∀ s, v ≠ VString s) → UuidV4_new v = Throw TypeError) ∧
  (∀ u1 u2 : UuidV4, u1 = u2 ↔ value u1 = value u2) ∧
  (∀ u1 u2 : UuidV4,
     Uuid.parse_bytes (value u1) = Uuid.parse_bytes (value u2) ↔
     Uuid.toLowerCase (value u1) = Uuid.toLowerCase (value u2)).
Proof.
  split; [|split; [|split; [|split; [|split]]]].
  - intros s. rewrite is_ok_UuidV4_new. apply accepted_iff_canonical.
  - intros s u H. apply UuidV4_new_value in H. by injection H.
  - unfold UuidV4_new. intros [] H; try done. by destruct (decide _).
  - unfold UuidV4_new. intros [] H; try done. by destruct (H s).
  - intros u1 u2. split; [by intros ->|apply UuidV4_eq].
  - intros u1 u2. split; intros H.
    + rewrite <- !(RoundTrip.v4_parse _ (value_accepted _)). by rewrite H.
    + rewrite <- (RoundTrip.parse_bytes_lower (value u1)),
              <- (RoundTrip.parse_bytes_lower (value u2)).
      by rewrite H.
Qed.

Lemma UuidV4_new_accepts_v4_in_either_case_witness :
  is_ok (UuidV4_new (VString "109156BE-C4FB-41EA-B1B4-EFE1671C5836")) = true ∧
  canonical_v4 (Uuid.toLowerCase "109156BE-C4FB-41EA-B1B4-EFE1671C5836").
Proof.
  split; [reflexivity|].
  apply (proj1 UuidV4_new_accepts_v4_in_either_case). reflexivity.
Defined.

(* ===================================================================== *)
(** * Text as the driver writes it *)
(* ===================================================================== *)



(* ===================================================================== *)
(** * Create, then look up *)
(* ===================================================================== *)




(* ===================================================================== *)
(** * Chaining pages by the last identifier *)
(* ===================================================================== *)

(** C1, on the eleven notes of the specification's scenario, drawn with
    identifiers that increase in creation order.  All eleven are stored,
    and [list(10)] returns n10 down to n1, n1 last.  [list(10, afterId)]
    with the identifier of n1 returns the nine notes n10 down to n2 a
    second time, and not n0; the loop that chains pages ends without ever
    returning n0, having returned 55 notes. *)
Theorem paging_skips_oldest_note :
  Scenario.contents Scenario.whole_table
  = ["n10"; "n9"; "n8"; "n7"; "n6"; "n5"; "n4"; "n3"; "n2"; "n1"; "n0"] ∧
  Scenario.contents Scenario.first_page
  = ["n10"; "n9"; "n8"; "n7"; "n6"; "n5"; "n4"; "n3"; "n2"; "n1"] ∧
  Scenario.contents Scenario.second_page
  = ["n10"; "n9"; "n8"; "n7"; "n6"; "n5"; "n4"; "n3"; "n2"] ∧
  ("n0" ∉ Scenario.contents
            (Scenario.enumerate 20 Scenario.ten VUndefined Scenario.eleven_notes)) ∧
  length (Scenario.enumerate 20 Scenario.ten VUndefined Scenario.eleven_notes)
  = 55%nat.
Proof.
  split; [vm_compute; reflexivity|].
  split; [vm_compute; reflexivity|]. split; [vm_compute; reflexivity|].
  split.
  - assert (H : bool_decide
                  ("n0" ∉ Scenario.contents
                            (Scenario.enumerate 20 Scenario.ten VUndefined
                               Scenario.eleven_notes)) = true)
      by (vm_compute; reflexivity).
    by apply bool_decide_eq_true in H.
  - vm_compute; reflexivity.
Qed.

(* ===================================================================== *)
(** * Sixteen-byte keys are an invariant *)
(* ===================================================================== *)

Lemma keys_16_empty : keys_16 ∅.
Proof. intros k c H. by rewrite lookup_empty in H. Qed.

Lemma keys_16_create (rnds : list byte) (now : Z) (o : Driver.Outcome)
    (note : Value) (t : Sql.Table) :
  keys_16 t → keys_16 (NoteDao.create rnds now o note t).2.
Proof.
  intros Hwf. unfold NoteDao.create.
  destruct (as_NoteForCreate note) as [n|]; [|done].
  unfold try_catch, mbind, M_bind, lift, Driver.run, throw, Sql.insert, mret, M_ret.
  destruct (UuidV4_new (VString (Uuid.v4 rnds))) as [u|]; [|done].
  rewrite parse_value. destruct o; [done|].
  destruct (t !! Uuid.parse_bytes (value u)) eqn:E; [done|].
  cbn [snd]. intros k c [[<- _]|[_ H]]%lookup_insert_Some;
    [apply parse_bytes_length|by eapply Hwf].
Qed.

Lemma keys_16_update (o : Driver.Outcome) (now : Z) (note : Value) (t : Sql.Table) :
  keys_16 t → keys_16 (NoteDao.update o now note t).2.
Proof.
  intros Hwf.
  destruct (as_NoteForUpdate note) as [n|] eqn:Hn;
    [|unfold NoteDao.update; by rewrite Hn].
  rewrite (update_run o now note n t Hn).
  destruct o; [done|]. cbn [snd].
  unfold Sql.update, Sql.tr_Note_update_lastUpdatedDateTime_au, Sql.update_content.
  intros k c H. destruct (t !! Uuid.parse_bytes (value (id n))) eqn:E.
  - destruct (decide (k = Uuid.parse_bytes (value (id n)))) as [->|Hne];
      [apply parse_bytes_length|].
    rewrite !lookup_alter_ne in H by done. by eapply Hwf.
  - rewrite alter_id in H; [by eapply Hwf|]. intros x Hx. congruence.
Qed.

Lemma keys_16_deleteById (o : Driver.Outcome) (idv : Value) (t : Sql.Table) :
  keys_16 t → keys_16 (NoteDao.deleteById o idv t).2.
Proof.
  intros Hwf. unfold NoteDao.deleteById.
  destruct (as_UuidV4 idv) as [u|]; [|done].
  unfold try_catch, mbind, M_bind, lift, Driver.run, throw.
  rewrite parse_value. destruct o; [done|]. cbn [snd]. unfold Sql.delete_by_id.
  intros k c [_ H]%lookup_delete_Some. by eapply Hwf.
Qed.

(* ===================================================================== *)
(** * Ordered timestamps are an invariant under a clock that runs forward *)
(* ===================================================================== *)


Lemma stamped_until_later (now now' : Z) (t : Sql.Table) :
  now ≤ now' → stamped_until now t → stamped_until now' t.
Proof. intros Hle Hinv k c H. specialize (Hinv k c H). lia. Qed.

Lemma stamped_until_create (rnds : list byte) (now now' : Z) (o : Driver.Outcome)
    (note : Value) (t : Sql.Table) :
  now ≤ now' → stamped_until now t →
  stamped_until now' (NoteDao.create rnds now' o note t).2.
Proof.
  intros Hle Hinv%(stamped_until_later now now' t Hle). unfold NoteDao.create.
  destruct (as_NoteForCreate note) as [n|]; [|done].
  unfold try_catch, mbind, M_bind, lift, Driver.run, throw, Sql.insert, mret, M_ret.
  destruct (UuidV4_new (VString (Uuid.v4 rnds))) as [u|]; [|done].
  rewrite parse_value. destruct o; [done|].
  destruct (t !! Uuid.parse_bytes (value u)) eqn:E; [done|].
  cbn [snd]. intros k c [[_ <-]|[_ H]]%lookup_insert_Some;
    [cbn; lia|by apply (Hinv k)].
Qed.

Lemma stamped_until_update (o : Driver.Outcome) (now now' : Z) (note : Value)
    (t : Sql.Table) :
  now ≤ now' → stamped_until now t →
  stamped_until now' (NoteDao.update o now' note t).2.
Proof.
  intros Hle Hinv. pose proof (stamped_until_later now now' t Hle Hinv) as Hinv'.
  destruct (as_NoteForUpdate note) as [n|] eqn:Hn;
    [|unfold NoteDao.update; by rewrite Hn].
  rewrite (update_run o now' note n t Hn).
  destruct o; [done|]. cbn [snd].
  destruct (t !! Uuid.parse_bytes (value (id n))) as [old|] eqn:E.
  - rewrite (update_present now' _ (Driver.bind_text (content n)) old t E).
    intros k c [[_ <-]|[_ H]]%lookup_insert_Some; [|by apply (Hinv' k)].
    specialize (Hinv _ _ E). cbn. lia.
  - by rewrite update_absent.
Qed.

Lemma stamped_until_deleteById (o : Driver.Outcome) (now : Z) (idv : Value)
    (t : Sql.Table) :
  stamped_until now t → stamped_until now (NoteDao.deleteById o idv t).2.
Proof.
  intros Hinv. unfold NoteDao.deleteById.
  destruct (as_UuidV4 idv) as [u|]; [|done].
  unfold try_catch, mbind, M_bind, lift, Driver.run, throw.
  rewrite parse_value. destruct o; [done|]. cbn [snd]. unfold Sql.delete_by_id.
  intros k c [_ H]%lookup_delete_Some. by apply (Hinv k).
Qed.

(* ===================================================================== *)
(** * Further properties: deleting *)
(* ===================================================================== *)

(** X1. The data-access [deleteById], when the driver runs the statement,
    returns and removes the row of the identifier and no other: the
    identifier is no longer found, every other key keeps its row, and with
    no row under the identifier the table is the one before.  When the
    driver fails the statement the table is the one before and the error
    is the [DaoError] wrapping the driver's. *)
Theorem dao_deleteById_removes_one_row (t : Sql.Table) (u : UuidV4) :
  ∃ t' : Sql.Table,
    NoteDao.deleteById None (VUuidV4 u) t = (Ok (), t') ∧
    t' !! Uuid.parse_bytes (value u) = None ∧
    (∀ k, k ≠ Uuid.parse_bytes (value u) → t' !! k = t !! k) ∧
    (t !! Uuid.parse_bytes (value u) = None → t' = t) ∧
    NoteDao.findById None (VUuidV4 u) t' = (Ok None, t') ∧
    (∀ code, NoteDao.deleteById (Some code) (VUuidV4 u) t
             = (Throw (DaoError (SqliteError code)), t)).
Proof.
  exists (delete (Uuid.parse_bytes (value u)) t).
  split; [by rewrite deleteById_run|].
  split; [apply lookup_delete_eq|].
  split; [intros k Hk; by apply lookup_delete_ne|].
  split; [apply delete_id|].
  split; [by rewrite findById_run, lookup_delete_eq|].
  intros code. by rewrite deleteById_run.
Qed.

(** X2. The service [deleteById] of a stored note is all or nothing.  It
    returns exactly when BEGIN IMMEDIATE, the lookup, the DELETE and COMMIT
    all run, and then the row is gone and the other rows are as before; in
    every other case the table is the one before, also when the DELETE ran
    and COMMIT failed.  A failure of BEGIN or COMMIT surfaces as the
    driver's own error, a failure of the lookup or of the DELETE as a
    [ServiceError] around the [DaoError]. *)
Theorem service_deleteById_all_or_nothing
    (t : Sql.Table) (u : UuidV4) (c : Sql.Cols) (o : NoteService.TxOutcomes) :
  t !! Uuid.parse_bytes (value u) = Some c →
  NoteService.deleteById o (VUuidV4 u) t =
  match NoteService.on_begin o with
  | Some code => (Throw (SqliteError code), t)
  | None =>
      match NoteService.on_find o with
      | Some code => (Throw (ServiceError (DaoError (SqliteError code))), t)
      | None =>
          match NoteService.on_write o with
          | Some code => (Throw (ServiceError (DaoError (SqliteError code))), t)
          | None =>
              match NoteService.on_commit o with
              | Some code => (Throw (SqliteError code), t)
              | None => (Ok (), delete (Uuid.parse_bytes (value u)) t)
              end
          end
      end
  end ∧
  (is_ok (NoteService.deleteById o (VUuidV4 u) t).1 = true ↔
   o = NoteService.all_succeed) ∧
  (NoteService.deleteById o (VUuidV4 u) t).2 =
  (if is_ok (NoteService.deleteById o (VUuidV4 u) t).1
   then delete (Uuid.parse_bytes (value u)) t else t).
Proof.
  intros Hk.
  assert (Hrun : NoteService.deleteById o (VUuidV4 u) t =
    match NoteService.on_begin o with
    | Some code => (Throw (SqliteError code), t)
    | None =>
        match NoteService.on_find o with
        | Some code => (Throw (ServiceError (DaoError (SqliteError code))), t)
        | None =>
            match NoteService.on_write o with
            | Some code => (Throw (ServiceError (DaoError (SqliteError code))), t)
            | None =>
                match NoteService.on_commit o with
                | Some code => (Throw (SqliteError code), t)
                | None => (Ok (), delete (Uuid.parse_bytes (value u)) t)
                end
            end
        end
    end); [|split; [exact Hrun|rewrite Hrun; destruct o as [[] [] [] []]; by cbn]].
  unfold NoteService.deleteById.
  change (instanceOf (VUuidV4 u) CUuidV4) with true.
  cbn [negb]. unfold Driver.transaction_immediate, try_catch, mbind, M_bind.
  rewrite findById_run, Hk.
  destruct (mapRowToNote_ok (Uuid.parse_bytes (value u), c)) as (n & -> & _);
    [apply parse_bytes_length|].
  destruct (NoteService.on_begin o); [done|].
  destruct (NoteService.on_find o); [done|].
  rewrite deleteById_run.
  destruct (NoteService.on_write o); [done|].
  by destruct (NoteService.on_commit o).
Qed.

Lemma service_deleteById_all_or_nothing_witness :
  Sample.one_note !! Uuid.parse_bytes (value Sample.uuidV4_0)
  = Some (Sql.MkCols "testNoteContent" 1000 1000) ∧
  NoteService.deleteById (NoteService.MkTxOutcomes None None None (Some "SQLITE_BUSY"))
    (VUuidV4 Sample.uuidV4_0) Sample.one_note
  = (Throw (SqliteError "SQLITE_BUSY"), Sample.one_note).
Proof.
  assert (Hk : Sample.one_note !! Uuid.parse_bytes (value Sample.uuidV4_0)
               = Some (Sql.MkCols "testNoteContent" 1000 1000))
    by apply lookup_singleton_eq.
  split; [exact Hk|].
  exact (proj1 (service_deleteById_all_or_nothing Sample.one_note Sample.uuidV4_0 _
                  (NoteService.MkTxOutcomes None None None (Some "SQLITE_BUSY")) Hk)).
Defined.

(* ===================================================================== *)
(** * Further properties: updating *)
(* ===================================================================== *)



(* ===================================================================== *)
(** * Further properties: creating *)
(* ===================================================================== *)

(** X4. When the identifier drawn is already a key, [create] inserts
    nothing: the data-access object throws a [DaoError] around the
    driver's primary-key error, the service a [ServiceError] around that,
    and the table is the one before. *)
Theorem create_on_taken_identifier
    (t : Sql.Table) (rnds : list byte) (now : Z) (note : Value)
    (n : NoteForCreate) (c : Sql.Cols) :
  length rnds = 16%nat →
  as_NoteForCreate note = Some n →
  t !! Uuid.parse_bytes (Uuid.v4 rnds) = Some c →
  NoteDao.create rnds now None note t
  = (Throw (DaoError (SqliteError "SQLITE_CONSTRAINT_PRIMARYKEY")), t) ∧
  NoteService.create rnds now None note t
  = (Throw (ServiceError (DaoError (SqliteError "SQLITE_CONSTRAINT_PRIMARYKEY"))), t).
Proof.
  intros Hlen Hn Hk.
  destruct (create_run rnds now None note n t Hlen Hn) as (u & _ & Hrun).
  rewrite Hk in Hrun. split; [done|].
  unfold NoteService.create, try_catch.
  assert (instanceOf note CNoteForCreate = true) as ->.
  { unfold as_NoteForCreate in Hn. by destruct (instanceOf note CNoteForCreate). }
  cbn [negb]. by rewrite Hrun.
Qed.

Lemma create_on_taken_identifier_witness :
  length (Uuid.parse_bytes (value Sample.uuidV4_0)) = 16%nat ∧
  as_NoteForCreate (VNoteForCreate (MkNoteForCreate "again"))
  = Some (MkNoteForCreate "again") ∧
  Sample.one_note !! Uuid.parse_bytes (Uuid.v4 (Uuid.parse_bytes (value Sample.uuidV4_0)))
  = Some (Sql.MkCols "testNoteContent" 1000 1000) ∧
  NoteDao.create (Uuid.parse_bytes (value Sample.uuidV4_0)) 2000 None
    (VNoteForCreate (MkNoteForCreate "again")) Sample.one_note
  = (Throw (DaoError (SqliteError "SQLITE_CONSTRAINT_PRIMARYKEY")), Sample.one_note).
Proof.
  assert (Hk : Sample.one_note
                 !! Uuid.parse_bytes (Uuid.v4 (Uuid.parse_bytes (value Sample.uuidV4_0)))
               = Some (Sql.MkCols "testNoteContent" 1000 1000))
    by (vm_compute; reflexivity).
  split; [reflexivity|]. split; [reflexivity|]. split; [exact Hk|].
  exact (proj1 (create_on_taken_identifier Sample.one_note
                  (Uuid.parse_bytes (value Sample.uuidV4_0)) 2000
                  (VNoteForCreate (MkNoteForCreate "again"))
                  (MkNoteForCreate "again") _ eq_refl eq_refl Hk)).
Defined.





(* ===================================================================== *)
(** * Further properties: reading *)
(* ===================================================================== *)

Lemma findAll_run (o : Driver.Outcome) (t : Sql.Table) :
  NoteDao.findAll o t =
  match o with
  | Some code => (Throw (DaoError (SqliteError code)), t)
  | None =>
      match mapM NoteDao.mapRowToNote (Sql.select_all t) with
      | Ok ns => (Ok ns, t)
      | Throw e => (Throw (DaoError e), t)
      end
  end.
Proof.
  unfold NoteDao.findAll, try_catch, mbind, M_bind, lift, Driver.query.
  destruct o; [reflexivity|].
  destruct (mapM NoteDao.mapRowToNote (Sql.select_all t)); reflexivity.
Qed.

Lemma findById_keeps_table (o : Driver.Outcome) (v : Value) (t : Sql.Table) :
  (NoteDao.findById o v t).2 = t.
Proof.
  unfold NoteDao.findById.
  destruct (as_UuidV4 v) as [u|] eqn:Hu; [|reflexivity].
  unfold try_catch, mbind, M_bind, lift, Driver.query, Sql.select_by_id.
  rewrite parse_value. destruct o; [reflexivity|].
  destruct (t !! Uuid.parse_bytes (value u)) as [c|]; cbn [mbind option_bind];
    [|reflexivity].
  destruct (NoteDao.mapRowToNote (Uuid.parse_bytes (value u), c)); reflexivity.
Qed.

(** X6. On a table of sixteen-byte keys [findAll] returns, when the driver
    runs the statement, one note for each stored row and no other: as many
    notes as the table has rows, each carrying the columns of its row.
    When the driver fails the statement [findAll] throws the [DaoError]
    around the driver's error, the service a [ServiceError] around that. *)
Theorem findAll_returns_every_row (t : Sql.Table) :
  keys_16 t →
  ∃ (ns : list Note) (rows : list Sql.Row),
    NoteDao.findAll None t = (Ok ns, t) ∧
    NoteService.findAll None t = (Ok ns, t) ∧
    NoDup rows ∧
    (∀ k c, (k, c) ∈ rows ↔ t !! k = Some c) ∧
    Forall2 note_of_row rows ns ∧
    length ns = size t ∧
    (∀ code,
       NoteDao.findAll (Some code) t = (Throw (DaoError (SqliteError code)), t) ∧
       NoteService.findAll (Some code) t
       = (Throw (ServiceError (DaoError (SqliteError code))), t)).
Proof.
  intros Hwf.
  assert (Hperm : Sql.select_all t ≡ₚ map_to_list t)
    by apply merge_sort_Permutation.
  destruct (mapM_result_ok NoteDao.mapRowToNote (Sql.select_all t))
    as (ns & Hns & HF).
  { apply list.Forall_forall. intros [k c] Hr. rewrite Hperm in Hr.
    apply elem_of_map_to_list in Hr.
    destruct (mapRowToNote_ok (k, c)) as (n & Hn & _); [by eapply Hwf|by exists n]. }
  assert (Hdao : NoteDao.findAll None t = (Ok ns, t))
    by (by rewrite findAll_run, Hns).
  exists ns, (Sql.select_all t).
  split; [done|].
  split; [unfold NoteService.findAll, try_catch; by rewrite Hdao|].
  split; [rewrite Hperm; apply NoDup_map_to_list|].
  split; [intros k c; rewrite Hperm; apply elem_of_map_to_list|].
  split; [eapply list.Forall2_impl; [exact HF|]; intros r n; apply mapRowToNote_inv|].
  split.
  - apply Forall2_length in HF. rewrite <- HF, Hperm. apply length_map_to_list.
  - intros code. split; [by rewrite findAll_run|].
    unfold NoteService.findAll, try_catch. by rewrite findAll_run.
Qed.

Lemma findAll_returns_every_row_witness :
  keys_16 Sample.one_note ∧
  ∃ ns, NoteDao.findAll None Sample.one_note = (Ok ns, Sample.one_note) ∧
        length ns = size Sample.one_note.
Proof.
  split; [exact keys_16_one_note|].
  destruct (findAll_returns_every_row Sample.one_note keys_16_one_note)
    as (ns & rows & Hrun & _ & _ & _ & _ & Hlen & _).
  exists ns. by split.
Defined.

(** X7. [findById] of an identifier that has a row returns a note with the
    content and the two timestamps of that row, and with the identifier in
    lowercase whatever the letter case of the one asked for; looking that
    note's identifier up returns the same note. *)
Theorem findById_returns_the_row (t : Sql.Table) (u : UuidV4) (c : Sql.Cols) :
  t !! Uuid.parse_bytes (value u) = Some c →
  ∃ n : Note,
    NoteDao.findById None (VUuidV4 u) t = (Ok (Some n), t) ∧
    NoteService.findById None (VUuidV4 u) t = (Ok (Some n), t) ∧
    value (id n) = Uuid.toLowerCase (value u) ∧
    content n = Sql.content c ∧
    creationDateTime n = Sql.creationDateTime c ∧
    lastUpdatedDateTime n = Sql.lastUpdatedDateTime c ∧
    NoteDao.findById None (VUuidV4 (id n)) t = (Ok (Some n), t).
Proof.
  intros Hk.
  destruct (mapRowToNote_ok (Uuid.parse_bytes (value u), c))
    as (n & Hmap & Hid & Hc & Hcr & Hlu); [apply parse_bytes_length|].
  cbn [fst snd] in *.
  rewrite (RoundTrip.v4_parse _ (value_accepted u)) in Hid.
  assert (Hfind : NoteDao.findById None (VUuidV4 u) t = (Ok (Some n), t))
    by (by rewrite findById_run, Hk, Hmap).
  exists n. split; [done|]. split.
  { unfold NoteService.findById, try_catch.
    change (instanceOf (VUuidV4 u) CUuidV4) with true. cbn [negb].
    by rewrite Hfind. }
  do 4 (split; [done|]).
  rewrite findById_run, Hid, RoundTrip.parse_bytes_lower. by rewrite Hk, Hmap.
Qed.

Lemma findById_returns_the_row_witness :
  Sample.one_note !! Uuid.parse_bytes (value Sample.uuidV4_0)
  = Some (Sql.MkCols "testNoteContent" 1000 1000) ∧
  ∃ n, NoteDao.findById None (VUuidV4 Sample.uuidV4_0) Sample.one_note
       = (Ok (Some n), Sample.one_note) ∧
       content n = "testNoteContent".
Proof.
  assert (Hk : Sample.one_note !! Uuid.parse_bytes (value Sample.uuidV4_0)
               = Some (Sql.MkCols "testNoteContent" 1000 1000))
    by apply lookup_singleton_eq.
  split; [exact Hk|].
  destruct (findById_returns_the_row Sample.one_note Sample.uuidV4_0 _ Hk)
    as (n & Hrun & _ & _ & Hc & _).
  exists n. by split.
Defined.

(** X8. The operations address a row by the 128-bit value of the
    identifier, not by its spelling: two identifiers with the same
    lowercase form are looked up, updated and deleted alike, in the
    data-access object and in the service. *)
Theorem identifier_letter_case_is_ignored (u1 u2 : UuidV4) (t : Sql.Table) :
  Uuid.toLowerCase (value u1) = Uuid.toLowerCase (value u2) →
  (∀ o : Driver.Outcome,
     NoteDao.findById o (VUuidV4 u1) t = NoteDao.findById o (VUuidV4 u2) t ∧
     NoteDao.deleteById o (VUuidV4 u1) t = NoteDao.deleteById o (VUuidV4 u2) t ∧
     NoteService.findById o (VUuidV4 u1) t = NoteService.findById o (VUuidV4 u2) t) ∧
  (∀ (o : Driver.Outcome) (now : Z) (c : NoteForCreate),
     NoteDao.update o now (VNoteForUpdate (MkNoteForUpdate c u1)) t
     = NoteDao.update o now (VNoteForUpdate (MkNoteForUpdate c u2)) t) ∧
  (∀ o : NoteService.TxOutcomes,
     NoteService.deleteById o (VUuidV4 u1) t = NoteService.deleteById o (VUuidV4 u2) t) ∧
  (∀ (o : NoteService.TxOutcomes) (now : Z) (c : NoteForCreate),
     NoteService.update o now (VNoteForUpdate (MkNoteForUpdate c u1)) t
     = NoteService.update o now (VNoteForUpdate (MkNoteForUpdate c u2)) t).
Proof.
  intros Hcase.
  assert (Hkey : Uuid.parse_bytes (value u1) = Uuid.parse_bytes (value u2)).
  { rewrite <- (RoundTrip.parse_bytes_lower (value u1)),
            <- (RoundTrip.parse_bytes_lower (value u2)). by rewrite Hcase. }
  assert (Hfind : ∀ o, NoteDao.findById o (VUuidV4 u1) t
                       = NoteDao.findById o (VUuidV4 u2) t).
  { intros o. by rewrite !findById_run, Hkey. }
  assert (Hdel : ∀ o, NoteDao.deleteById o (VUuidV4 u1) t
                      = NoteDao.deleteById o (VUuidV4 u2) t).
  { intros o. by rewrite !deleteById_run, Hkey. }
  assert (Hupd : ∀ o now c,
            NoteDao.update o now (VNoteForUpdate (MkNoteForUpdate c u1)) t
            = NoteDao.update o now (VNoteForUpdate (MkNoteForUpdate c u2)) t).
  { intros o now c.
    rewrite (update_run o now (VNoteForUpdate (MkNoteForUpdate c u1))
               (MkNoteForUpdate c u1) t eq_refl),
            (update_run o now (VNoteForUpdate (MkNoteForUpdate c u2))
               (MkNoteForUpdate c u2) t eq_refl).
    cbn [id NoteForUpdate_super]. by rewrite Hkey. }
  split; [|split; [|split]].
  - intros o. split; [apply Hfind|]. split; [apply Hdel|].
    unfold NoteService.findById, try_catch.
    change (instanceOf (VUuidV4 u1) CUuidV4) with true.
    change (instanceOf (VUuidV4 u2) CUuidV4) with true.
    cbn [negb]. by rewrite Hfind.
  - apply Hupd.
  - intros o. unfold NoteService.deleteById.
    change (instanceOf (VUuidV4 u1) CUuidV4) with true.
    change (instanceOf (VUuidV4 u2) CUuidV4) with true.
    cbn [negb]. unfold Driver.transaction_immediate, try_catch, mbind, M_bind.
    rewrite Hfind.
    destruct (NoteService.on_begin o); [done|].
    destruct (NoteDao.findById (NoteService.on_find o) (VUuidV4 u2) t)
      as [[[m|]|e] t']; try done.
    by rewrite !deleteById_run, Hkey.
  - intros o now c. unfold NoteService.update.
    change (instanceOf (VNoteForUpdate (MkNoteForUpdate c u1)) CNoteForUpdate)
      with true.
    change (instanceOf (VNoteForUpdate (MkNoteForUpdate c u2)) CNoteForUpdate)
      with true.
    cbn [negb].
    rewrite (as_NoteForUpdate_get_id (VNoteForUpdate (MkNoteForUpdate c u1))
               (MkNoteForUpdate c u1) eq_refl),
            (as_NoteForUpdate_get_id (VNoteForUpdate (MkNoteForUpdate c u2))
               (MkNoteForUpdate c u2) eq_refl).
    cbn [id]. unfold Driver.transaction_immediate, try_catch, mbind, M_bind.
    rewrite Hfind.
    destruct (NoteService.on_begin o); [done|].
    destruct (NoteDao.findById (NoteService.on_find o) (VUuidV4 u2) t)
      as [[[m|]|e] t'] eqn:E; try done.
    assert (t' = t) as ->.
    { pose proof (findById_keeps_table (NoteService.on_find o) (VUuidV4 u2) t) as H.
      by rewrite E in H. }
    by rewrite Hupd.
Qed.

Lemma identifier_letter_case_is_ignored_witness :
  Uuid.toLowerCase (value uuidV4_0_capitals) = Uuid.toLowerCase (value Sample.uuidV4_0) ∧
  NoteDao.findById None (VUuidV4 uuidV4_0_capitals) Sample.one_note
  = NoteDao.findById None (VUuidV4 Sample.uuidV4_0) Sample.one_note.
Proof.
  split; [reflexivity|].
  exact (proj1 (proj1 (identifier_letter_case_is_ignored uuidV4_0_capitals
                         Sample.uuidV4_0 Sample.one_note eq_refl) None)).
Defined.

(** X9. For arguments that pass the guards the service adds nothing to a
    read or a create of the data-access object but the wrapping of what it
    throws: a value is passed through, an exception comes out as the cause
    of a [ServiceError], and the table is the one the data-access object
    left.  So a failure of the driver reaches the caller of [findById],
    [findAll] and [list] as a [ServiceError] around a [DaoError] around the
    driver's error, with the table untouched. *)
Theorem service_surfaces_dao_results (o : Driver.Outcome) (t : Sql.Table) :
  (∀ u : UuidV4,
     NoteService.findById o (VUuidV4 u) t = surfaced (NoteDao.findById o (VUuidV4 u) t)) ∧
  NoteService.findAll o t = surfaced (NoteDao.findAll o t) ∧
  (∀ (rnds : list byte) (now : Z) (note : Value),
     instanceOf note CNoteForCreate = true →
     NoteService.create rnds now o note t = surfaced (NoteDao.create rnds now o note t)) ∧
  (∀ (ps a : Value) (bound : Z) (cursor : option (list byte)),
     valid_pageSize ps bound → valid_afterId a cursor →
     NoteService.list o ps a t = surfaced (NoteDao.list o ps a t)) ∧
  (∀ (code : string) (u : UuidV4) (ps a : Value) (bound : Z)
     (cursor : option (list byte)),
     o = Some code → valid_pageSize ps bound → valid_afterId a cursor →
     NoteService.findById o (VUuidV4 u) t
     = (Throw (ServiceError (DaoError (SqliteError code))), t) ∧
     NoteService.findAll o t
     = (Throw (ServiceError (DaoError (SqliteError code))), t) ∧
     NoteDao.list o ps a t = (Throw (DaoError (SqliteError code)), t) ∧
     NoteService.list o ps a t
     = (Throw (ServiceError (DaoError (SqliteError code))), t)).
Proof.
  assert (Hfind : ∀ u : UuidV4,
            NoteService.findById o (VUuidV4 u) t
            = surfaced (NoteDao.findById o (VUuidV4 u) t)).
  { intros u. unfold NoteService.findById, try_catch, surfaced.
    change (instanceOf (VUuidV4 u) CUuidV4) with true. cbn [negb].
    by destruct (NoteDao.findById o (VUuidV4 u) t) as [[?|?] ?]. }
  assert (Hall : NoteService.findAll o t = surfaced (NoteDao.findAll o t)).
  { unfold NoteService.findAll, try_catch, surfaced.
    by destruct (NoteDao.findAll o t) as [[?|?] ?]. }
  assert (Hlist : ∀ ps a bound cursor,
            valid_pageSize ps bound → valid_afterId a cursor →
            NoteService.list o ps a t = surfaced (NoteDao.list o ps a t)).
  { intros ps a bound cursor Hps Ha.
    destruct (resolve_pageSize_valid ps bound Hps) as (v & Hv & Hb & _ & Hv').
    destruct (resolve_pageSize_valid v bound Hv') as (v' & Hvv & _).
    assert (v' = v) as ->.
    { destruct Hv' as [|n Hint Hr]; [done|].
      unfold NoteDao.resolve_pageSize in Hvv. cbn [is_undefined] in Hvv.
      rewrite Hint in Hvv. cbn [negb] in Hvv.
      destruct (_ || _); congruence. }
    destruct (check_afterId_valid a cursor Ha) as [Hc1 Hc2].
    unfold NoteService.list, surfaced, mbind, M_bind, lift, try_catch.
    rewrite Hv, Hc1.
    unfold NoteDao.list, mbind, M_bind, lift, try_catch.
    rewrite Hv, Hvv, Hc1, Hc2.
    destruct (Driver.query o (Sql.select_page cursor (toInteger v)) t)
      as [[rows|e] t']; [|done].
    destruct (mapM NoteDao.mapRowToNote rows); [|done].
    by destruct (NoteListPage_new _ _). }
  split; [exact Hfind|]. split; [exact Hall|]. split; [|split; [exact Hlist|]].
  - intros rnds now note Hinst. unfold NoteService.create, try_catch, surfaced.
    rewrite Hinst. cbn [negb].
    by destruct (NoteDao.create rnds now o note t) as [[?|?] ?].
  - intros code u ps a bound cursor -> Hps Ha.
    assert (Hdao : NoteDao.list (Some code) ps a t
                   = (Throw (DaoError (SqliteError code)), t)).
    { destruct (resolve_pageSize_valid ps bound Hps) as (v & Hv & _).
      destruct (check_afterId_valid a cursor Ha) as [Hc1 Hc2].
      unfold NoteDao.list, mbind, M_bind, lift, try_catch, Driver.query.
      by rewrite Hv, Hc1, Hc2. }
    rewrite Hfind, Hall, (Hlist ps a bound cursor Hps Ha), Hdao.
    by rewrite findById_run, findAll_run.
Qed.

Lemma service_surfaces_dao_results_witness :
  valid_pageSize VUndefined 20 ∧ valid_afterId VUndefined None ∧
  NoteService.list (Some "SQLITE_IOERR") VUndefined VUndefined Sample.one_note
  = (Throw (ServiceError (DaoError (SqliteError "SQLITE_IOERR"))), Sample.one_note).
Proof.
  split; [constructor|]. split; [constructor|].
  exact (proj2 (proj2 (proj2 (proj2 (proj2 (proj2 (proj2
           (service_surfaces_dao_results (Some "SQLITE_IOERR") Sample.one_note))))
           "SQLITE_IOERR" Sample.uuidV4_0 VUndefined VUndefined 20 None
           eq_refl pageSize_omitted afterId_omitted)))).
Defined.

(* ===================================================================== *)
(** * Further properties: the type guards *)
(* ===================================================================== *)

Lemma try_catch_let_through {A : Type} (body : M A) (wrap : Exn → Exn) (t : Sql.Table) :
  (∀ e, wrap e ≠ TypeError) →
  let_through (try_catch body (λ err, throw (wrap err)) t).
Proof.
  intros Hwrap. unfold let_through, try_catch, throw.
  destruct (body t) as [[a|e] t']; cbn [fst]; [done|].
  intros [= H]. by apply (Hwrap e).
Qed.

Lemma transaction_let_through {A : Type} (begin commit : Driver.Outcome) (fn : M A)
    (t : Sql.Table) :
  let_through (fn t) → let_through (Driver.transaction_immediate begin commit fn t).
Proof.
  unfold let_through, Driver.transaction_immediate.
  destruct begin; [done|]. destruct (fn t) as [[a|e] t']; cbn [fst]; [|done].
  by destruct commit.
Qed.

Lemma checked_mutation_let_through (o : Driver.Outcome) (u : Value) (write : M unit)
    (t : Sql.Table) :
  let_through
    ((existingNote ← try_catch (NoteDao.findById o u)
                               (λ err, throw (ServiceError err));
      match existingNote with
      | None => throw EntityNotFoundError
      | Some _ => try_catch write (λ err, throw (ServiceError err))
      end) t).
Proof.
  pose proof (try_catch_let_through (NoteDao.findById o u) ServiceError t) as Hfind.
  unfold mbind, M_bind.
  destruct (try_catch (NoteDao.findById o u) _ t) as [[[m|]|e] t'].
  - by apply (try_catch_let_through write ServiceError).
  - done.
  - unfold let_through in *. cbn [fst] in *. intros [= ->]. by apply Hfind.
Qed.

(** X10. Which values each operation turns away, for every value of the
    embedding, every table and every behaviour of the driver.  Undefined,
    null, a number, a string, a date and an object of another class are
    instances of none of the three classes: the operations that take an
    identifier, [create] and [update] all throw a [TypeError], in the
    data-access object and in the service, and leave the table as it was.
    An identifier is let through by the operations that take one, and
    turned away by [create] and [update].  A [NoteForCreate] is let
    through by [create] only, a [NoteForUpdate] and a [Note] by [create]
    and by [update].  An operation that lets a value through does not end
    in a [TypeError] (for [create], when sixteen bytes are drawn). *)
Theorem operations_reject_other_values
    (v : Value) (t : Sql.Table) (rnds : list byte) (now : Z)
    (o : Driver.Outcome) (o' : NoteService.TxOutcomes) :
  match v with
  | VUndefined | VNull | VNumber _ | VString _ | VDate _ | VObject =>
      instanceOf v CUuidV4 = false ∧ instanceOf v CNoteForCreate = false ∧
      instanceOf v CNoteForUpdate = false ∧
      rejected t (NoteDao.findById o v t) ∧
      rejected t (NoteDao.deleteById o v t) ∧
      rejected t (NoteService.findById o v t) ∧
      rejected t (NoteService.deleteById o' v t) ∧
      rejected t (NoteDao.create rnds now o v t) ∧
      rejected t (NoteService.create rnds now o v t) ∧
      rejected t (NoteDao.update o now v t) ∧
      rejected t (NoteService.update o' now v t)
  | VUuidV4 _ =>
      instanceOf v CUuidV4 = true ∧ instanceOf v CNoteForCreate = false ∧
      instanceOf v CNoteForUpdate = false ∧
      let_through (NoteDao.findById o v t) ∧
      let_through (NoteDao.deleteById o v t) ∧
      let_through (NoteService.findById o v t) ∧
      let_through (NoteService.deleteById o' v t) ∧
      rejected t (NoteDao.create rnds now o v t) ∧
      rejected t (NoteService.create rnds now o v t) ∧
      rejected t (NoteDao.update o now v t) ∧
      rejected t (NoteService.update o' now v t)
  | VNoteForCreate _ =>
      instanceOf v CUuidV4 = false ∧ instanceOf v CNoteForCreate = true ∧
      instanceOf v CNoteForUpdate = false ∧
      rejected t (NoteDao.findById o v t) ∧
      rejected t (NoteDao.deleteById o v t) ∧
      rejected t (NoteService.findById o v t) ∧
      rejected t (NoteService.deleteById o' v t) ∧
      (length rnds = 16%nat → let_through (NoteDao.create rnds now o v t)) ∧
      (length rnds = 16%nat → let_through (NoteService.create rnds now o v t)) ∧
      rejected t (NoteDao.update o now v t) ∧
      rejected t (NoteService.update o' now v t)
  | VNoteForUpdate _ | VNote _ =>
      instanceOf v CUuidV4 = false ∧ instanceOf v CNoteForCreate = true ∧
      instanceOf v CNoteForUpdate = true ∧
      rejected t (NoteDao.findById o v t) ∧
      rejected t (NoteDao.deleteById o v t) ∧
      rejected t (NoteService.findById o v t) ∧
      rejected t (NoteService.deleteById o' v t) ∧
      (length rnds = 16%nat → let_through (NoteDao.create rnds now o v t)) ∧
      (length rnds = 16%nat → let_through (NoteService.create rnds now o v t)) ∧
      let_through (NoteDao.update o now v t) ∧
      let_through (NoteService.update o' now v t)
  end.
Proof.
  assert (Hdao : ∀ e, DaoError e ≠ TypeError) by done.
  assert (Hservice : ∀ e, ServiceError e ≠ TypeError) by done.
  assert (Hcreate : ∀ n, as_NoteForCreate v = Some n → length rnds = 16%nat →
            let_through (NoteDao.create rnds now o v t)).
  { intros n Hn Hlen. unfold let_through.
    destruct (create_run rnds now o v n t Hlen Hn) as (u & _ & ->).
    destruct o; [done|]. by destruct (t !! _). }
  assert (Hupdate : ∀ n, as_NoteForUpdate v = Some n →
            let_through (NoteDao.update o now v t)).
  { intros n Hn. unfold let_through. rewrite (update_run o now v n t Hn).
    by destruct o. }
  destruct v as [| |x|x|x|u|n|n|n|]; (split; [reflexivity|]);
    (split; [reflexivity|]); (split; [reflexivity|]).
  all: repeat match goal with
         | |- _ ∧ _ => split
         | |- rejected _ _ => reflexivity
         end.
  all: try match goal with |- length _ = _ → _ => intros Hlen end.
  all: try (by eapply Hcreate).
  all: try (by eapply Hupdate).
  - unfold NoteDao.findById. rewrite as_UuidV4_instance.
    by apply try_catch_let_through.
  - unfold NoteDao.deleteById. rewrite as_UuidV4_instance.
    by apply try_catch_let_through.
  - unfold NoteService.findById.
    change (instanceOf (VUuidV4 u) CUuidV4) with true. cbn [negb].
    by apply try_catch_let_through.
  - unfold NoteService.deleteById.
    change (instanceOf (VUuidV4 u) CUuidV4) with true. cbn [negb].
    apply transaction_let_through, checked_mutation_let_through.
  - unfold NoteService.create.
    change (instanceOf (VNoteForCreate n) CNoteForCreate) with true. cbn [negb].
    by apply try_catch_let_through.
  - unfold NoteService.create.
    change (instanceOf (VNoteForUpdate n) CNoteForCreate) with true. cbn [negb].
    by apply try_catch_let_through.
  - unfold NoteService.update.
    change (instanceOf (VNoteForUpdate n) CNoteForUpdate) with true. cbn [negb].
    apply transaction_let_through, checked_mutation_let_through.
  - unfold NoteService.create.
    change (instanceOf (VNote n) CNoteForCreate) with true. cbn [negb].
    by apply try_catch_let_through.
  - unfold NoteService.update.
    change (instanceOf (VNote n) CNoteForUpdate) with true. cbn [negb].
    apply transaction_let_through, checked_mutation_let_through.
Qed.

Lemma operations_reject_other_values_witness :
  rejected Sample.one_note (NoteDao.findById None (VDate 0) Sample.one_note) ∧
  rejected Sample.one_note
    (NoteService.update NoteService.all_succeed 2000
       (VNoteForCreate (MkNoteForCreate "text")) Sample.one_note) ∧
  let_through
    (NoteService.create (replicate 16 Byte.x00) 2000 None
       (VNoteForCreate (MkNoteForCreate "text")) Sample.one_note) ∧
  let_through
    (NoteService.deleteById NoteService.all_succeed (VUuidV4 Sample.uuidV4_1)
       Sample.one_note).
Proof.
  pose proof (operations_reject_other_values (VDate 0) Sample.one_note
                (replicate 16 Byte.x00) 2000 None NoteService.all_succeed) as Hdate.
  pose proof (operations_reject_other_values (VNoteForCreate (MkNoteForCreate "text"))
                Sample.one_note (replicate 16 Byte.x00) 2000 None
                NoteService.all_succeed) as Hnote.
  pose proof (operations_reject_other_values (VUuidV4 Sample.uuidV4_1)
                Sample.one_note (replicate 16 Byte.x00) 2000 None
                NoteService.all_succeed) as Hid.
  cbn beta iota in Hdate, Hnote, Hid.
  split; [exact (proj1 (proj2 (proj2 (proj2 Hdate))))|].
  split; [exact (proj2 (proj2 (proj2 (proj2 (proj2 (proj2 (proj2 (proj2 (proj2
                   (proj2 Hnote))))))))))|].
  split; [exact (proj1 (proj2 (proj2 (proj2 (proj2 (proj2 (proj2 (proj2 (proj2
                   Hnote)))))))) eq_refl)|].
  exact (proj1 (proj2 (proj2 (proj2 (proj2 (proj2 (proj2 Hid))))))).
Defined.

(* ===================================================================== *)
(** * Further properties: histories of calls *)
(* ===================================================================== *)

Lemma parse_bytes_stamped (s : string) :
  accepted s = true → Uuid.stamp (Uuid.parse_bytes s) = Uuid.parse_bytes s.
Proof.
  intros (bs & Hlen & Hst & Hs)%RoundTrip.accepted_printed.
  by rewrite <- RoundTrip.parse_bytes_lower, Hs, RoundTrip.parse_unsafeStringify.
Qed.

Lemma as_UuidV4_inv (v : Value) (u : UuidV4) : as_UuidV4 v = Some u → v = VUuidV4 u.
Proof.
  unfold as_UuidV4. destruct (instanceOf v CUuidV4); [|done].
  destruct v; try done. by intros [= ->].
Qed.

Lemma dao_update_failing (code : string) (now : Z) (note : Value) (t : Sql.Table) :
  ∃ e, NoteDao.update (Some code) now note t = (Throw e, t).
Proof.
  destruct (as_NoteForUpdate note) as [n|] eqn:Hn.
  - rewrite (update_run (Some code) now note n t Hn). by eexists.
  - unfold NoteDao.update. rewrite Hn. by eexists.
Qed.

Lemma dao_deleteById_failing (code : string) (v : Value) (t : Sql.Table) :
  ∃ e, NoteDao.deleteById (Some code) v t = (Throw e, t).
Proof.
  destruct (as_UuidV4 v) as [u|] eqn:Hu.
  - apply as_UuidV4_inv in Hu as ->. rewrite deleteById_run. by eexists.
  - unfold NoteDao.deleteById. rewrite Hu. by eexists.
Qed.

(** The table after a mutation of the service is the one before, or the
    one the data-access object's statement makes of it. *)
Lemma service_update_table (o : NoteService.TxOutcomes) (now : Z) (note : Value)
    (t : Sql.Table) :
  (NoteService.update o now note t).2 = t ∨
  (NoteService.update o now note t).2 = (NoteDao.update None now note t).2.
Proof.
  unfold NoteService.update.
  destruct (instanceOf note CNoteForUpdate); cbn [negb]; [|by left].
  unfold Driver.transaction_immediate.
  destruct (NoteService.on_begin o); [by left|].
  pose proof (findById_keeps_table (NoteService.on_find o) (get_id note) t) as Hf.
  unfold mbind, M_bind, try_catch.
  destruct (NoteDao.findById (NoteService.on_find o) (get_id note) t)
    as [[[n|]|e] t1]; cbn [snd] in Hf; subst t1; [|by left|by left].
  destruct (NoteService.on_write o) as [code|].
  - destruct (dao_update_failing code now note t) as [e ->]. by left.
  - destruct (NoteDao.update None now note t) as [[[]|e] t2]; [|by left].
    destruct (NoteService.on_commit o); [by left|by right].
Qed.

Lemma service_deleteById_table (o : NoteService.TxOutcomes) (v : Value)
    (t : Sql.Table) :
  (NoteService.deleteById o v t).2 = t ∨
  (NoteService.deleteById o v t).2 = (NoteDao.deleteById None v t).2.
Proof.
  unfold NoteService.deleteById.
  destruct (instanceOf v CUuidV4); cbn [negb]; [|by left].
  unfold Driver.transaction_immediate.
  destruct (NoteService.on_begin o); [by left|].
  pose proof (findById_keeps_table (NoteService.on_find o) v t) as Hf.
  unfold mbind, M_bind, try_catch.
  destruct (NoteDao.findById (NoteService.on_find o) v t)
    as [[[n|]|e] t1]; cbn [snd] in Hf; subst t1; [|by left|by left].
  destruct (NoteService.on_write o) as [code|].
  - destruct (dao_deleteById_failing code v t) as [e ->]. by left.
  - destruct (NoteDao.deleteById None v t) as [[[]|e] t2]; [|by left].
    destruct (NoteService.on_commit o); [by left|by right].
Qed.

Lemma dao_create_touched (rnds : list byte) (now : Z) (o : Driver.Outcome)
    (note : Value) (t : Sql.Table) :
  touched now t (NoteDao.create rnds now o note t).2.
Proof.
  unfold NoteDao.create.
  destruct (as_NoteForCreate note) as [n|]; [|constructor].
  unfold try_catch, mbind, M_bind, lift, Driver.run, throw, Sql.insert, mret, M_ret.
  destruct (UuidV4_new (VString (Uuid.v4 rnds))) as [u|]; [|constructor].
  rewrite parse_value. destruct o; [constructor|].
  destruct (t !! Uuid.parse_bytes (value u)) eqn:E; [constructor|].
  cbn [snd]. by constructor.
Qed.




Lemma touched_keys_v4 (now : Z) (t t' : Sql.Table) :
  touched now t t' → keys_v4 t → keys_v4 t'.
Proof.
  intros Ht Hinv.
  assert (Hkey : ∀ u : UuidV4,
            length (Uuid.parse_bytes (value u)) = 16%nat ∧
            Uuid.stamp (Uuid.parse_bytes (value u)) = Uuid.parse_bytes (value u)).
  { intros u. split; [apply parse_bytes_length|].
    apply parse_bytes_stamped, value_accepted. }
  destruct Ht as [|u c Hnew|u c old Hold|u]; [done|..]; intros k x.
  - intros [[<- _]|[_ H]]%lookup_insert_Some; [apply Hkey|by eapply Hinv].
  - intros [[<- _]|[_ H]]%lookup_insert_Some; [apply Hkey|by eapply Hinv].
  - intros [_ H]%lookup_delete_Some. by eapply Hinv.
Qed.






Lemma keys_v4_keys_16 (t : Sql.Table) : keys_v4 t → keys_16 t.
Proof. intros H k c Hk. by apply (H k c). Qed.




(* ===================================================================== *)
(** * Further properties: one call after another *)
(* ===================================================================== *)

Lemma service_deleteById_present (u : UuidV4) (c : Sql.Cols) (t : Sql.Table) :
  t !! Uuid.parse_bytes (value u) = Some c →
  NoteService.deleteById NoteService.all_succeed (VUuidV4 u) t
  = (Ok (), delete (Uuid.parse_bytes (value u)) t).
Proof.
  intros Hk. unfold NoteService.deleteById.
  change (instanceOf (VUuidV4 u) CUuidV4) with true. cbn [negb].
  unfold Driver.transaction_immediate, try_catch, mbind, M_bind.
  cbn [NoteService.all_succeed NoteService.on_begin NoteService.on_find
       NoteService.on_write NoteService.on_commit].
  rewrite findById_run, Hk.
  destruct (mapRowToNote_ok (Uuid.parse_bytes (value u), c)) as (n & -> & _);
    [apply parse_bytes_length|].
  by rewrite deleteById_run.
Qed.

Lemma service_update_present (now : Z) (note : Value) (n : NoteForUpdate)
    (old : Sql.Cols) (t : Sql.Table) :
  as_NoteForUpdate note = Some n →
  t !! Uuid.parse_bytes (value (id n)) = Some old →
  NoteService.update NoteService.all_succeed now note t
  = (Ok (), <[Uuid.parse_bytes (value (id n))
              := Sql.MkCols (Driver.bind_text (content n)) (Sql.creationDateTime old) now]> t).
Proof.
  intros Hn Hk. unfold NoteService.update.
  rewrite (as_NoteForUpdate_instanceOf _ _ Hn), (as_NoteForUpdate_get_id _ _ Hn).
  cbn [negb]. unfold Driver.transaction_immediate, try_catch, mbind, M_bind.
  cbn [NoteService.all_succeed NoteService.on_begin NoteService.on_find
       NoteService.on_write NoteService.on_commit].
  rewrite findById_run, Hk.
  destruct (mapRowToNote_ok (Uuid.parse_bytes (value (id n)), old)) as (m & -> & _);
    [apply parse_bytes_length|].
  rewrite (update_run None now note n t Hn).
  by rewrite (update_present now _ (Driver.bind_text (content n)) old t Hk).
Qed.

(** X12. Creating a note and then deleting it by the identifier [create]
    returned gives back the table as it was before, through the
    data-access object and through the service; a second delete by that
    identifier is a no-op of the data-access object and an
    [EntityNotFoundError] of the service. *)
Theorem create_then_deleteById_restores
    (t : Sql.Table) (rnds : list byte) (now : Z) (note : Value) (n : NoteForCreate) :
  length rnds = 16%nat →
  as_NoteForCreate note = Some n →
  t !! Uuid.parse_bytes (Uuid.v4 rnds) = None →
  ∃ (u : UuidV4) (t1 : Sql.Table),
    NoteDao.create rnds now None note t = (Ok u, t1) ∧
    NoteService.create rnds now None note t = (Ok u, t1) ∧
    size t1 = S (size t) ∧
    NoteDao.deleteById None (VUuidV4 u) t1 = (Ok (), t) ∧
    NoteService.deleteById NoteService.all_succeed (VUuidV4 u) t1 = (Ok (), t) ∧
    NoteDao.deleteById None (VUuidV4 u) t = (Ok (), t) ∧
    NoteService.deleteById NoteService.all_succeed (VUuidV4 u) t
    = (Throw EntityNotFoundError, t).
Proof.
  intros Hlen Hn Hfresh.
  destruct (create_run rnds now None note n t Hlen Hn) as (u & Hu & Hcreate).
  rewrite Hfresh in Hcreate. rewrite <- Hu in Hfresh, Hcreate.
  set (key := Uuid.parse_bytes (value u)) in *.
  exists u, (<[key := Sql.default_cols now (Driver.bind_text (content n))]> t).
  split; [done|]. split.
  { assert (Hi : instanceOf note CNoteForCreate = true).
    { unfold as_NoteForCreate in Hn. by destruct (instanceOf note CNoteForCreate). }
    unfold NoteService.create, try_catch. rewrite Hi. cbn [negb].
    by rewrite Hcreate. }
  split; [by apply map_size_insert_None|].
  split.
  { rewrite deleteById_run. unfold Sql.delete_by_id. fold key.
    by rewrite delete_insert_id. }
  split.
  { rewrite (service_deleteById_present u (Sql.default_cols now (Driver.bind_text (content n))))
      by apply lookup_insert_eq.
    fold key. by rewrite delete_insert_id. }
  split.
  { rewrite deleteById_run. unfold Sql.delete_by_id. fold key.
    by rewrite delete_id. }
  by rewrite service_deleteById_absent.
Qed.

Lemma create_then_deleteById_restores_witness :
  length (Scenario.rnds 1) = 16%nat ∧
  ∃ u t1,
    NoteDao.create (Scenario.rnds 1) 2000 None
      (VNoteForCreate (MkNoteForCreate "second")) Sample.one_note = (Ok u, t1) ∧
    NoteDao.deleteById None (VUuidV4 u) t1 = (Ok (), Sample.one_note).
Proof.
  split; [reflexivity|].
  destruct (create_then_deleteById_restores Sample.one_note (Scenario.rnds 1) 2000
              (VNoteForCreate (MkNoteForCreate "second")) (MkNoteForCreate "second")
              eq_refl eq_refl)
    as (u & t1 & Hc & _ & _ & Hd & _); [by vm_compute|].
  by exists u, t1.
Defined.

(** X13. Of two updates of the same note the later one decides: the table
    after both is the table the second alone would have left, with the
    second content, the time of the second update and the creation time
    untouched, whether or not the first went through; and the second gives
    the caller the same result as it would have alone. *)
Theorem later_update_wins
    (t : Sql.Table) (now1 now2 : Z) (note1 note2 : Value) (n1 n2 : NoteForUpdate) :
  as_NoteForUpdate note1 = Some n1 →
  as_NoteForUpdate note2 = Some n2 →
  Uuid.toLowerCase (value (id n1)) = Uuid.toLowerCase (value (id n2)) →
  (∀ o1 : Driver.Outcome,
     NoteDao.update None now2 note2 (NoteDao.update o1 now1 note1 t).2
     = NoteDao.update None now2 note2 t) ∧
  (∀ o1 : NoteService.TxOutcomes,
     NoteService.update NoteService.all_succeed now2 note2
       (NoteService.update o1 now1 note1 t).2
     = NoteService.update NoteService.all_succeed now2 note2 t).
Proof.
  intros Hn1 Hn2 Hsame.
  assert (Hkey : Uuid.parse_bytes (value (id n1)) = Uuid.parse_bytes (value (id n2))).
  { by rewrite <- (RoundTrip.parse_bytes_lower (value (id n1))), Hsame,
         RoundTrip.parse_bytes_lower. }
  set (key := Uuid.parse_bytes (value (id n2))) in *.
  assert (Hdao1 : ∀ o1, (NoteDao.update o1 now1 note1 t).2 = t ∨
                        (NoteDao.update o1 now1 note1 t).2
                        = Sql.update now1 key (Driver.bind_text (content n1)) t).
  { intros o1. rewrite (update_run o1 now1 note1 n1 t Hn1), Hkey.
    destruct o1; [by left|by right]. }
  assert (Hsvc1 : ∀ o1, (NoteService.update o1 now1 note1 t).2 = t ∨
                        (NoteService.update o1 now1 note1 t).2
                        = Sql.update now1 key (Driver.bind_text (content n1)) t).
  { intros o1. destruct (service_update_table o1 now1 note1 t) as [->| ->];
      [by left|]. apply (Hdao1 None). }
  destruct (t !! key) as [old|] eqn:Hk.
  - assert (Hup1 : Sql.update now1 key (Driver.bind_text (content n1)) t
                   = <[key := Sql.MkCols (Driver.bind_text (content n1)) (Sql.creationDateTime old) now1]> t)
      by (by apply update_present).
    split; intros o1.
    + rewrite !(update_run None now2 note2 n2 _ Hn2). fold key.
      destruct (Hdao1 o1) as [->| ->]; [done|]. rewrite Hup1.
      rewrite (update_present now2 key (Driver.bind_text (content n2)) _ _ (lookup_insert_eq _ _ _)).
      rewrite (update_present now2 key (Driver.bind_text (content n2)) old t Hk).
      cbn [Sql.creationDateTime]. by rewrite insert_insert_eq.
    + rewrite (service_update_present now2 note2 n2 old t Hn2 Hk). fold key.
      destruct (Hsvc1 o1) as [->| ->];
        [by rewrite (service_update_present now2 note2 n2 old t Hn2 Hk)|].
      rewrite Hup1.
      rewrite (service_update_present now2 note2 n2 _ _ Hn2 (lookup_insert_eq _ _ _)).
      fold key. cbn [Sql.creationDateTime]. by rewrite insert_insert_eq.
  - assert (Hup1 : Sql.update now1 key (Driver.bind_text (content n1)) t = t) by (by apply update_absent).
    split; intros o1.
    + destruct (Hdao1 o1) as [->| ->]; [done|]. by rewrite Hup1.
    + destruct (Hsvc1 o1) as [->| ->]; [done|]. by rewrite Hup1.
Qed.

Lemma later_update_wins_witness :
  as_NoteForUpdate (VNoteForUpdate Sample.forUpdate_0) = Some Sample.forUpdate_0 ∧
  NoteDao.update None 3000 (VNoteForUpdate Sample.forUpdate_0)
    (NoteDao.update None 2000
       (VNoteForUpdate (MkNoteForUpdate (MkNoteForCreate "first") uuidV4_0_capitals))
       Sample.one_note).2
  = NoteDao.update None 3000 (VNoteForUpdate Sample.forUpdate_0) Sample.one_note.
Proof.
  split; [reflexivity|].
  exact (proj1 (later_update_wins Sample.one_note 2000 3000
                  (VNoteForUpdate (MkNoteForUpdate (MkNoteForCreate "first")
                                     uuidV4_0_capitals))
                  (VNoteForUpdate Sample.forUpdate_0)
                  (MkNoteForUpdate (MkNoteForCreate "first") uuidV4_0_capitals)
                  Sample.forUpdate_0 eq_refl eq_refl eq_refl) None).
Defined.

(* ===================================================================== *)
(** * Further properties: notes do not interfere *)
(* ===================================================================== *)

(** Identifiers that differ in more than letter case have different keys. *)
Lemma parse_bytes_inj (u1 u2 : UuidV4) :
  Uuid.parse_bytes (value u1) = Uuid.parse_bytes (value u2) →
  Uuid.toLowerCase (value u1) = Uuid.toLowerCase (value u2).
Proof.
  intros H.
  rewrite <- (RoundTrip.v4_parse _ (value_accepted u1)).
  rewrite <- (RoundTrip.v4_parse _ (value_accepted u2)).
  by rewrite H.
Qed.

Lemma dao_update_other_key (o : Driver.Outcome) (now : Z) (note : Value)
    (n : NoteForUpdate) (t : Sql.Table) (k : list byte) :
  as_NoteForUpdate note = Some n →
  k ≠ Uuid.parse_bytes (value (id n)) →
  (NoteDao.update o now note t).2 !! k = t !! k.
Proof.
  intros Hn Hk. rewrite (update_run o now note n t Hn).
  destruct o; [done|]. cbn [snd].
  unfold Sql.update, Sql.tr_Note_update_lastUpdatedDateTime_au, Sql.update_content.
  destruct (t !! Uuid.parse_bytes (value (id n)));
    by rewrite ?lookup_alter_ne.
Qed.

Lemma dao_deleteById_other_key (o : Driver.Outcome) (u : UuidV4) (t : Sql.Table)
    (k : list byte) :
  k ≠ Uuid.parse_bytes (value u) →
  (NoteDao.deleteById o (VUuidV4 u) t).2 !! k = t !! k.
Proof.
  intros Hk. rewrite deleteById_run. destruct o; [done|]. cbn [snd].
  unfold Sql.delete_by_id. by rewrite lookup_delete_ne.
Qed.

Lemma findById_same_row (o : Driver.Outcome) (u : UuidV4) (t t' : Sql.Table) :
  t' !! Uuid.parse_bytes (value u) = t !! Uuid.parse_bytes (value u) →
  (NoteDao.findById o (VUuidV4 u) t').1 = (NoteDao.findById o (VUuidV4 u) t).1.
Proof.
  intros H. rewrite !findById_run, H. destruct o; [done|].
  destruct (t !! Uuid.parse_bytes (value u)) as [c|]; [|done].
  by destruct (NoteDao.mapRowToNote _).
Qed.

(** X15. An update or a delete addressed to one note leaves every other
    note as it was: for two identifiers that differ in more than letter
    case, what [findById] returns for the second is the same after an
    update or a delete by the first as before, through the data-access
    object and through the service, whatever the driver does. *)
Theorem other_notes_are_untouched (u1 u2 : UuidV4) (t : Sql.Table) :
  Uuid.toLowerCase (value u1) ≠ Uuid.toLowerCase (value u2) →
  ∀ (o2 : Driver.Outcome) (now : Z) (c : string),
    let note := VNoteForUpdate (MkNoteForUpdate (MkNoteForCreate c) u1) in
    (∀ o : Driver.Outcome,
       (NoteDao.findById o2 (VUuidV4 u2) (NoteDao.update o now note t).2).1
       = (NoteDao.findById o2 (VUuidV4 u2) t).1 ∧
       (NoteDao.findById o2 (VUuidV4 u2) (NoteDao.deleteById o (VUuidV4 u1) t).2).1
       = (NoteDao.findById o2 (VUuidV4 u2) t).1) ∧
    (∀ o : NoteService.TxOutcomes,
       (NoteDao.findById o2 (VUuidV4 u2) (NoteService.update o now note t).2).1
       = (NoteDao.findById o2 (VUuidV4 u2) t).1 ∧
       (NoteDao.findById o2 (VUuidV4 u2) (NoteService.deleteById o (VUuidV4 u1) t).2).1
       = (NoteDao.findById o2 (VUuidV4 u2) t).1).
Proof.
  intros Hne o2 now c note.
  assert (Hk : Uuid.parse_bytes (value u2) ≠ Uuid.parse_bytes (value u1)).
  { intros H. apply Hne. symmetry. by apply parse_bytes_inj. }
  assert (Hup : ∀ o, (NoteDao.update o now note t).2 !! Uuid.parse_bytes (value u2)
                     = t !! Uuid.parse_bytes (value u2)).
  { intros o.
    by apply (dao_update_other_key o now note (MkNoteForUpdate (MkNoteForCreate c) u1)). }
  assert (Hdel : ∀ o, (NoteDao.deleteById o (VUuidV4 u1) t).2
                        !! Uuid.parse_bytes (value u2)
                      = t !! Uuid.parse_bytes (value u2)).
  { intros o. by apply dao_deleteById_other_key. }
  split; intros o; split; apply findById_same_row.
  - apply Hup.
  - apply Hdel.
  - destruct (service_update_table o now note t) as [->| ->]; [done|apply Hup].
  - destruct (service_deleteById_table o (VUuidV4 u1) t) as [->| ->];
      [done|apply Hdel].
Qed.

Lemma other_notes_are_untouched_witness :
  Uuid.toLowerCase (value Sample.uuidV4_1) ≠ Uuid.toLowerCase (value Sample.uuidV4_0) ∧
  two_notes !! Uuid.parse_bytes (value Sample.uuidV4_1)
  = Some (Sql.MkCols "another" 1500 1500) ∧
  (NoteDao.deleteById None (VUuidV4 Sample.uuidV4_1) two_notes).2
    !! Uuid.parse_bytes (value Sample.uuidV4_1) = None ∧
  (NoteDao.update None 2000 (VNoteForUpdate Sample.forUpdate_1) two_notes).2
    !! Uuid.parse_bytes (value Sample.uuidV4_1)
  = Some (Sql.MkCols "testNoteContentUpdated" 1500 2000) ∧
  ∃ n : Note,
    (NoteDao.findById None (VUuidV4 Sample.uuidV4_0) two_notes).1 = Ok (Some n) ∧
    content n = "testNoteContent" ∧
    (NoteDao.findById None (VUuidV4 Sample.uuidV4_0)
       (NoteDao.deleteById None (VUuidV4 Sample.uuidV4_1) two_notes).2).1
    = Ok (Some n) ∧
    (NoteDao.findById None (VUuidV4 Sample.uuidV4_0)
       (NoteDao.update None 2000 (VNoteForUpdate Sample.forUpdate_1) two_notes).2).1
    = Ok (Some n) ∧
    (NoteDao.findById None (VUuidV4 Sample.uuidV4_0)
       (NoteService.deleteById NoteService.all_succeed (VUuidV4 Sample.uuidV4_1)
          two_notes).2).1
    = Ok (Some n).
Proof.
  assert (Hne : Uuid.toLowerCase (value Sample.uuidV4_1)
                ≠ Uuid.toLowerCase (value Sample.uuidV4_0)) by (by vm_compute).
  assert (Hk1 : two_notes !! Uuid.parse_bytes (value Sample.uuidV4_1)
                = Some (Sql.MkCols "another" 1500 1500))
    by apply lookup_insert_eq.
  assert (Hk0 : two_notes !! Uuid.parse_bytes (value Sample.uuidV4_0)
                = Some (Sql.MkCols "testNoteContent" 1000 1000)).
  { unfold two_notes. rewrite lookup_insert_ne by (by vm_compute).
    apply lookup_singleton_eq. }
  split; [exact Hne|]. split; [exact Hk1|].
  split. { rewrite deleteById_run. apply lookup_delete_eq. }
  split.
  { rewrite (update_run None 2000 (VNoteForUpdate Sample.forUpdate_1)
               Sample.forUpdate_1 two_notes eq_refl).
    rewrite (update_present 2000 _ _ _ _ Hk1). apply lookup_insert_eq. }
  destruct (mapRowToNote_ok (Uuid.parse_bytes (value Sample.uuidV4_0),
                             Sql.MkCols "testNoteContent" 1000 1000))
    as (n & Hmap & _ & Hc & _); [apply parse_bytes_length|].
  assert (Hfind : (NoteDao.findById None (VUuidV4 Sample.uuidV4_0) two_notes).1
                  = Ok (Some n)) by (by rewrite findById_run, Hk0, Hmap).
  pose proof (other_notes_are_untouched Sample.uuidV4_1 Sample.uuidV4_0 two_notes
                Hne None 2000 "testNoteContentUpdated") as [Hdao Hsvc].
  exists n. split; [exact Hfind|]. split; [exact Hc|].
  split; [rewrite <- Hfind; exact (proj2 (Hdao None))|].
  split; [rewrite <- Hfind; exact (proj1 (Hdao None))|].
  rewrite <- Hfind. exact (proj2 (Hsvc NoteService.all_succeed)).
Defined.

(* ===================================================================== *)
(** * Further properties: the indentation of the statement texts *)
(* ===================================================================== *)

Module DedentFacts.
Import Dedent.

Lemma split_not_nil (s : string) : split s ≠ [].
Proof.
  induction s as [|c s IH]; [done|]. cbn [split].
  destruct (Ascii.eqb c LF); [done|]. by destruct (split s).
Qed.

Lemma split_no_LF (s : string) : Forall (λ l, has_LF l = false) (split s).
Proof.
  induction s as [|c s IH]; [by repeat constructor|]. cbn [split].
  destruct (Ascii.eqb c LF) eqn:Hc; [by constructor|].
  destruct (split s) as [|l ls]; [by repeat constructor; cbn; rewrite Hc|].
  inversion IH as [|? ? Hl Hls]; subst. constructor; [|done].
  cbn. by rewrite Hc.
Qed.

Lemma split_line (l : string) : has_LF l = false → split l = [l].
Proof.
  induction l as [|c l IH]; [done|]. cbn [has_LF split].
  intros [Hc Hl]%orb_false_iff. by rewrite Hc, (IH Hl).
Qed.

Lemma split_app (l rest : string) :
  has_LF l = false → split (l ++ String LF rest) = l :: split rest.
Proof.
  induction l as [|c l IH]; cbn [has_LF].
  - intros _. change (split (String LF rest) = EmptyString :: split rest).
    cbn [split]. by rewrite (Ascii.eqb_refl LF).
  - intros [Hc Hl]%orb_false_iff.
    change (split (String c (l ++ String LF rest)) = String c l :: split rest).
    cbn [split]. by rewrite Hc, (IH Hl).
Qed.

Lemma split_join (ls : list string) :
  ls ≠ [] → Forall (λ l, has_LF l = false) ls → split (join ls) = ls.
Proof.
  induction ls as [|l ls IH]; [done|]. intros _ H.
  inversion H as [|? ? Hl Hls]; subst. cbn [join].
  destruct ls as [|l' ls']; [by apply split_line|].
  rewrite split_app by done. by rewrite IH.
Qed.

Lemma drop_no_LF (k : nat) (l : string) : has_LF l = false → has_LF (drop k l) = false.
Proof.
  revert l. induction k as [|k IH]; intros l; [done|].
  destruct l as [|c l]; [done|]. cbn [has_LF drop].
  intros [_ Hl]%orb_false_iff. by apply IH.
Qed.

Lemma slice_no_LF (m : option nat) (l : string) :
  has_LF l = false → has_LF (slice m l) = false.
Proof. destruct m; [apply drop_no_LF|done]. Qed.

Lemma split_join_slice (m : option nat) (s : string) :
  split (join (slice m <$> split s)) = slice m <$> split s.
Proof.
  apply split_join.
  - pose proof (split_not_nil s). by destruct (split s).
  - apply Forall_fmap. eapply list.Forall_impl; [apply split_no_LF|].
    intros l Hl. by apply slice_no_LF.
Qed.

(** A line is blank for [line.trim()] when all of it is white space. *)
Lemma trimStart_all_space (s : string) :
  trimStart s = EmptyString ↔ all_space s = true.
Proof.
  induction s as [|c s IH]; [done|]. cbn [trimStart all_space].
  destruct (isSpace c); cbn [andb]; [done|]. split; discriminate.
Qed.

Lemma trimStart_head (s : string) (c : ascii) (r : string) :
  trimStart s = String c r → isSpace c = false.
Proof.
  induction s as [|c' s IH]; [done|]. cbn [trimStart].
  destruct (isSpace c') eqn:Hc; [done|]. by intros [= <- _].
Qed.

Lemma trimEnd_head (c : ascii) (r : string) :
  isSpace c = false → trimEnd (String c r) ≠ EmptyString.
Proof. intros Hc. cbn [trimEnd]. rewrite Hc. by destruct (trimEnd r). Qed.

Lemma nonblank_spec (s : string) :
  truthy (VString (trim s)) = negb (all_space s).
Proof.
  unfold truthy, trim.
  destruct (all_space s) eqn:Ha.
  - apply trimStart_all_space in Ha. by rewrite Ha.
  - destruct (trimStart s) as [|c r] eqn:Hs.
    { apply trimStart_all_space in Hs. congruence. }
    pose proof (trimEnd_head c r (trimStart_head s c r Hs)) as Hne.
    by destruct (trimEnd (String c r)).
Qed.

Lemma all_space_drop (k : nat) (s : string) :
  all_space s = true → all_space (drop k s) = true.
Proof.
  revert s. induction k as [|k IH]; intros s; [done|].
  destruct s as [|c s]; [done|]. cbn [all_space drop].
  intros [_ Hs]%andb_true_iff. by apply IH.
Qed.

Lemma leading_drop (k : nat) (s : string) :
  all_space s = false → (k ≤ String.length (leading s))%nat →
  all_space (drop k s) = false ∧
  String.length (leading (drop k s)) = (String.length (leading s) - k)%nat.
Proof.
  revert s. induction k as [|k IH]; intros s Hs Hk.
  - cbn [drop]. split; [done|lia].
  - destruct s as [|c s]; [done|]. cbn [all_space leading drop] in *.
    destruct (isSpace c); cbn [andb String.length] in *; [|lia].
    apply IH; [done|lia].
Qed.

Lemma Math_min_spec (xs : list nat) :
  match Math_min xs with
  | None => xs = []
  | Some m => m ∈ xs ∧ ∀ x, x ∈ xs → (m ≤ x)%nat
  end.
Proof.
  induction xs as [|x xs IH]; [done|]. cbn [Math_min foldr].
  fold (Math_min xs). destruct (Math_min xs) as [m|].
  - destruct IH as [Hm Hle]. split.
    + destruct (Nat.min_spec x m) as [[_ ->]|[_ ->]]; [left|by right].
    + intros y [->|Hy]%elem_of_cons; [lia|]. specialize (Hle y Hy). lia.
  - subst xs. split; [left|]. by intros y ->%list_elem_of_singleton.
Qed.

Lemma Math_min_zero (xs : list nat) : 0%nat ∈ xs → Math_min xs = Some 0%nat.
Proof.
  intros H. pose proof (Math_min_spec xs) as Hs.
  destruct (Math_min xs) as [m|]; [|by subst; apply elem_of_nil in H].
  destruct Hs as [_ Hle]. specialize (Hle _ H). f_equal. lia.
Qed.

Lemma indent_None (ls : list string) :
  smallestIndent ls = None → Forall (λ l, all_space l = true) ls.
Proof.
  unfold smallestIndent. intros H. pose proof (Math_min_spec
    ((λ line, String.length (leading line))
       <$> filter (λ line, truthy (VString (trim line)) = true) ls)) as Hs.
  rewrite H in Hs. apply fmap_nil_inv in Hs.
  apply list.Forall_forall. intros l Hl.
  destruct (all_space l) eqn:Ha; [done|].
  assert (l ∈ filter (λ line, truthy (VString (trim line)) = true) ls) as Hin.
  { apply list_elem_of_filter. split; [|done]. by rewrite nonblank_spec, Ha. }
  rewrite Hs in Hin. by apply elem_of_nil in Hin.
Qed.

Lemma indent_Some (ls : list string) (k : nat) :
  smallestIndent ls = Some k →
  (∃ l, l ∈ ls ∧ all_space l = false ∧ String.length (leading l) = k) ∧
  (∀ l, l ∈ ls → all_space l = false → (k ≤ String.length (leading l))%nat).
Proof.
  unfold smallestIndent. intros H. pose proof (Math_min_spec
    ((λ line, String.length (leading line))
       <$> filter (λ line, truthy (VString (trim line)) = true) ls)) as Hs.
  rewrite H in Hs. destruct Hs as [Hin Hle]. split.
  - apply list_elem_of_fmap in Hin as (l & -> & Hl).
    apply list_elem_of_filter in Hl as [Hnb Hl].
    exists l. split; [done|]. split; [|done].
    rewrite nonblank_spec in Hnb. by destruct (all_space l).
  - intros l Hl Ha. apply Hle, list_elem_of_fmap. exists l. split; [done|].
    apply list_elem_of_filter. split; [|done]. by rewrite nonblank_spec, Ha.
Qed.

Lemma indent_after (ls : list string) (k : nat) :
  smallestIndent ls = Some k → smallestIndent (drop k <$> ls) = Some 0%nat.
Proof.
  intros H. destruct (indent_Some ls k H) as [(l & Hl & Ha & Hk) Hle].
  apply Math_min_zero, list_elem_of_fmap. exists (drop k l).
  destruct (leading_drop k l Ha) as [Ha' Hk']; [lia|].
  split; [lia|]. apply list_elem_of_filter. split.
  - by rewrite nonblank_spec, Ha'.
  - apply list_elem_of_fmap. by exists l.
Qed.

Lemma drop_nil (k : nat) : drop k EmptyString = EmptyString.
Proof. by destruct k. Qed.

Lemma drop_all (k : nat) (s : string) :
  (String.length s ≤ k)%nat → drop k s = EmptyString.
Proof.
  revert s. induction k as [|k IH]; intros s.
  - destruct s; [done|]. cbn. lia.
  - destruct s as [|c s]; [done|]. cbn [String.length drop]. intros H.
    apply IH. lia.
Qed.

Lemma leading_length (s : string) :
  (String.length (leading s) ≤ String.length s)%nat.
Proof.
  induction s as [|c s IH]; [done|]. cbn [leading].
  destruct (isSpace c); cbn [String.length]; lia.
Qed.

Lemma drop_leading (k : nat) (s : string) :
  (k ≤ String.length (leading s))%nat → trimStart (drop k s) = trimStart s.
Proof.
  revert s. induction k as [|k IH]; intros s; [done|].
  destruct s as [|c s]; [done|]. cbn [leading trimStart drop].
  destruct (isSpace c); cbn [String.length]; [|lia]. intros H. apply IH. lia.
Qed.

End DedentFacts.

(** X16. [dedent] keeps the lines of a text and takes the same number of
    characters off the front of each: off a line that has text, white
    space only, so that the text of the line is unchanged; and as many as
    that allows, so that after it some line with text starts at the first
    column, when any line has text.  A line of white space alone is cut by
    that number too, and emptied when no line has text.  Dedenting a text
    a second time changes nothing. *)
Theorem dedent_takes_off_the_common_indentation (str : string) :
  ∃ k : nat,
    Forall2 (λ line line', line' = Dedent.drop k line)
            (Dedent.split str) (Dedent.split (Dedent.dedent str)) ∧
    Forall2 (λ line line',
               Dedent.trim line ≠ EmptyString →
               (k ≤ String.length (Dedent.leading line))%nat ∧
               Dedent.trimStart line' = Dedent.trimStart line)
            (Dedent.split str) (Dedent.split (Dedent.dedent str)) ∧
    ((∃ line, line ∈ Dedent.split str ∧ Dedent.trim line ≠ EmptyString) →
     ∃ line', line' ∈ Dedent.split (Dedent.dedent str) ∧
              Dedent.trim line' ≠ EmptyString ∧
              Dedent.leading line' = EmptyString) ∧
    ((∀ line, line ∈ Dedent.split str → Dedent.trim line = EmptyString) →
     Forall (λ line', line' = EmptyString) (Dedent.split (Dedent.dedent str))) ∧
    Dedent.dedent (Dedent.dedent str) = Dedent.dedent str.
Proof.
  assert (Hblank : ∀ l, Dedent.trim l = EmptyString ↔ Dedent.all_space l = true).
  { intros l. pose proof (DedentFacts.nonblank_spec l) as H. unfold truthy in H.
    destruct (Dedent.all_space l); cbn [negb] in H.
    - apply negb_false_iff, String.eqb_eq in H. by rewrite H.
    - apply negb_true_iff, String.eqb_neq in H. split; [done|discriminate]. }
  assert (Hsplit : Dedent.split (Dedent.dedent str)
                   = Dedent.slice (Dedent.smallestIndent (Dedent.split str))
                       <$> Dedent.split str)
    by apply DedentFacts.split_join_slice.
  rewrite Hsplit.
  destruct (Dedent.smallestIndent (Dedent.split str)) as [k|] eqn:Hm.
  - destruct (DedentFacts.indent_Some _ k Hm) as [(l0 & Hl0 & Ha0 & Hk0) Hle].
    exists k. cbn [Dedent.slice].
    split; [by apply Forall2_fmap_r, Forall_Forall2_diag, list.Forall_forall|].
    split.
    { apply Forall2_fmap_r, Forall_Forall2_diag, list.Forall_forall.
      intros l Hl Hnb.
      assert (Dedent.all_space l = false) as Ha.
      { destruct (Dedent.all_space l) eqn:E; [|done]. by apply Hblank in E. }
      split; [by apply Hle|]. by apply DedentFacts.drop_leading, Hle. }
    split.
    { intros _. exists (Dedent.drop k l0).
      destruct (DedentFacts.leading_drop k l0 Ha0) as [Ha' Hk']; [lia|].
      split; [apply list_elem_of_fmap; by exists l0|]. split.
      - intros E%Hblank. congruence.
      - destruct (Dedent.leading (Dedent.drop k l0)); [done|].
        cbn [String.length] in Hk'. lia. }
    split.
    { intros Hall. specialize (Hall l0 Hl0). apply Hblank in Hall. congruence. }
    unfold Dedent.dedent at 1.
    rewrite Hsplit. change (Dedent.slice (Some k)) with (Dedent.drop k).
    rewrite (DedentFacts.indent_after _ k Hm).
    unfold Dedent.dedent. rewrite Hm.
    f_equal. rewrite <- list_fmap_compose. by apply list_fmap_ext.
  - pose proof (DedentFacts.indent_None _ Hm) as Hall.
    exists (foldr Nat.max 0%nat (String.length <$> Dedent.split str)).
    cbn [Dedent.slice].
    assert (Hmax : ∀ l, l ∈ Dedent.split str →
              (String.length l
               ≤ foldr Nat.max 0%nat (String.length <$> Dedent.split str))%nat).
    { generalize (Dedent.split str). intros ls.
      induction ls as [|l' ls IH]; intros l Hl; [by apply elem_of_nil in Hl|].
      rewrite fmap_cons. cbn [foldr].
      apply elem_of_cons in Hl as [->|Hl]; [lia|]. specialize (IH l Hl). lia. }
    split.
    { apply Forall2_fmap_r, Forall_Forall2_diag, list.Forall_forall.
      intros l Hl. symmetry. by apply DedentFacts.drop_all, Hmax. }
    split.
    { apply Forall2_fmap_r, Forall_Forall2_diag, list.Forall_forall.
      intros l Hl Hnb. exfalso. apply Hnb, Hblank.
      by apply (proj1 (list.Forall_forall _ _) Hall). }
    split.
    { intros (l & Hl & Hnb). exfalso. apply Hnb, Hblank.
      by apply (proj1 (list.Forall_forall _ _) Hall). }
    split.
    { intros _. apply Forall_fmap, list.Forall_forall. by intros l _. }
    unfold Dedent.dedent at 1.
    rewrite Hsplit.
    unfold Dedent.dedent. rewrite Hm.
    f_equal. rewrite <- list_fmap_compose. apply list_fmap_ext. intros i l _.
    cbn [compose].
    generalize (Dedent.smallestIndent (Dedent.slice None <$> Dedent.split str)).
    intros [k|]; [apply DedentFacts.drop_nil|done].
Qed.

(* ===================================================================== *)
(** * Further properties: the HTTP routes *)
(* ===================================================================== *)

Section routes.
Import NoteRoutes.

Lemma check_id_accepted (s : string) :
  accepted s = true → ∃ u, value u = s ∧ check_id s = inr u.
Proof.
  intros H. destruct (UuidV4_new_accepted s H) as (u & Hu & Hv).
  exists u. split; [done|]. unfold check_id. by rewrite Hu.
Qed.

Lemma check_id_rejected (s : string) :
  accepted s = false →
  check_id s = inl [status StatusCodes.BAD_REQUEST;
                    json (error_body ("Invalid id " ++ s))].
Proof. intros H. unfold check_id. by rewrite (UuidV4_new_rejected s H). Qed.

Lemma service_findById_run (o : Driver.Outcome) (u : UuidV4) (t : Sql.Table) :
  NoteService.findById o (VUuidV4 u) t =
  match o with
  | Some code => (Throw (ServiceError (DaoError (SqliteError code))), t)
  | None =>
      match t !! Uuid.parse_bytes (value u) with
      | None => (Ok None, t)
      | Some c =>
          match NoteDao.mapRowToNote (Uuid.parse_bytes (value u), c) with
          | Ok n => (Ok (Some n), t)
          | Throw e => (Throw (ServiceError (DaoError e)), t)
          end
      end
  end.
Proof.
  unfold NoteService.findById, try_catch.
  change (instanceOf (VUuidV4 u) CUuidV4) with true. cbn [negb].
  rewrite findById_run. destruct o; [done|].
  destruct (t !! Uuid.parse_bytes (value u)); [|done].
  by destruct (NoteDao.mapRowToNote _).
Qed.









(** ** Reading a number off a query parameter *)






End routes.

(** X17. GET /notes/:id answers 400 with [Invalid id ...] for a parameter
    that is not a version-4 identifier, without a call of the service; 404
    with an empty body when the identifier has no row; the stored note,
    its identifier in lowercase, when it has one.  When the driver fails
    the lookup the handler writes no response and does not call [next]:
    building the log message reads the undeclared [idValue], and the
    handler ends rejected with that [ReferenceError].  The table is never
    changed. *)
Theorem get_note_responses (o : Driver.Outcome) (id_param : string) (t : Sql.Table) :
  (NoteRoutes.get_note o id_param t).2 = t ∧
  (accepted id_param = false →
   (NoteRoutes.get_note o id_param t).1
   = ([NoteRoutes.status 400;
       NoteRoutes.json (NoteRoutes.error_body ("Invalid id " ++ id_param))],
      NoteRoutes.fulfilled)) ∧
  (accepted id_param = true →
   match o, t !! Uuid.parse_bytes id_param with
   | Some _, _ =>
       (NoteRoutes.get_note o id_param t).1 = ([], NoteRoutes.rejected_ReferenceError)
   | None, None =>
       (NoteRoutes.get_note o id_param t).1
       = ([NoteRoutes.status 404; NoteRoutes.send], NoteRoutes.fulfilled)
   | None, Some c =>
       ∃ n : Note,
         (NoteRoutes.get_note o id_param t).1
         = ([NoteRoutes.json (NoteRoutes.note_body n)], NoteRoutes.fulfilled) ∧
         value (id n) = Uuid.toLowerCase id_param ∧
         content n = Sql.content c ∧
         creationDateTime n = Sql.creationDateTime c ∧
         lastUpdatedDateTime n = Sql.lastUpdatedDateTime c
   end).
Proof.
  unfold NoteRoutes.get_note.
  destruct (accepted id_param) eqn:Hacc.
  - destruct (check_id_accepted id_param Hacc) as (u & Hu & ->).
    rewrite service_findById_run, Hu.
    destruct o as [code|]; [by repeat split|].
    destruct (t !! Uuid.parse_bytes id_param) as [c|] eqn:Hk; [|by repeat split].
    destruct (mapRowToNote_ok (Uuid.parse_bytes id_param, c))
      as (n & Hmap & Hid & Hc & Hcr & Hlu); [apply parse_bytes_length|].
    rewrite Hmap. cbn [fst snd] in *.
    rewrite (RoundTrip.v4_parse _ Hacc) in Hid.
    split; [done|]. split; [done|]. intros _. by exists n.
  - rewrite (check_id_rejected id_param Hacc). by repeat split.
Qed.

Lemma get_note_responses_witness :
  accepted "109156BE-C4FB-41EA-B1B4-EFE1671C5836" = true ∧
  ∃ n : Note,
    (NoteRoutes.get_note None "109156BE-C4FB-41EA-B1B4-EFE1671C5836" Sample.one_note).1
    = ([NoteRoutes.json (NoteRoutes.note_body n)], NoteRoutes.fulfilled) ∧
    value (id n) = "109156be-c4fb-41ea-b1b4-efe1671c5836" ∧
    content n = "testNoteContent".
Proof.
  split; [reflexivity|].
  pose proof (proj2 (proj2 (get_note_responses None
                              "109156BE-C4FB-41EA-B1B4-EFE1671C5836"
                              Sample.one_note)) eq_refl) as H.
  replace (Sample.one_note !! Uuid.parse_bytes "109156BE-C4FB-41EA-B1B4-EFE1671C5836")
    with (Some (Sql.MkCols "testNoteContent" 1000 1000)) in H
    by (symmetry; apply lookup_singleton_eq).
  destruct H as (n & H1 & H2 & H3 & _). exists n. by repeat split.
Defined.









(* ===================================================================== *)
(** * Further properties: which notes chained pages can reach *)
(* ===================================================================== *)

Lemma memcmp_trans_gt (a b c : list byte) :
  memcmp a b = Gt → memcmp b c = Gt → memcmp a c = Gt.
Proof.
  revert b c. induction a as [|x a IH]; intros [|y b] [|z c]; simpl; try done.
  destruct (Z.compare_spec (unsigned x) (unsigned y)),
           (Z.compare_spec (unsigned y) (unsigned z)),
           (Z.compare_spec (unsigned x) (unsigned z));
    try done; try lia.
  apply IH.
Qed.

Lemma select_page_after (cursor : option (list byte)) (n : Z) (t : Sql.Table)
    (r : Sql.Row) :
  r ∈ Sql.select_page cursor n t → Sql.where_after cursor r = true.
Proof.
  unfold Sql.select_page. intros H%limit_sublist.
  rewrite merge_sort_Permutation in H.
  by apply list_elem_of_filter in H as [H _].
Qed.

(** Every note of a page asked for with a cursor has an identifier above
    the cursor, in the byte order of the keys. *)
Lemma page_after_cursor (t : Sql.Table) (ps : Value) (bound : Z) (u : UuidV4) :
  keys_v4 t → valid_pageSize ps bound →
  Forall (λ n : Note,
            memcmp (Uuid.parse_bytes (value (id n))) (Uuid.parse_bytes (value u)) = Gt)
         (Scenario.page_notes (NoteDao.list None ps (VUuidV4 u) t)).
Proof.
  intros Hk Hps.
  destruct (list_run t ps (VUuidV4 u) bound (Some (Uuid.parse_bytes (value u)))
              (keys_v4_keys_16 t Hk) Hps (afterId_given u)) as (ns & -> & HF).
  unfold Scenario.page_notes. cbn [fst notes].
  apply list.Forall_forall. intros n Hn.
  apply list_elem_of_lookup in Hn as [i Hi].
  destruct (Forall2_lookup_r _ _ _ _ _ HF Hi)
    as ([k c] & Hr%list_elem_of_lookup_2 & Hmap).
  pose proof (select_page_stored _ _ _ _ Hr) as Hstored.
  pose proof (select_page_after _ _ _ _ Hr) as Hafter.
  cbn [fst snd] in *. apply where_after_spec in Hafter. cbn [fst] in Hafter.
  destruct (Hk k c Hstored) as [Hlen Hst].
  destruct (mapRowToNote_inv _ _ Hmap) as (Hid & _). cbn [fst] in Hid.
  by rewrite Hid, RoundTrip.parse_v4, Hst.
Qed.

Lemma enumerate_after_cursor (t : Sql.Table) (ps : Value) (bound : Z)
    (calls : nat) (u : UuidV4) :
  keys_v4 t → valid_pageSize ps bound →
  Forall (λ n : Note,
            memcmp (Uuid.parse_bytes (value (id n))) (Uuid.parse_bytes (value u)) = Gt)
         (Scenario.enumerate calls ps (VUuidV4 u) t).
Proof.
  intros Hk Hps. revert u. induction calls as [|calls IH]; intros u; [constructor|].
  cbn [Scenario.enumerate].
  pose proof (page_after_cursor t ps bound u Hk Hps) as Hpage.
  destruct (list.last (Scenario.page_notes (NoteDao.list None ps (VUuidV4 u) t)))
    as [l|] eqn:Hlast; [|constructor].
  apply Forall_app. split; [exact Hpage|].
  assert (Hl : memcmp (Uuid.parse_bytes (value (id l)))
                      (Uuid.parse_bytes (value u)) = Gt).
  { apply (proj1 (list.Forall_forall _ _) Hpage). by apply last_Some_elem_of. }
  eapply list.Forall_impl; [apply (IH (id l))|].
  intros n Hn. exact (memcmp_trans_gt _ _ _ Hn Hl).
Qed.

(** X21. The loop that chains pages, giving the identifier of the last
    note of a page as [afterId] of the next call, only moves up in the
    byte order of the identifiers: whatever the page size and the number
    of calls, every note it returns is on the first page or has an
    identifier above that of the first page's last note.  So a stored note
    that is not on the first page and whose identifier is not above that
    of its last note is never returned, however long the loop runs. *)
Theorem chained_pages_only_move_up
    (t : Sql.Table) (ps : Value) (bound : Z) (calls : nat) :
  keys_v4 t → valid_pageSize ps bound →
  (∀ n : Note,
     n ∈ Scenario.enumerate calls ps VUndefined t →
     n ∈ Scenario.page_notes (NoteDao.list None ps VUndefined t) ∨
     ∃ l : Note,
       list.last (Scenario.page_notes (NoteDao.list None ps VUndefined t)) = Some l ∧
       memcmp (Uuid.parse_bytes (value (id n))) (Uuid.parse_bytes (value (id l))) = Gt) ∧
  (∀ (l n : Note),
     list.last (Scenario.page_notes (NoteDao.list None ps VUndefined t)) = Some l →
     n ∉ Scenario.page_notes (NoteDao.list None ps VUndefined t) →
     memcmp (Uuid.parse_bytes (value (id n))) (Uuid.parse_bytes (value (id l))) ≠ Gt →
     n ∉ Scenario.enumerate calls ps VUndefined t).
Proof.
  intros Hk Hps.
  assert (Hmain : ∀ n : Note,
     n ∈ Scenario.enumerate calls ps VUndefined t →
     n ∈ Scenario.page_notes (NoteDao.list None ps VUndefined t) ∨
     ∃ l : Note,
       list.last (Scenario.page_notes (NoteDao.list None ps VUndefined t)) = Some l ∧
       memcmp (Uuid.parse_bytes (value (id n))) (Uuid.parse_bytes (value (id l))) = Gt).
  { intros n. destruct calls as [|calls]; [by intros ?%elem_of_nil|].
    cbn [Scenario.enumerate].
    destruct (list.last (Scenario.page_notes (NoteDao.list None ps VUndefined t)))
      as [l|] eqn:Hlast; [|by intros ?%elem_of_nil].
    intros [Hn|Hn]%elem_of_app; [by left|]. right. exists l. split; [done|].
    by apply (proj1 (list.Forall_forall _ _)
                (enumerate_after_cursor t ps bound calls (id l) Hk Hps)). }
  split; [exact Hmain|].
  intros l n Hlast Hnot Hle Hin.
  destruct (Hmain n Hin) as [?|(l' & Hl' & Hgt)]; [done|].
  rewrite Hlast in Hl'. injection Hl' as <-. done.
Qed.

Lemma keys_v4_one_note : keys_v4 Sample.one_note.
Proof.
  intros k c Hk. unfold Sample.one_note in Hk.
  apply lookup_singleton_Some in Hk as [<- _].
  split; [apply parse_bytes_length|].
  apply parse_bytes_stamped, value_accepted.
Qed.

Lemma keys_v4_create_all (cs : list string) : keys_v4 (Scenario.create_all cs).
Proof.
  unfold Scenario.create_all.
  assert (H : ∀ (st : nat * Sql.Table),
            keys_v4 st.2 →
            keys_v4 (foldl (λ (st : nat * Sql.Table) c,
                              (S st.1,
                               (NoteDao.create (Scenario.rnds st.1)
                                  (1000 + Z.of_nat st.1) None
                                  (VNoteForCreate (MkNoteForCreate c)) st.2).2))
                       st cs).2).
  { induction cs as [|c cs IH]; intros st Hst; [done|].
    cbn [foldl]. apply IH. cbn [snd].
    eapply touched_keys_v4; [apply dao_create_touched|done]. }
  apply H. cbn [snd]. intros k c Hk. by rewrite lookup_empty in Hk.
Qed.

(** On the eleven notes: the first page ends with n1, the oldest note n0
    is stored but is not on the first page and its identifier is below
    that of n1, so no number of chained calls returns it; the notes the
    chain does return after the first page have identifiers above n1. *)
Lemma chained_pages_only_move_up_witness :
  keys_v4 Scenario.eleven_notes ∧ valid_pageSize Scenario.ten 10 ∧
  ∃ l n : Note,
    list.last Scenario.first_page = Some l ∧ content l = "n1" ∧
    n ∈ Scenario.whole_table ∧ content n = "n0" ∧
    (n ∉ Scenario.first_page) ∧
    memcmp (Uuid.parse_bytes (value (id n))) (Uuid.parse_bytes (value (id l))) = Lt ∧
    (∀ calls : nat,
       n ∉ Scenario.enumerate calls Scenario.ten VUndefined Scenario.eleven_notes) ∧
    length (Scenario.enumerate 3 Scenario.ten VUndefined Scenario.eleven_notes)
    = 27%nat ∧
    (∀ m : Note,
       m ∈ Scenario.enumerate 3 Scenario.ten VUndefined Scenario.eleven_notes →
       m ∈ Scenario.first_page ∨
       memcmp (Uuid.parse_bytes (value (id m))) (Uuid.parse_bytes (value (id l))) = Gt).
Proof.
  pose proof (keys_v4_create_all
                ["n0"; "n1"; "n2"; "n3"; "n4"; "n5"; "n6"; "n7"; "n8"; "n9"; "n10"])
    as Hkeys.
  assert (Hps : valid_pageSize Scenario.ten 10) by exact valid_pageSize_10.
  split; [exact Hkeys|]. split; [exact Hps|].
  (* the last note of the first page *)
  assert (Hl : (λ m : Note, (content m, Uuid.parse_bytes (value (id m))))
                 <$> list.last Scenario.first_page
               = Some ("n1", Uuid.stamp (Scenario.rnds 1))).
  { rewrite <- fmap_last. vm_compute. reflexivity. }
  destruct (list.last Scenario.first_page) as [l|] eqn:Hlast; [|discriminate Hl].
  apply (inj Some), pair_equal_spec in Hl as [Hlc Hlk]. cbn beta in Hlc, Hlk.
  (* the oldest note *)
  assert (Hn : (λ m : Note, (content m, Uuid.parse_bytes (value (id m))))
                 <$> list.last Scenario.whole_table
               = Some ("n0", Uuid.stamp (Scenario.rnds 0))).
  { rewrite <- fmap_last. vm_compute. reflexivity. }
  destruct (list.last Scenario.whole_table) as [n|] eqn:Hnlast; [|discriminate Hn].
  apply (inj Some), pair_equal_spec in Hn as [Hnc Hnk]. cbn beta in Hnc, Hnk.
  assert (Hnot : n ∉ Scenario.first_page).
  { intros Hin.
    assert (Hc : content n ∈ Scenario.contents Scenario.first_page).
    { unfold Scenario.contents. apply list_elem_of_fmap.
      exists n. split; [reflexivity|exact Hin]. }
    rewrite Hnc in Hc.
    assert (Hdec : bool_decide ("n0" ∈ Scenario.contents Scenario.first_page) = false)
      by (vm_compute; reflexivity).
    apply bool_decide_eq_false in Hdec. by apply Hdec. }
  assert (Hcmp : memcmp (Uuid.parse_bytes (value (id n)))
                        (Uuid.parse_bytes (value (id l))) = Lt).
  { rewrite Hnk, Hlk. vm_compute. reflexivity. }
  destruct (chained_pages_only_move_up Scenario.eleven_notes Scenario.ten 10 3
              Hkeys Hps) as [Hup _].
  exists l, n. split; [reflexivity|]. split; [exact Hlc|].
  split; [by apply last_Some_elem_of|]. split; [exact Hnc|].
  split; [exact Hnot|]. split; [exact Hcmp|]. split.
  { intros calls.
    apply (proj2 (chained_pages_only_move_up Scenario.eleven_notes Scenario.ten 10
                    calls Hkeys Hps) l n Hlast Hnot).
    by rewrite Hcmp. }
  split; [vm_compute; reflexivity|].
  intros m Hm. destruct (Hup m Hm) as [?|(l' & Hl' & Hgt)]; [by left|].
  right. unfold Scenario.first_page in Hlast. rewrite Hlast in Hl'.
  by injection Hl' as <-.
Defined.

Lemma filter_length_le {A} (P Q : A → Prop)
    `{!∀ x, Decision (P x)} `{!∀ x, Decision (Q x)} (l : list A) :
  (∀ y, P y → Q y) → (length (filter P l) ≤ length (filter Q l))%nat.
Proof.
  intros HPQ. induction l as [|y l IH]; [done|].
  rewrite !filter_cons.
  destruct (decide (P y)) as [Hp|Hp], (decide (Q y)) as [Hq|Hq]; cbn [length];
    try lia.
  by destruct Hq; apply HPQ.
Qed.

Lemma filter_length_lt {A} (P Q : A → Prop)
    `{!∀ x, Decision (P x)} `{!∀ x, Decision (Q x)} (l : list A) (x : A) :
  (∀ y, P y → Q y) → x ∈ l → Q x → ¬ P x →
  (length (filter P l) < length (filter Q l))%nat.
Proof.
  intros HPQ Hx Hq Hp. induction l as [|y l IH]; [by apply elem_of_nil in Hx|].
  rewrite !filter_cons.
  pose proof (filter_length_le P Q l HPQ) as Hle.
  apply elem_of_cons in Hx as [<-|Hx].
  - rewrite decide_False, decide_True by done. cbn [length]. lia.
  - specialize (IH Hx).
    destruct (decide (P y)) as [Hp'|Hp'], (decide (Q y)) as [Hq'|Hq']; cbn [length];
      try lia.
    by destruct Hq'; apply HPQ.
Qed.

(** The cursor that the last note of a page makes leaves fewer rows above
    it than the cursor the page was asked with. *)
Lemma rows_above_decrease (t : Sql.Table) (ps a : Value) (bound : Z)
    (cursor : option (list byte)) (l : Note) :
  keys_v4 t → valid_pageSize ps bound → valid_afterId a cursor →
  list.last (Scenario.page_notes (NoteDao.list None ps a t)) = Some l →
  (rows_above (Some (Uuid.parse_bytes (value (id l)))) t < rows_above cursor t)%nat.
Proof.
  intros Hk Hps Ha Hlast.
  destruct (list_run t ps a bound cursor (keys_v4_keys_16 t Hk) Hps Ha)
    as (ns & Hrun & HF).
  rewrite Hrun in Hlast. unfold Scenario.page_notes in Hlast. cbn [fst notes] in Hlast.
  apply last_Some_elem_of, list_elem_of_lookup in Hlast as [i Hi].
  destruct (Forall2_lookup_r _ _ _ _ _ HF Hi)
    as ([k c] & Hr%list_elem_of_lookup_2 & Hmap).
  pose proof (select_page_stored _ _ _ _ Hr) as Hstored.
  pose proof (select_page_after _ _ _ _ Hr) as Hafter.
  cbn [fst snd] in *.
  destruct (Hk k c Hstored) as [Hlen Hst].
  destruct (mapRowToNote_inv _ _ Hmap) as (Hid & _). cbn [fst] in Hid.
  rewrite Hid, RoundTrip.parse_v4, Hst by done.
  unfold rows_above. apply (filter_length_lt _ _ _ (k, c)).
  - intros r Hgt%where_after_spec. apply where_after_spec.
    destruct cursor as [cur|]; [|done].
    apply where_after_spec in Hafter. cbn [fst] in Hafter.
    exact (memcmp_trans_gt _ _ _ Hgt Hafter).
  - by apply elem_of_map_to_list.
  - done.
  - intros Hself%where_after_spec. cbn [fst] in Hself.
    by rewrite memcmp_refl in Hself.
Qed.

Lemma enumerate_ends (t : Sql.Table) (ps : Value) (bound : Z) (calls more : nat)
    (a : Value) (cursor : option (list byte)) :
  keys_v4 t → valid_pageSize ps bound → valid_afterId a cursor →
  (rows_above cursor t < calls)%nat →
  Scenario.enumerate (calls + more) ps a t = Scenario.enumerate calls ps a t.
Proof.
  intros Hk Hps. revert a cursor.
  induction calls as [|calls IH]; intros a cursor Ha Hlt; [lia|].
  cbn [Nat.add Scenario.enumerate].
  destruct (list.last (Scenario.page_notes (NoteDao.list None ps a t)))
    as [l|] eqn:Hlast; [|done].
  f_equal. apply (IH _ (Some (Uuid.parse_bytes (value (id l))))); [constructor|].
  pose proof (rows_above_decrease t ps a bound cursor l Hk Hps Ha Hlast). lia.
Qed.

(** X22. The loop that chains pages ends: on a table of [n] notes it has
    reached an empty page after at most [n + 1] calls of [list], whatever
    the page size, so that allowing it more calls returns nothing more. *)
Theorem chained_pages_end
    (t : Sql.Table) (ps : Value) (bound : Z) (calls more : nat) :
  keys_v4 t → valid_pageSize ps bound →
  (size t < calls)%nat →
  Scenario.enumerate (calls + more) ps VUndefined t
  = Scenario.enumerate calls ps VUndefined t.
Proof.
  intros Hk Hps Hlt.
  apply (enumerate_ends t ps bound calls more VUndefined None Hk Hps afterId_omitted).
  unfold rows_above.
  assert (Hall : ∀ l : list Sql.Row,
            filter (λ r, Sql.where_after None r = true) l = l).
  { induction l as [|r l IH]; [done|].
    rewrite filter_cons, decide_True by done. by f_equal. }
  by rewrite Hall, length_map_to_list.
Qed.

Lemma chained_pages_end_witness :
  keys_v4 Sample.one_note ∧ valid_pageSize VUndefined 20 ∧
  (size Sample.one_note < 2)%nat ∧
  Scenario.enumerate (2 + 5) VUndefined VUndefined Sample.one_note
  = Scenario.enumerate 2 VUndefined VUndefined Sample.one_note.
Proof.
  assert (Hsize : (size Sample.one_note < 2)%nat).
  { unfold Sample.one_note. rewrite map_size_singleton. lia. }
  split; [exact keys_v4_one_note|]. split; [constructor|]. split; [exact Hsize|].
  exact (chained_pages_end Sample.one_note VUndefined 20 2 5
           keys_v4_one_note pageSize_omitted Hsize).
Defined.
